(** * Loag/mcp-server-test: the filesystem provider and its dispatcher

    A shallow embedding of the Go sources

      - [mcp/types.go]       request and result envelopes, [ParseID];
      - the filesystem provider ([FilesystemProvider], package [mcp]):
                             [resolvePath] and the tool and resource methods;
      - [server/server.go]   the handlers that route a dotted identifier
                             to a provider;

    and then properties of them: path resolution, dispatch, and what the
    tools do to the filesystem.

    Go strings are byte strings: they are embedded as [string] (a list of
    [ascii], one per byte), [[]byte] as [list ascii].  The functions of the
    Go standard library that the provider calls ([strings], [path/filepath],
    [encoding/base64], [os]) are embedded in modules of their own, from
    their documented behaviour on a Unix system. *)

From stdpp Require Import gmap strings list fin_maps.
From Stdlib Require Import ZArith NArith Ascii String Lia DecimalString.

Local Open Scope string_scope.
Local Open Scope list_scope.
Set Warnings "-register-all".

(** ** Go errors

    An [error] value is one of the concrete error types the program can
    meet; [Error] is the method [Error() string]. *)

Inductive Errno :=
  | ENOENT | ENOTDIR | EISDIR | ENOTEMPTY | EBUSY.

Definition Errno_Error (e : Errno) : string :=
  match e with
  | ENOENT => "no such file or directory"
  | ENOTDIR => "not a directory"
  | EISDIR => "is a directory"
  | ENOTEMPTY => "directory not empty"
  | EBUSY => "device or resource busy"
  end.

Definition itoa (n : nat) : string := NilZero.string_of_uint (Nat.to_uint n).

Inductive error :=
  | errors_New (text : string)                 (* errors.New *)
  | PathError (op path : string) (e : Errno)   (* *fs.PathError *)
  | SyscallError (syscall : string) (e : Errno) (* *os.SyscallError *)
  | CorruptInputError (offset : nat)           (* base64.CorruptInputError *)
  | HTTPError (code : Z) (message : string).   (* *echo.HTTPError *)

Definition Error (e : error) : string :=
  match e with
  | errors_New text => text
  | PathError op path e => op +:+ " " +:+ path +:+ ": " +:+ Errno_Error e
  | SyscallError syscall e => syscall +:+ ": " +:+ Errno_Error e
  | CorruptInputError offset => "illegal base64 data at input byte " +:+ itoa offset
  | HTTPError code message => "code=" +:+ itoa (Z.to_nat code) +:+ ", message=" +:+ message
  end.

(** A Go function returning [(T, error)] with exactly one of them set:
    [Ok x] is [(x, nil)], [Err err] is [(zero, err)]. *)
Inductive result (T : Type) : Type :=
  | Ok (x : T)
  | Err (err : error).
Arguments Ok {T} x.
Arguments Err {T} err.

(** ** Package [strings] *)

Module GoStrings.

(** [strings.HasPrefix(s, prefix)] *)
Fixpoint HasPrefix (s prefix : string) {struct prefix} : bool :=
  match prefix, s with
  | EmptyString, _ => true
  | String _ _, EmptyString => false
  | String c prefix', String d s' => Ascii.eqb d c && HasPrefix s' prefix'
  end.

(** [strings.Contains(s, substr)] *)
Fixpoint Contains (s substr : string) : bool :=
  HasPrefix s substr ||
  match s with
  | EmptyString => false
  | String _ s' => Contains s' substr
  end.

(** [strings.Split(s, sep)] for a separator of one byte, the only kind
    the program uses: all the substrings of [s] between separators, so
    one more than there are separators. *)
Fixpoint Split (s : string) (sep : ascii) : list string :=
  match s with
  | EmptyString => [EmptyString]
  | String c s' =>
      if Ascii.eqb c sep then EmptyString :: Split s' sep
      else match Split s' sep with
           | h :: t => String c h :: t
           | [] => [String c EmptyString]
           end
  end.

(** [strings.Join(elems, sep)] *)
Definition Join (elems : list string) (sep : string) : string :=
  String.concat sep elems.

End GoStrings.

(** ** Package [path/filepath] (Unix: separator [/], no volume names) *)

Module Filepath.

Definition Separator : ascii := "/"%char.

(** [filepath.IsAbs] *)
Definition IsAbs (path : string) : bool := GoStrings.HasPrefix path "/".

(** One path element read by [Clean], with [st] the elements written so
    far (last one first).  An empty element and [.] are dropped; [..]
    removes the last element written, unless there is none to remove:
    then it is dropped at the root of a rooted path and kept (as a
    leading [..]) in a relative one. *)
Definition cleanStep (rooted : bool) (st : list string) (c : string) : list string :=
  if String.eqb c "" || String.eqb c "." then st
  else if String.eqb c ".." then
    match st with
    | top :: rest => if String.eqb top ".." then c :: st else rest
    | [] => if rooted then [] else [c]
    end
  else c :: st.

Definition cleanElems (rooted : bool) (elems : list string) : list string :=
  fold_left (cleanStep rooted) elems [].

Definition render (rooted : bool) (st : list string) : string :=
  if rooted then "/" +:+ GoStrings.Join (rev st) "/"
  else match st with
       | [] => "."
       | _ => GoStrings.Join (rev st) "/"
       end.

(** [filepath.Clean]: the shortest path name equivalent to [path] by
    purely lexical processing. *)
Definition Clean (path : string) : string :=
  let rooted := IsAbs path in
  render rooted (cleanElems rooted (GoStrings.Split path Separator)).

(** [filepath.Join]: empty elements before the first non-empty one are
    ignored, the rest is joined with [/] and cleaned. *)
Fixpoint Join (elem : list string) : string :=
  match elem with
  | [] => ""
  | e :: rest =>
      if String.eqb e "" then Join rest
      else Clean (GoStrings.Join elem "/")
  end.

(** The part of [path] up to and including its last separator. *)
Fixpoint upToLastSeparator (path : string) : string :=
  match path with
  | EmptyString => EmptyString
  | String c s' =>
      if GoStrings.Contains path "/" then String c (upToLastSeparator s')
      else EmptyString
  end.

(** [filepath.Dir]: all but the last element of [path], cleaned. *)
Definition Dir (path : string) : string := Clean (upToLastSeparator path).

(** [filepath.Abs], with [getwd] the outcome of [os.Getwd]. *)
Definition Abs (getwd : result string) (path : string) : result string :=
  if IsAbs path then Ok (Clean path)
  else match getwd with
       | Err err => Err err
       | Ok wd => Ok (Join [wd; path])
       end.

End Filepath.

(** ** Package [encoding/base64]: [StdEncoding] (RFC 4648, with padding) *)

Module Base64.

Definition encodeStd : string :=
  "ABCDEFGHIJKLMNOPQRSTUVWXYZabcdefghijklmnopqrstuvwxyz0123456789+/".

Definition padChar : ascii := "="%char.

(** The character of a 6-bit value. *)
Definition encodeChar (v : N) : ascii :=
  match String.get (N.to_nat v) encodeStd with
  | Some c => c
  | None => padChar
  end.

Fixpoint indexOf (c : ascii) (alphabet : string) (i : N) : option N :=
  match alphabet with
  | EmptyString => None
  | String d rest => if Ascii.eqb c d then Some i else indexOf c rest (i + 1)%N
  end.

(** The decoding table: the 6-bit value of a character of the alphabet. *)
Definition decodeMap (c : ascii) : option N := indexOf c encodeStd 0%N.

(** [EncodeToString]: three bytes give four characters; a last group of
    one or two bytes is padded with [=]. *)
Fixpoint encode (src : list ascii) : list ascii :=
  match src with
  | [] => []
  | [a] =>
      let a := N_of_ascii a in
      [encodeChar (a / 4); encodeChar (a mod 4 * 16); padChar; padChar]
  | [a; b] =>
      let a := N_of_ascii a in
      let b := N_of_ascii b in
      [encodeChar (a / 4); encodeChar (a mod 4 * 16 + b / 16);
       encodeChar (b mod 16 * 4); padChar]
  | a :: b :: c :: rest =>
      let a := N_of_ascii a in
      let b := N_of_ascii b in
      let c := N_of_ascii c in
      encodeChar (a / 4) :: encodeChar (a mod 4 * 16 + b / 16) ::
      encodeChar (b mod 16 * 4 + c / 64) :: encodeChar (c mod 64) :: encode rest
  end%N.

Definition EncodeToString (src : list ascii) : string :=
  string_of_list_ascii (encode src).

(** The bytes of a quantum of [dlen] 6-bit values ([2 <= dlen <= 4]; the
    missing values count as zero): [dlen - 1] bytes. *)
Definition quantumBytes (dbuf : list N) : list ascii :=
  let v0 := nth 0%nat dbuf 0%N in
  let v1 := nth 1%nat dbuf 0%N in
  let v2 := nth 2%nat dbuf 0%N in
  let v3 := nth 3%nat dbuf 0%N in
  let b0 := ascii_of_N ((v0 * 4 + v1 / 16) mod 256) in
  let b1 := ascii_of_N ((v1 mod 16 * 16 + v2 / 4) mod 256) in
  let b2 := ascii_of_N ((v2 mod 4 * 64 + v3) mod 256) in
  firstn (List.length dbuf - 1) [b0; b1; b2].

Definition isNewline (c : ascii) : bool :=
  Ascii.eqb c "010"%char || Ascii.eqb c "013"%char.

(** Skips the newlines at the head of the input; the number skipped and
    what is left. *)
Fixpoint skipNewlines (src : list ascii) : nat * list ascii :=
  match src with
  | c :: rest =>
      if isNewline c then let '(k, rest') := skipNewlines rest in (S k, rest')
      else (0, src)
  | [] => (0, [])
  end.

(** After the padding of the last quantum only newlines may follow. *)
Definition finish (src : list ascii) (si : nat) (dbuf : list N) (dst : list ascii)
  : result (list ascii) :=
  let '(k, rest) := skipNewlines src in
  match rest with
  | [] => Ok (dst ++ quantumBytes dbuf)
  | _ :: _ => Err (CorruptInputError (si + k))
  end.

(** The decoding loop: [si] is the index in the input of the head of
    [src], [dbuf] the 6-bit values of the quantum being read, [dst] the
    bytes decoded so far. *)
Fixpoint decode (src : list ascii) (si : nat) (dbuf : list N) (dst : list ascii)
  : result (list ascii) :=
  match src with
  | [] =>
      match dbuf with
      | [] => Ok dst
      | _ :: _ => Err (CorruptInputError (si - List.length dbuf))
      end
  | c :: rest =>
      match decodeMap c with
      | Some v =>
          let dbuf' := dbuf ++ [v] in
          if Nat.eqb (List.length dbuf') 4
          then decode rest (S si) [] (dst ++ quantumBytes dbuf')
          else decode rest (S si) dbuf' dst
      | None =>
          if isNewline c then decode rest (S si) dbuf dst
          else if negb (Ascii.eqb c padChar) then Err (CorruptInputError si)
          else
            match List.length dbuf with
            | 0 | 1 => Err (CorruptInputError si)
            | 2 =>
                (* a second [=] is expected *)
                let '(k, rest1) := skipNewlines rest in
                match rest1 with
                | [] => Err (CorruptInputError (S si + k))
                | c2 :: rest2 =>
                    if negb (Ascii.eqb c2 padChar)
                    then Err (CorruptInputError (S si + k - 1))
                    else finish rest2 (S si + k + 1) dbuf dst
                end
            | _ => finish rest (S si) dbuf dst
            end
      end
  end.

Definition DecodeString (s : string) : result (list ascii) :=
  decode (list_ascii_of_string s) 0 [] [].

End Base64.

(** ** Package [os]: the filesystem the provider runs on

    The system calls are outside the program.  They are modelled by an
    in-memory filesystem: a finite map from the names of a node from the
    root (a list of path elements) to the node, a file with its bytes or a
    directory; the root directory is always there.  There are no symbolic
    links, no device files, no permissions and no quotas: a call fails
    only for the reasons below, and [..] goes to the parent by name.
    [cwd] is the working directory of the process and [clock] the time a
    write is stamped with. *)

Module OS.

Inductive Node :=
  | File (data : list ascii) (modTime : Z)
  | Directory (modTime : Z).

Abbreviation Files := (gmap (list string) Node).

Record State := {
  files : Files;
  cwd : list string;
  clock : Z;
}.

(** [fs.FileInfo], as returned by [Stat] and [DirEntry.Info]. *)
Record FileInfo := {
  Name : string;
  Size : Z;
  IsDir : bool;
  ModTime : Z;
}.

(** [fs.DirEntry] *)
Record DirEntry := {
  entryName : string;
  entryIsDir : bool;
  entryInfo : result FileInfo;
}.

(** [os.IsNotExist] *)
Definition IsNotExist (err : error) : bool :=
  match err with
  | PathError _ _ ENOENT | SyscallError _ ENOENT => true
  | _ => false
  end.

Definition nodeAt (fs : Files) (k : list string) : option Node :=
  match k with
  | [] => Some (Directory 0)
  | _ :: _ => fs !! k
  end.

Definition pathName (k : list string) : string :=
  "/" +:+ GoStrings.Join k "/".

(** Path resolution, one element at a time from the directory [cur]:
    every element is looked up in a directory that exists; the node the
    last element names need not exist. An empty element (a doubled or a
    trailing separator) is resolved as [.]. *)
Fixpoint namei (fs : Files) (cur : list string) (elems : list string)
  : list string + Errno :=
  match elems with
  | [] => inl cur
  | e :: rest =>
      match nodeAt fs cur with
      | None => inr ENOENT
      | Some (File _ _) => inr ENOTDIR
      | Some (Directory _) =>
          if String.eqb e "" || String.eqb e "." then namei fs cur rest
          else if String.eqb e ".." then namei fs (removelast cur) rest
          else namei fs (cur ++ [e]) rest
      end
  end.

Definition resolve (σ : State) (name : string) : list string + Errno :=
  if String.eqb name "" then inr ENOENT
  else namei (files σ) (if Filepath.IsAbs name then [] else cwd σ)
             (GoStrings.Split name Filepath.Separator).

Definition lookupNode (σ : State) (name : string) : (list string * Node) + Errno :=
  match resolve σ name with
  | inr e => inr e
  | inl k =>
      match nodeAt (files σ) k with
      | None => inr ENOENT
      | Some n => inl (k, n)
      end
  end.

Definition baseName (k : list string) : string :=
  match last k with
  | Some e => e
  | None => "/"
  end.

(** The size of a directory depends on the system; the model reports
    one block of 4096 bytes. *)
Definition infoOf (k : list string) (n : Node) : FileInfo :=
  match n with
  | File data t =>
      {| Name := baseName k; Size := Z.of_nat (List.length data);
         IsDir := false; ModTime := t |}
  | Directory t =>
      {| Name := baseName k; Size := 4096; IsDir := true; ModTime := t |}
  end.

(** [os.Getwd] *)
Definition Getwd (σ : State) : result string :=
  match nodeAt (files σ) (cwd σ) with
  | Some (Directory _) => Ok (pathName (cwd σ))
  | _ => Err (SyscallError "getwd" ENOENT)
  end.

(** [os.Stat] *)
Definition Stat (σ : State) (name : string) : result FileInfo :=
  match lookupNode σ name with
  | inl (k, n) => Ok (infoOf k n)
  | inr e => Err (PathError "stat" name e)
  end.

(** [os.ReadFile] *)
Definition ReadFile (σ : State) (name : string) : result (list ascii) :=
  match lookupNode σ name with
  | inl (_, File data _) => Ok data
  | inl (_, Directory _) => Err (PathError "read" name EISDIR)
  | inr e => Err (PathError "open" name e)
  end.

(** The name of [k'] in the directory [k], when [k'] is a child of [k]. *)
Fixpoint childName (k k' : list string) : option string :=
  match k, k' with
  | [], [e] => Some e
  | c :: k1, c' :: k1' => if String.eqb c c' then childName k1 k1' else None
  | _, _ => None
  end.

Definition children (fs : Files) (k : list string) : list (string * Node) :=
  omap (λ '(k', n), match childName k k' with
                    | Some e => Some (e, n)
                    | None => None
                    end) (map_to_list fs).

Fixpoint insertByName (x : string * Node) (l : list (string * Node))
  : list (string * Node) :=
  match l with
  | [] => [x]
  | y :: l' => if String.leb (fst x) (fst y) then x :: l else y :: insertByName x l'
  end.

Definition sortByName (l : list (string * Node)) : list (string * Node) :=
  foldr insertByName [] l.

(** [os.ReadDir]: the entries of the directory, sorted by filename. *)
Definition ReadDir (σ : State) (name : string) : result (list DirEntry) :=
  match lookupNode σ name with
  | inl (k, Directory _) =>
      Ok (map (λ '(e, n), {| entryName := e;
                             entryIsDir := IsDir (infoOf (k ++ [e]) n);
                             entryInfo := Ok (infoOf (k ++ [e]) n) |})
              (sortByName (children (files σ) k)))
  | inl (_, File _ _) => Err (PathError "readdirent" name ENOTDIR)
  | inr e => Err (PathError "open" name e)
  end.

Definition setFiles (σ : State) (fs : Files) : State :=
  {| files := fs; cwd := cwd σ; clock := clock σ |}.

(** [os.MkdirAll]: walks the path like [namei] and creates each missing
    directory on the way; a file on the way is an error, which leaves
    the directories created before it. *)
Fixpoint mkdirAll (now : Z) (fs : Files) (cur : list string) (elems : list string)
  : Files * option error :=
  match elems with
  | [] => (fs, None)
  | e :: rest =>
      if String.eqb e "" || String.eqb e "." then mkdirAll now fs cur rest
      else if String.eqb e ".." then mkdirAll now fs (removelast cur) rest
      else
        let k := cur ++ [e] in
        match fs !! k with
        | Some (Directory _) => mkdirAll now fs k rest
        | Some (File _ _) => (fs, Some (PathError "mkdir" (pathName k) ENOTDIR))
        | None => mkdirAll now (<[k := Directory now]> fs) k rest
        end
  end.

Definition MkdirAll (σ : State) (path : string) : State * option error :=
  if String.eqb path "" then (σ, Some (PathError "mkdir" path ENOENT))
  else
    let start := if Filepath.IsAbs path then [] else cwd σ in
    match nodeAt (files σ) start with
    | Some (Directory _) =>
        let '(fs, err) := mkdirAll (clock σ) (files σ) start
                                   (GoStrings.Split path Filepath.Separator) in
        (setFiles σ fs, err)
    | _ => (σ, Some (PathError "mkdir" path ENOENT))
    end.

(** [os.WriteFile]: creates the file or truncates it, then writes. *)
Definition WriteFile (σ : State) (name : string) (data : list ascii)
  : State * option error :=
  match resolve σ name with
  | inr e => (σ, Some (PathError "open" name e))
  | inl [] => (σ, Some (PathError "open" name EISDIR))
  | inl k =>
      match files σ !! k with
      | Some (Directory _) => (σ, Some (PathError "open" name EISDIR))
      | _ => (setFiles σ (<[k := File data (clock σ)]> (files σ)), None)
      end
  end.

(** [os.Remove]: a file, or a directory that is empty. *)
Definition Remove (σ : State) (name : string) : State * option error :=
  match lookupNode σ name with
  | inr e => (σ, Some (PathError "remove" name e))
  | inl ([], _) => (σ, Some (PathError "remove" name EBUSY))
  | inl (k, File _ _) => (setFiles σ (delete k (files σ)), None)
  | inl (k, Directory _) =>
      match children (files σ) k with
      | [] => (setFiles σ (delete k (files σ)), None)
      | _ :: _ => (σ, Some (PathError "remove" name ENOTEMPTY))
      end
  end.

Fixpoint isPrefixOf (k k' : list string) : bool :=
  match k, k' with
  | [], _ => true
  | c :: k1, c' :: k1' => String.eqb c c' && isPrefixOf k1 k1'
  | _ :: _, [] => false
  end.

(** [os.RemoveAll]: the node and everything below it; a name that does
    not exist is no error. *)
Definition RemoveAll (σ : State) (path : string) : State * option error :=
  match lookupNode σ path with
  | inr ENOENT => (σ, None)
  | inr e => (σ, Some (PathError "unlinkat" path e))
  | inl (k, _) =>
      let fs := filter (λ kn, isPrefixOf k (fst kn) = false) (files σ) in
      match k with
      | [] => (setFiles σ fs, Some (PathError "unlinkat" path EBUSY))
      | _ :: _ => (setFiles σ fs, None)
      end
  end.

End OS.

(** ** Package [mcp]: [types.go] *)

(** A value of type [interface{}] as [encoding/json] decodes it, or as the
    program builds it.  A number is a [float64], kept as its IEEE 754
    bits: the program never looks into one. *)
Inductive Value :=
  | VNil
  | VBool (b : bool)
  | VFloat64 (bits : Z)
  | VString (s : string)
  | VArray (elems : list Value)
  | VObject (fields : list (string * Value)).

(** The type assertions [v.(string)] and [v.(bool)] on the outcome of a
    map lookup: they fail on a missing key (a nil interface) as on a value
    of another type. *)
Definition assertString (v : option Value) : option string :=
  match v with
  | Some (VString s) => Some s
  | _ => None
  end.

Definition assertBool (v : option Value) : option bool :=
  match v with
  | Some (VBool b) => Some b
  | _ => None
  end.

Module ToolInfo.
Record t := {
  ID : string;
  Name : string;
  Description : string;
  Parameters : Value;
}.
End ToolInfo.

Module ResourceInfo.
Record t := {
  ID : string;
  Name : string;
  Description : string;
  Parameters : Value;
}.
End ResourceInfo.

Module ProviderInfo.
Record t := {
  Name : string;
  Description : string;
  Tools : list ToolInfo.t;
  Resources : list ResourceInfo.t;
}.
End ProviderInfo.

Module CallToolParams.
Record t := { Arguments : gmap string Value }.
End CallToolParams.

Module CallToolRequest.
Record t := {
  ToolID : string;
  RequestID : string;
  Params : CallToolParams.t;
}.
End CallToolRequest.

Module LoadResourceRequest.
Record t := {
  ResourceID : string;
  RequestID : string;
  Params : gmap string Value;
}.
End LoadResourceRequest.

Module ErrorInfo.
Record t := {
  Code : string;
  Message : string;
}.
End ErrorInfo.

Module ErrorResponse.
Record t := {
  Error : string;
  Message : string;
}.
End ErrorResponse.

Module FileInfo.
Record t := {
  Name : string;
  Path : string;
  Size : Z;
  IsDir : bool;
  ModTime : Z;
}.
End FileInfo.

Module FileContent.
Record t := {
  Path : string;
  Content : string;
  IsText : bool;
}.
End FileContent.

Module DirectoryContent.
Record t := {
  Path : string;
  Files : list FileInfo.t;
}.
End DirectoryContent.

(** What the program passes as [data interface{}] to the JSON results. *)
Inductive Data :=
  | FileContentData (fileContent : FileContent.t)
  | DirectoryContentData (dirContent : DirectoryContent.t).

(** The payload of a result, the Go map [{"type": "text", "text": text}]
    or [{"type": "json", "json": data}]. *)
Inductive Payload :=
  | PayloadText (text : string)
  | PayloadJSON (data : Data).

Definition payloadType (p : Payload) : string :=
  match p with
  | PayloadText _ => "text"
  | PayloadJSON _ => "json"
  end.

Module CallToolResult.
Record t := {
  RequestID : string;
  Status : string;
  Result : option Payload;
  Error : option ErrorInfo.t;
}.

(** [result.RequestID = id] *)
Definition setRequestID (result : t) (id : string) : t :=
  {| RequestID := id; Status := Status result;
     Result := Result result; Error := Error result |}.
End CallToolResult.

Module LoadResourceResult.
Record t := {
  RequestID : string;
  Status : string;
  Content : option Payload;
  Error : option ErrorInfo.t;
}.

Definition setRequestID (result : t) (id : string) : t :=
  {| RequestID := id; Status := Status result;
     Content := Content result; Error := Error result |}.
End LoadResourceResult.

(** [ParseID] parses a dot-separated ID into its components. *)
Definition ParseID (id : string) : list string := GoStrings.Split id "."%char.

Definition NewToolResultText (text : string) : CallToolResult.t :=
  {| CallToolResult.RequestID := "";
     CallToolResult.Status := "success";
     CallToolResult.Result := Some (PayloadText text);
     CallToolResult.Error := None |}.

Definition NewToolResultJSON (data : Data) : CallToolResult.t :=
  {| CallToolResult.RequestID := "";
     CallToolResult.Status := "success";
     CallToolResult.Result := Some (PayloadJSON data);
     CallToolResult.Error := None |}.

Definition NewToolResultError (message : string) : CallToolResult.t :=
  {| CallToolResult.RequestID := "";
     CallToolResult.Status := "error";
     CallToolResult.Result := None;
     CallToolResult.Error :=
       Some {| ErrorInfo.Code := "execution_error"; ErrorInfo.Message := message |} |}.

Definition NewResourceResultText (text : string) : LoadResourceResult.t :=
  {| LoadResourceResult.RequestID := "";
     LoadResourceResult.Status := "success";
     LoadResourceResult.Content := Some (PayloadText text);
     LoadResourceResult.Error := None |}.

Definition NewResourceResultJSON (data : Data) : LoadResourceResult.t :=
  {| LoadResourceResult.RequestID := "";
     LoadResourceResult.Status := "success";
     LoadResourceResult.Content := Some (PayloadJSON data);
     LoadResourceResult.Error := None |}.

Definition NewResourceResultError (message : string) : LoadResourceResult.t :=
  {| LoadResourceResult.RequestID := "";
     LoadResourceResult.Status := "error";
     LoadResourceResult.Content := None;
     LoadResourceResult.Error :=
       Some {| ErrorInfo.Code := "resource_error"; ErrorInfo.Message := message |} |}.

(** What a method returns, a pointer to a result and an [error]: each of
    them nil ([None]) or not. *)
Definition ToolReturn : Type := option CallToolResult.t * option error.
Definition ResourceReturn : Type := option LoadResourceResult.t * option error.

(** The [Provider] interface, over the type [S] of the state its methods
    may read and change. *)
Record Provider (S : Type) := {
  GetName : string;
  GetInfo : ProviderInfo.t;
  CallTool : string → CallToolRequest.t → S → ToolReturn * S;
  LoadResource : string → LoadResourceRequest.t → S → ResourceReturn * S;
}.
Arguments GetName {S} _.
Arguments GetInfo {S} _.
Arguments CallTool {S} _ _ _ _.
Arguments LoadResource {S} _ _ _ _.

(** ** Package [mcp]: the filesystem provider *)

Module FilesystemProvider.
Record t := { rootDir : string }.
End FilesystemProvider.

Definition NewFilesystemProvider : FilesystemProvider.t :=
  {| FilesystemProvider.rootDir := "." |}.

Definition FilesystemProvider_GetName (p : FilesystemProvider.t) : string :=
  "filesystem".

Definition stringParam (description : string) : Value :=
  VObject [("type", VString "string"); ("description", VString description)].

Definition encodingParam (description : string) : Value :=
  VObject [("type", VString "string"); ("description", VString description);
           ("enum", VArray [VString "text"; VString "base64"]);
           ("default", VString "text")].

Definition objectSchema (properties : list (string * Value)) (required : list string)
  : Value :=
  VObject [("type", VString "object"); ("properties", VObject properties);
           ("required", VArray (map VString required))].

Definition FilesystemProvider_GetInfo (p : FilesystemProvider.t) : ProviderInfo.t :=
  {| ProviderInfo.Name := "filesystem";
     ProviderInfo.Description := "Provides access to the local filesystem";
     ProviderInfo.Tools :=
       [ {| ToolInfo.ID := "filesystem.list";
            ToolInfo.Name := "List Directory";
            ToolInfo.Description := "Lists the contents of a directory";
            ToolInfo.Parameters :=
              objectSchema [("path", stringParam "Path to the directory to list")]
                           ["path"] |};
         {| ToolInfo.ID := "filesystem.read";
            ToolInfo.Name := "Read File";
            ToolInfo.Description := "Reads the contents of a file";
            ToolInfo.Parameters :=
              objectSchema
                [("path", stringParam "Path to the file to read");
                 ("encoding", encodingParam "Encoding of the file (text or base64)")]
                ["path"] |};
         {| ToolInfo.ID := "filesystem.write";
            ToolInfo.Name := "Write File";
            ToolInfo.Description := "Writes content to a file";
            ToolInfo.Parameters :=
              objectSchema
                [("path", stringParam "Path to the file to write");
                 ("content", stringParam "Content to write to the file");
                 ("encoding", encodingParam "Encoding of the content (text or base64)")]
                ["path"; "content"] |};
         {| ToolInfo.ID := "filesystem.delete";
            ToolInfo.Name := "Delete File";
            ToolInfo.Description := "Deletes a file or directory";
            ToolInfo.Parameters :=
              objectSchema
                [("path", stringParam "Path to the file or directory to delete");
                 ("recursive",
                  VObject [("type", VString "boolean");
                           ("description",
                            VString "Whether to recursively delete directories");
                           ("default", VBool false)])]
                ["path"] |} ];
     ProviderInfo.Resources :=
       [ {| ResourceInfo.ID := "filesystem.file";
            ResourceInfo.Name := "File";
            ResourceInfo.Description := "A file in the filesystem";
            ResourceInfo.Parameters :=
              objectSchema
                [("path", stringParam "Path to the file");
                 ("encoding", encodingParam "Encoding of the file (text or base64)")]
                ["path"] |};
         {| ResourceInfo.ID := "filesystem.directory";
            ResourceInfo.Name := "Directory";
            ResourceInfo.Description := "A directory in the filesystem";
            ResourceInfo.Parameters :=
              objectSchema [("path", stringParam "Path to the directory")]
                           ["path"] |} ] |}.

(** [resolvePath] resolves and sanitizes a path. *)
Definition resolvePath (p : FilesystemProvider.t) (σ : OS.State) (path : string)
  : result string :=
  (* If the path is absolute, use it directly *)
  if Filepath.IsAbs path then Ok path
  else
    (* Clean the path to remove any ".." or "." components *)
    let cleanPath := Filepath.Clean path in
    (* Ensure the path doesn't try to escape the root directory *)
    if GoStrings.HasPrefix cleanPath ".." || GoStrings.Contains cleanPath "/../"
    then Err (errors_New "path attempts to access parent directory outside of root")
    else
      (* Resolve the full path *)
      let fullPath := Filepath.Join [FilesystemProvider.rootDir p; cleanPath] in
      (* Convert to absolute path *)
      match Filepath.Abs (OS.Getwd σ) fullPath with
      | Err err => Err err
      | Ok absPath =>
          (* If we're using a relative root directory, don't enforce the
             prefix check *)
          if Filepath.IsAbs (FilesystemProvider.rootDir p) then
            match Filepath.Abs (OS.Getwd σ) (FilesystemProvider.rootDir p) with
            | Err err => Err err
            | Ok rootAbs =>
                if negb (GoStrings.HasPrefix absPath rootAbs)
                then Err (errors_New "path is outside of root directory")
                else Ok absPath
            end
          else Ok absPath
      end.

(** [return result, nil] after [result.RequestID = request.RequestID] *)
Definition toolReturn (result : CallToolResult.t) (request : CallToolRequest.t)
  : ToolReturn :=
  (Some (CallToolResult.setRequestID result (CallToolRequest.RequestID request)), None).

Definition resourceReturn (result : LoadResourceResult.t) (request : LoadResourceRequest.t)
  : ResourceReturn :=
  (Some (LoadResourceResult.setRequestID result (LoadResourceRequest.RequestID request)),
   None).

Definition toolArguments (request : CallToolRequest.t) : gmap string Value :=
  CallToolParams.Arguments (CallToolRequest.Params request).

(** [listDirectory] lists the contents of a directory. *)
Definition listDirectory (p : FilesystemProvider.t) (request : CallToolRequest.t)
  (σ : OS.State) : ToolReturn :=
  match assertString (toolArguments request !! "path") with
  | None =>
      toolReturn (NewToolResultError "Path parameter is required and must be a string")
                 request
  | Some pathParam =>
  match resolvePath p σ pathParam with
  | Err err => toolReturn (NewToolResultError ("Invalid path: " +:+ Error err)) request
  | Ok fullPath =>
  match OS.Stat σ fullPath with
  | Err err =>
      if OS.IsNotExist err
      then toolReturn (NewToolResultError ("Directory not found: " +:+ pathParam)) request
      else toolReturn (NewToolResultError ("Error accessing directory: " +:+ Error err))
                      request
  | Ok info =>
  if negb (OS.IsDir info)
  then toolReturn (NewToolResultError ("Path is not a directory: " +:+ pathParam)) request
  else
  match OS.ReadDir σ fullPath with
  | Err err =>
      toolReturn (NewToolResultError ("Error reading directory: " +:+ Error err)) request
  | Ok entries =>
      let files :=
        foldl (λ files entry,
                 match OS.entryInfo entry with
                 | Err _ => files
                 | Ok entryInfo =>
                     files ++
                     [ {| FileInfo.Name := OS.entryName entry;
                          FileInfo.Path := Filepath.Join [pathParam; OS.entryName entry];
                          FileInfo.Size := OS.Size entryInfo;
                          FileInfo.IsDir := OS.entryIsDir entry;
                          FileInfo.ModTime := OS.ModTime entryInfo |} ]
                 end) [] entries in
      let dirContent :=
        {| DirectoryContent.Path := pathParam; DirectoryContent.Files := files |} in
      toolReturn (NewToolResultJSON (DirectoryContentData dirContent)) request
  end end end end.

(** [readFile] reads the contents of a file. *)
Definition readFile (p : FilesystemProvider.t) (request : CallToolRequest.t)
  (σ : OS.State) : ToolReturn :=
  match assertString (toolArguments request !! "path") with
  | None =>
      toolReturn (NewToolResultError "Path parameter is required and must be a string")
                 request
  | Some pathParam =>
  (* Get the encoding parameter (default to text) *)
  let encoding :=
    match assertString (toolArguments request !! "encoding") with
    | Some encodingParam => encodingParam
    | None => "text"
    end in
  match resolvePath p σ pathParam with
  | Err err => toolReturn (NewToolResultError ("Invalid path: " +:+ Error err)) request
  | Ok fullPath =>
  match OS.Stat σ fullPath with
  | Err err =>
      if OS.IsNotExist err
      then toolReturn (NewToolResultError ("File not found: " +:+ pathParam)) request
      else toolReturn (NewToolResultError ("Error accessing file: " +:+ Error err)) request
  | Ok info =>
  if OS.IsDir info
  then toolReturn (NewToolResultError ("Path is a directory, not a file: " +:+ pathParam))
                  request
  else
  match OS.ReadFile σ fullPath with
  | Err err =>
      toolReturn (NewToolResultError ("Error reading file: " +:+ Error err)) request
  | Ok data =>
      let '(content, isText) :=
        if String.eqb encoding "base64"
        then (Base64.EncodeToString data, false)
        else (string_of_list_ascii data, true) in
      let fileContent :=
        {| FileContent.Path := pathParam;
           FileContent.Content := content;
           FileContent.IsText := isText |} in
      toolReturn (NewToolResultJSON (FileContentData fileContent)) request
  end end end end.

(** [writeFile] writes content to a file. *)
Definition writeFile (p : FilesystemProvider.t) (request : CallToolRequest.t)
  (σ : OS.State) : ToolReturn * OS.State :=
  match assertString (toolArguments request !! "path") with
  | None =>
      (toolReturn (NewToolResultError "Path parameter is required and must be a string")
                  request, σ)
  | Some pathParam =>
  match assertString (toolArguments request !! "content") with
  | None =>
      (toolReturn (NewToolResultError "Content parameter is required and must be a string")
                  request, σ)
  | Some contentParam =>
  (* Get the encoding parameter (default to text) *)
  let encoding :=
    match assertString (toolArguments request !! "encoding") with
    | Some encodingParam => encodingParam
    | None => "text"
    end in
  match resolvePath p σ pathParam with
  | Err err => (toolReturn (NewToolResultError ("Invalid path: " +:+ Error err)) request, σ)
  | Ok fullPath =>
  (* Create the parent directory if it doesn't exist *)
  let parentDir := Filepath.Dir fullPath in
  match OS.MkdirAll σ parentDir with
  | (σ1, Some err) =>
      (toolReturn (NewToolResultError ("Error creating directory: " +:+ Error err))
                  request, σ1)
  | (σ1, None) =>
  (* Decode the content if necessary *)
  let decoded :=
    if String.eqb encoding "base64" then Base64.DecodeString contentParam
    else Ok (list_ascii_of_string contentParam) in
  match decoded with
  | Err err =>
      (toolReturn (NewToolResultError ("Error decoding base64 content: " +:+ Error err))
                  request, σ1)
  | Ok data =>
  (* Write the file *)
  match OS.WriteFile σ1 fullPath data with
  | (σ2, Some err) =>
      (toolReturn (NewToolResultError ("Error writing file: " +:+ Error err)) request, σ2)
  | (σ2, None) =>
      (toolReturn (NewToolResultText ("File written successfully: " +:+ pathParam))
                  request, σ2)
  end end end end end end.

(** [deleteFile] deletes a file or directory. *)
Definition deleteFile (p : FilesystemProvider.t) (request : CallToolRequest.t)
  (σ : OS.State) : ToolReturn * OS.State :=
  match assertString (toolArguments request !! "path") with
  | None =>
      (toolReturn (NewToolResultError "Path parameter is required and must be a string")
                  request, σ)
  | Some pathParam =>
  (* Get the recursive parameter (default to false) *)
  let recursive :=
    match assertBool (toolArguments request !! "recursive") with
    | Some recursiveParam => recursiveParam
    | None => false
    end in
  match resolvePath p σ pathParam with
  | Err err => (toolReturn (NewToolResultError ("Invalid path: " +:+ Error err)) request, σ)
  | Ok fullPath =>
  (* Check if the path exists *)
  match OS.Stat σ fullPath with
  | Err err =>
      if OS.IsNotExist err
      then (toolReturn (NewToolResultError ("File or directory not found: " +:+ pathParam))
                       request, σ)
      else (toolReturn (NewToolResultError ("Error accessing path: " +:+ Error err))
                       request, σ)
  | Ok info =>
  let success σ' :=
    (toolReturn (NewToolResultText ("Successfully deleted: " +:+ pathParam)) request, σ') in
  (* Delete the file or directory *)
  if OS.IsDir info then
    if recursive then
      match OS.RemoveAll σ fullPath with
      | (σ1, Some err) =>
          (toolReturn (NewToolResultError ("Error deleting directory: " +:+ Error err))
                      request, σ1)
      | (σ1, None) => success σ1
      end
    else
      (* Check if the directory is empty *)
      match OS.ReadDir σ fullPath with
      | Err err =>
          (toolReturn (NewToolResultError ("Error reading directory: " +:+ Error err))
                      request, σ)
      | Ok entries =>
          if (0 <? List.length entries)%nat
          then (toolReturn
                  (NewToolResultError
                     ("Directory is not empty: " +:+ pathParam +:+
                      ". Use recursive=true to delete non-empty directories"))
                  request, σ)
          else
            match OS.Remove σ fullPath with
            | (σ1, Some err) =>
                (toolReturn (NewToolResultError ("Error deleting directory: " +:+ Error err))
                            request, σ1)
            | (σ1, None) => success σ1
            end
      end
  else
    match OS.Remove σ fullPath with
    | (σ1, Some err) =>
        (toolReturn (NewToolResultError ("Error deleting file: " +:+ Error err))
                    request, σ1)
    | (σ1, None) => success σ1
    end
  end end end.

(** [loadFile] loads a file resource. *)
Definition loadFile (p : FilesystemProvider.t) (request : LoadResourceRequest.t)
  (σ : OS.State) : ResourceReturn :=
  match assertString (LoadResourceRequest.Params request !! "path") with
  | None =>
      resourceReturn
        (NewResourceResultError "Path parameter is required and must be a string") request
  | Some pathParam =>
  (* Get the encoding parameter (default to text) *)
  let encoding :=
    match assertString (LoadResourceRequest.Params request !! "encoding") with
    | Some encodingParam => encodingParam
    | None => "text"
    end in
  match resolvePath p σ pathParam with
  | Err err =>
      resourceReturn (NewResourceResultError ("Invalid path: " +:+ Error err)) request
  | Ok fullPath =>
  match OS.Stat σ fullPath with
  | Err err =>
      if OS.IsNotExist err
      then resourceReturn (NewResourceResultError ("File not found: " +:+ pathParam))
                          request
      else resourceReturn
             (NewResourceResultError ("Error accessing file: " +:+ Error err)) request
  | Ok info =>
  if OS.IsDir info
  then resourceReturn
         (NewResourceResultError ("Path is a directory, not a file: " +:+ pathParam))
         request
  else
  match OS.ReadFile σ fullPath with
  | Err err =>
      resourceReturn (NewResourceResultError ("Error reading file: " +:+ Error err))
                     request
  | Ok data =>
      let '(content, isText) :=
        if String.eqb encoding "base64"
        then (Base64.EncodeToString data, false)
        else (string_of_list_ascii data, true) in
      let fileContent :=
        {| FileContent.Path := pathParam;
           FileContent.Content := content;
           FileContent.IsText := isText |} in
      resourceReturn (NewResourceResultJSON (FileContentData fileContent)) request
  end end end end.

(** [loadDirectory] loads a directory resource. *)
Definition loadDirectory (p : FilesystemProvider.t) (request : LoadResourceRequest.t)
  (σ : OS.State) : ResourceReturn :=
  match assertString (LoadResourceRequest.Params request !! "path") with
  | None =>
      resourceReturn
        (NewResourceResultError "Path parameter is required and must be a string") request
  | Some pathParam =>
  match resolvePath p σ pathParam with
  | Err err =>
      resourceReturn (NewResourceResultError ("Invalid path: " +:+ Error err)) request
  | Ok fullPath =>
  match OS.Stat σ fullPath with
  | Err err =>
      if OS.IsNotExist err
      then resourceReturn (NewResourceResultError ("Directory not found: " +:+ pathParam))
                          request
      else resourceReturn
             (NewResourceResultError ("Error accessing directory: " +:+ Error err)) request
  | Ok info =>
  if negb (OS.IsDir info)
  then resourceReturn
         (NewResourceResultError ("Path is not a directory: " +:+ pathParam)) request
  else
  match OS.ReadDir σ fullPath with
  | Err err =>
      resourceReturn (NewResourceResultError ("Error reading directory: " +:+ Error err))
                     request
  | Ok entries =>
      let files :=
        foldl (λ files entry,
                 match OS.entryInfo entry with
                 | Err _ => files
                 | Ok entryInfo =>
                     files ++
                     [ {| FileInfo.Name := OS.entryName entry;
                          FileInfo.Path := Filepath.Join [pathParam; OS.entryName entry];
                          FileInfo.Size := OS.Size entryInfo;
                          FileInfo.IsDir := OS.entryIsDir entry;
                          FileInfo.ModTime := OS.ModTime entryInfo |} ]
                 end) [] entries in
      let dirContent :=
        {| DirectoryContent.Path := pathParam; DirectoryContent.Files := files |} in
      resourceReturn (NewResourceResultJSON (DirectoryContentData dirContent)) request
  end end end end.

(** [CallTool] calls a tool provided by this provider. *)
Definition FilesystemProvider_CallTool (p : FilesystemProvider.t) (toolName : string)
  (request : CallToolRequest.t) (σ : OS.State) : ToolReturn * OS.State :=
  let result :=
    {| CallToolResult.RequestID := CallToolRequest.RequestID request;
       CallToolResult.Status := "";
       CallToolResult.Result := None;
       CallToolResult.Error := None |} in
  if String.eqb toolName "list" then (listDirectory p request σ, σ)
  else if String.eqb toolName "read" then (readFile p request σ, σ)
  else if String.eqb toolName "write" then writeFile p request σ
  else if String.eqb toolName "delete" then deleteFile p request σ
  else
    ((Some {| CallToolResult.RequestID := CallToolResult.RequestID result;
              CallToolResult.Status := "error";
              CallToolResult.Result := CallToolResult.Result result;
              CallToolResult.Error :=
                Some {| ErrorInfo.Code := "unknown_tool";
                        ErrorInfo.Message := "Unknown tool: " +:+ toolName |} |},
      None), σ).

(** [LoadResource] loads a resource provided by this provider. *)
Definition FilesystemProvider_LoadResource (p : FilesystemProvider.t)
  (resourceName : string) (request : LoadResourceRequest.t) (σ : OS.State)
  : ResourceReturn * OS.State :=
  let result :=
    {| LoadResourceResult.RequestID := LoadResourceRequest.RequestID request;
       LoadResourceResult.Status := "";
       LoadResourceResult.Content := None;
       LoadResourceResult.Error := None |} in
  if String.eqb resourceName "file" then (loadFile p request σ, σ)
  else if String.eqb resourceName "directory" then (loadDirectory p request σ, σ)
  else
    ((Some {| LoadResourceResult.RequestID := LoadResourceResult.RequestID result;
              LoadResourceResult.Status := "error";
              LoadResourceResult.Content := LoadResourceResult.Content result;
              LoadResourceResult.Error :=
                Some {| ErrorInfo.Code := "unknown_resource";
                        ErrorInfo.Message := "Unknown resource: " +:+ resourceName |} |},
      None), σ).

(** [*FilesystemProvider] implements [Provider]. *)
Definition FilesystemProvider_Provider (p : FilesystemProvider.t) : Provider OS.State :=
  {| GetName := FilesystemProvider_GetName p;
     GetInfo := FilesystemProvider_GetInfo p;
     CallTool := FilesystemProvider_CallTool p;
     LoadResource := FilesystemProvider_LoadResource p |}.

(** ** Package [server] *)

Module MCPServer.
Record t (S : Type) := {
  Name : string;
  Version : string;
  Description : string;
  Providers : gmap string (Provider S);
}.
Arguments Name {S} _.
Arguments Version {S} _.
Arguments Description {S} _.
Arguments Providers {S} _.
End MCPServer.

Definition NewMCPServer {S : Type} (name version description : string) : MCPServer.t S :=
  {| MCPServer.Name := name;
     MCPServer.Version := version;
     MCPServer.Description := description;
     MCPServer.Providers := ∅ |}.

(** [RegisterProvider] registers a provider with the server. *)
Definition RegisterProvider {S : Type} (s : MCPServer.t S) (provider : Provider S)
  : MCPServer.t S :=
  {| MCPServer.Name := MCPServer.Name s;
     MCPServer.Version := MCPServer.Version s;
     MCPServer.Description := MCPServer.Description s;
     MCPServer.Providers := <[GetName provider := provider]> (MCPServer.Providers s) |}.

Definition StatusOK : Z := 200.
Definition StatusBadRequest : Z := 400.
Definition StatusNotFound : Z := 404.
Definition StatusInternalServerError : Z := 500.

(** What a handler answers: [c.JSON(code, body)], or no answer because the
    handler panicked on a nil pointer. *)
Inductive Body :=
  | BodyError (response : ErrorResponse.t)
  | BodyToolResult (result : CallToolResult.t)
  | BodyResourceResult (result : LoadResourceResult.t).

Inductive Response :=
  | JSON (code : Z) (body : Body)
  | NilPointerPanic.

(** Helper functions for parsing tool and resource IDs *)
Definition parseToolID (toolID : string) : result (string * string) :=
  let parts := ParseID toolID in
  match parts with
  | [providerName; toolName] => Ok (providerName, toolName)
  | _ =>
      Err (HTTPError StatusBadRequest "Invalid tool ID format. Expected: provider.tool")
  end.

Definition parseResourceID (resourceID : string) : result (string * string) :=
  let parts := ParseID resourceID in
  match parts with
  | [providerName; resourceName] => Ok (providerName, resourceName)
  | _ =>
      Err (HTTPError StatusBadRequest
             "Invalid resource ID format. Expected: provider.resource")
  end.

Definition errorResponse (code : Z) (error message : string) : Response :=
  JSON code (BodyError {| ErrorResponse.Error := error;
                          ErrorResponse.Message := message |}).

(** [handleCallTool] handles the call-tool endpoint; [bound] is the outcome
    of [c.Bind(&request)]. *)
Definition handleCallTool {S : Type} (s : MCPServer.t S)
  (bound : result CallToolRequest.t) (σ : S) : Response * S :=
  match bound with
  | Err _ =>
      (errorResponse StatusBadRequest "invalid_request" "Failed to parse request body", σ)
  | Ok request =>
  (* Find the provider and tool *)
  match parseToolID (CallToolRequest.ToolID request) with
  | Err err => (errorResponse StatusBadRequest "invalid_tool_id" (Error err), σ)
  | Ok (providerName, toolName) =>
  match MCPServer.Providers s !! providerName with
  | None =>
      (errorResponse StatusNotFound "provider_not_found"
                     ("Provider not found: " +:+ providerName), σ)
  | Some provider =>
  (* Call the tool *)
  match CallTool provider toolName request σ with
  | ((_, Some err), σ') =>
      (errorResponse StatusInternalServerError "tool_execution_error" (Error err), σ')
  | ((None, None), σ') => (NilPointerPanic, σ')
  | ((Some result, None), σ') =>
      (* Ensure the request ID is set *)
      let result :=
        if String.eqb (CallToolResult.RequestID result) ""
        then CallToolResult.setRequestID result (CallToolRequest.RequestID request)
        else result in
      (JSON StatusOK (BodyToolResult result), σ')
  end end end end.

(** [handleLoadResource] handles the load-resource endpoint. *)
Definition handleLoadResource {S : Type} (s : MCPServer.t S)
  (bound : result LoadResourceRequest.t) (σ : S) : Response * S :=
  match bound with
  | Err _ =>
      (errorResponse StatusBadRequest "invalid_request" "Failed to parse request body", σ)
  | Ok request =>
  (* Find the provider and resource *)
  match parseResourceID (LoadResourceRequest.ResourceID request) with
  | Err err => (errorResponse StatusBadRequest "invalid_resource_id" (Error err), σ)
  | Ok (providerName, resourceName) =>
  match MCPServer.Providers s !! providerName with
  | None =>
      (errorResponse StatusNotFound "provider_not_found"
                     ("Provider not found: " +:+ providerName), σ)
  | Some provider =>
  (* Load the resource *)
  match LoadResource provider resourceName request σ with
  | ((_, Some err), σ') =>
      (errorResponse StatusInternalServerError "resource_load_error" (Error err), σ')
  | ((None, None), σ') => (NilPointerPanic, σ')
  | ((Some result, None), σ') =>
      (* Ensure the request ID is set *)
      let result :=
        if String.eqb (LoadResourceResult.RequestID result) ""
        then LoadResourceResult.setRequestID result (LoadResourceRequest.RequestID request)
        else result in
      (JSON StatusOK (BodyResourceResult result), σ')
  end end end end.

(** ** Package [server]: the server information and discovery endpoints *)

Module ServerInfo.
Record t := {
  Name : string;
  Version : string;
  Description : string;
}.
End ServerInfo.

Module DiscoverResponse.
Record t := {
  ServerInfo : ServerInfo.t;
  Providers : list ProviderInfo.t;
}.
End DiscoverResponse.

(** [handleServerInfo] handles the server info endpoint: the status and
    the JSON object it answers with. *)
Definition handleServerInfo {S : Type} (s : MCPServer.t S) : Z * gmap string Value :=
  let info : gmap string Value :=
    {[ "name" := VString (MCPServer.Name s);
       "version" := VString (MCPServer.Version s);
       "description" := VString (MCPServer.Description s);
       "protocol" := VString "mcp" ]} in
  (StatusOK, info).

(** [handleDiscover] handles the discover endpoint.  The providers are
    appended in the order of the iteration over the map, which Go leaves
    unspecified; the model takes the order of [map_to_list]. *)
Definition handleDiscover {S : Type} (s : MCPServer.t S) : Z * DiscoverResponse.t :=
  let response :=
    {| DiscoverResponse.ServerInfo :=
         {| ServerInfo.Name := MCPServer.Name s;
            ServerInfo.Version := MCPServer.Version s;
            ServerInfo.Description := MCPServer.Description s |};
       DiscoverResponse.Providers := [] |} in
  (* Add provider information *)
  let response :=
    foldl (λ response '(_, provider),
             let providerInfo := GetInfo provider in
             {| DiscoverResponse.ServerInfo := DiscoverResponse.ServerInfo response;
                DiscoverResponse.Providers :=
                  DiscoverResponse.Providers response ++ [providerInfo] |})
          response (map_to_list (MCPServer.Providers s)) in
  (StatusOK, response).

(** * Properties

    Definitions used to state them come first. *)

(** ** Requests built from an arguments map *)

Definition toolRequest (toolID requestID : string) (arguments : gmap string Value)
  : CallToolRequest.t :=
  {| CallToolRequest.ToolID := toolID;
     CallToolRequest.RequestID := requestID;
     CallToolRequest.Params := {| CallToolParams.Arguments := arguments |} |}.

Definition resourceRequest (resourceID requestID : string) (params : gmap string Value)
  : LoadResourceRequest.t :=
  {| LoadResourceRequest.ResourceID := resourceID;
     LoadResourceRequest.RequestID := requestID;
     LoadResourceRequest.Params := params |}.

(** The error envelopes of the two kinds of result. *)
Definition toolError (requestID code message : string) : CallToolResult.t :=
  {| CallToolResult.RequestID := requestID;
     CallToolResult.Status := "error";
     CallToolResult.Result := None;
     CallToolResult.Error :=
       Some {| ErrorInfo.Code := code; ErrorInfo.Message := message |} |}.

Definition resourceError (requestID code message : string) : LoadResourceResult.t :=
  {| LoadResourceResult.RequestID := requestID;
     LoadResourceResult.Status := "error";
     LoadResourceResult.Content := None;
     LoadResourceResult.Error :=
       Some {| ErrorInfo.Code := code; ErrorInfo.Message := message |} |}.

(** The success envelope of a tool, with a JSON payload. *)
Definition toolJSON (requestID : string) (data : Data) : CallToolResult.t :=
  {| CallToolResult.RequestID := requestID;
     CallToolResult.Status := "success";
     CallToolResult.Result := Some (PayloadJSON data);
     CallToolResult.Error := None |}.

(** What a caller can observe of a result whatever the envelope type: the
    request ID, the status, the payload and the message of the error.
    [toolOutcome] and [resourceOutcome] pair it with the Go error. *)
Record Outcome := {
  outcomeRequestID : string;
  outcomeStatus : string;
  outcomePayload : option Payload;
  outcomeMessage : option string;
}.

Definition toolOutcome (r : ToolReturn) : option Outcome * option error :=
  (match fst r with
   | Some result =>
       Some {| outcomeRequestID := CallToolResult.RequestID result;
               outcomeStatus := CallToolResult.Status result;
               outcomePayload := CallToolResult.Result result;
               outcomeMessage := ErrorInfo.Message <$> CallToolResult.Error result |}
   | None => None
   end, snd r).

Definition resourceOutcome (r : ResourceReturn) : option Outcome * option error :=
  (match fst r with
   | Some result =>
       Some {| outcomeRequestID := LoadResourceResult.RequestID result;
               outcomeStatus := LoadResourceResult.Status result;
               outcomePayload := LoadResourceResult.Content result;
               outcomeMessage := ErrorInfo.Message <$> LoadResourceResult.Error result |}
   | None => None
   end, snd r).

(** The code of the error of a result, if it has one. *)
Definition toolErrorCode (r : ToolReturn) : option string :=
  match fst r with
  | Some result => ErrorInfo.Code <$> CallToolResult.Error result
  | None => None
  end.

Definition resourceErrorCode (r : ResourceReturn) : option string :=
  match fst r with
  | Some result => ErrorInfo.Code <$> LoadResourceResult.Error result
  | None => None
  end.

(** The number of dots of an identifier. *)
Fixpoint dots (id : string) : nat :=
  match id with
  | EmptyString => 0
  | String c id' => (if Ascii.eqb c "."%char then 1 else 0) + dots id'
  end.

(** ** A provider confined to [/sandbox], and a server with it *)

Definition sandbox : FilesystemProvider.t :=
  {| FilesystemProvider.rootDir := "/sandbox" |}.

(** A filesystem with the directory [/sandbox], which is also the working
    directory, and nothing else. *)
Definition sandboxState : OS.State :=
  {| OS.files := {[ ["sandbox"] := OS.Directory 0 ]};
     OS.cwd := ["sandbox"];
     OS.clock := 1 |}.

Definition sandboxServer : MCPServer.t OS.State :=
  RegisterProvider
    (NewMCPServer "Filesystem MCP Server" "1.0.0"
                  ("A Model Context Protocol server implementation " +:+
                   "that provides access to the local file system"))
    (FilesystemProvider_Provider sandbox).

(** The sandbox after [notes/a.txt] has been written with content [hi]. *)
Definition notesState : OS.State :=
  {| OS.files := {[ ["sandbox"] := OS.Directory 0;
                    ["sandbox"; "notes"] := OS.Directory 1;
                    ["sandbox"; "notes"; "a.txt"] := OS.File ["h"; "i"]%char 1 ]};
     OS.cwd := ["sandbox"];
     OS.clock := 1 |}.

(** What [Clean] writes: elements that are not empty, not [.], and have
    no separator. *)
Definition written (e : string) : Prop :=
  e ≠ "" ∧ e ≠ "." ∧ GoStrings.Split e Filepath.Separator = [e].

(** Whether the [..] elements of a relative path climb above the directory
    the path starts from: [depth] counts the names read so far that no
    [..] has cancelled. *)
Fixpoint climbs (depth : nat) (elems : list string) : bool :=
  match elems with
  | [] => false
  | e :: rest =>
      if String.eqb e "" || String.eqb e "." then climbs depth rest
      else if String.eqb e ".." then
        match depth with
        | O => true
        | S depth' => climbs depth' rest
        end
      else climbs (S depth) rest
  end.

(** The error of a candidate that escapes the root. *)
Definition PathEscape : error :=
  errors_New "path attempts to access parent directory outside of root".

(** What [MkdirAll] and [WriteFile] leave as it was: the working
    directory and every directory. *)
Definition keepsDirectories (σ σ' : OS.State) : Prop :=
  OS.cwd σ' = OS.cwd σ
  ∧ ∀ k t, OS.nodeAt (OS.files σ) k = Some (OS.Directory t) →
           OS.nodeAt (OS.files σ') k = Some (OS.Directory t).

(** The sandbox with the directories [new] and [new/dir] and no file. *)
Definition newDirState : OS.State :=
  {| OS.files := {[ ["sandbox"] := OS.Directory 0;
                    ["sandbox"; "new"] := OS.Directory 1;
                    ["sandbox"; "new"; "dir"] := OS.Directory 1 ]};
     OS.cwd := ["sandbox"];
     OS.clock := 1 |}.



(** ** Definitions for the further properties *)

(** A well-formed envelope: either a success with a payload and no error,
    or an error with a code among [codes] and no payload; for the request
    [requestID], it also echoes the request ID. *)
Definition wellFormed (status : string) (payload : option Payload)
  (err : option ErrorInfo.t) (codes : list string) : bool :=
  match payload, err with
  | Some _, None => String.eqb status "success"
  | None, Some e =>
      String.eqb status "error" && existsb (String.eqb (ErrorInfo.Code e)) codes
  | _, _ => false
  end.

Definition wellFormedToolResult (requestID : string) (r : CallToolResult.t) : bool :=
  String.eqb (CallToolResult.RequestID r) requestID
  && wellFormed (CallToolResult.Status r) (CallToolResult.Result r)
                (CallToolResult.Error r) ["execution_error"; "unknown_tool"].

Definition wellFormedResourceResult (requestID : string) (r : LoadResourceResult.t)
  : bool :=
  String.eqb (LoadResourceResult.RequestID r) requestID
  && wellFormed (LoadResourceResult.Status r) (LoadResourceResult.Content r)
                (LoadResourceResult.Error r) ["resource_error"; "unknown_resource"].

(** The server [main] builds: the default provider registered. *)
Definition mainServer : MCPServer.t OS.State :=
  RegisterProvider
    (NewMCPServer "Filesystem MCP Server" "1.0.0"
                  ("A Model Context Protocol server implementation " +:+
                   "that provides access to the local file system"))
    (FilesystemProvider_Provider NewFilesystemProvider).

(** The elements of an absolute path, in order from the root, once [.],
    empty elements and [..] have been resolved by name. *)
Definition elements (path : string) : list string :=
  rev (Filepath.cleanElems true (GoStrings.Split path Filepath.Separator)).

(** The error of the prefix check of [resolvePath]. *)
Definition OutsideRoot : error := errors_New "path is outside of root directory".

(** The entry a listing gives for the child [e] of the directory [k], with
    [n] the node of the child and [pathParam] the path requested. *)
Definition listedFile (pathParam : string) (k : list string) (e : string) (n : OS.Node)
  : FileInfo.t :=
  {| FileInfo.Name := e;
     FileInfo.Path := Filepath.Join [pathParam; e];
     FileInfo.Size := OS.Size (OS.infoOf (k ++ [e]) n);
     FileInfo.IsDir := OS.IsDir (OS.infoOf (k ++ [e]) n);
     FileInfo.ModTime := OS.ModTime (OS.infoOf (k ++ [e]) n) |}.

(** Names in ascending order (bytewise). *)
Fixpoint ascending (names : list string) : bool :=
  match names with
  | x :: (y :: _) as rest => String.leb x y && ascending rest
  | _ => true
  end.

(** The status of what a handler returns. *)
Definition toolStatus (r : ToolReturn) : option string :=
  CallToolResult.Status <$> fst r.

Definition resourceStatus (r : ResourceReturn) : option string :=
  LoadResourceResult.Status <$> fst r.

(** The node a request names: the one its [path], if it is a string that
    [resolvePath] accepts, resolves to in the filesystem. *)
Definition target (p : FilesystemProvider.t) (σ : OS.State) (path : option Value)
  : option (list string * OS.Node) :=
  match assertString path with
  | None => None
  | Some pathParam =>
      match resolvePath p σ pathParam with
      | Err _ => None
      | Ok fullPath =>
          match OS.lookupNode σ fullPath with
          | inl kn => Some kn
          | inr _ => None
          end
      end
  end.

Definition isFile (node : option (list string * OS.Node)) : bool :=
  match node with
  | Some (_, OS.File _ _) => true
  | _ => false
  end.

Definition isDirectory (node : option (list string * OS.Node)) : bool :=
  match node with
  | Some (_, OS.Directory _) => true
  | _ => false
  end.

(** What a removal leaves of the path resolution: nodes are as they were,
    or absent. *)
Definition removes (fs fs' : OS.Files) : Prop :=
  ∀ c, OS.nodeAt fs' c = OS.nodeAt fs c ∨ OS.nodeAt fs' c = None.


(** The state [σ] at the time [now]: the clock is not the program's. *)
Definition atTime (σ : OS.State) (now : Z) : OS.State :=
  {| OS.files := OS.files σ; OS.cwd := OS.cwd σ; OS.clock := now |}.

(** The server the tests build ([setupTestServer]). *)
Definition setupTestServer : MCPServer.t OS.State :=
  RegisterProvider
    (NewMCPServer "Test Filesystem MCP Server" "1.0.0" "A test MCP server implementation")
    (FilesystemProvider_Provider NewFilesystemProvider).

(** ** The library models on the examples of their documentation *)

Example Clean_examples :
  map Filepath.Clean
      ["a/c"; "a//c"; "a/c/."; "a/c/b/.."; "/../a/c"; "/../a/b/../././/c"; "";
       "abc/def/../../.."; "../../abc"; "/"; "a/../../b"]
  = ["a/c"; "a/c"; "a/c"; "a/c"; "/a/c"; "/a/c"; ".";
     ".."; "../../abc"; "/"; "../b"].
Proof. reflexivity. Qed.

Example Dir_examples :
  map Filepath.Dir
      ["/foo/bar/baz.js"; "/foo/bar/baz"; "/foo/bar/baz/"; "/dirty//path///";
       "dev.txt"; "../todo.txt"; ".."; "."; "/"; ""]
  = ["/foo/bar"; "/foo/bar"; "/foo/bar/baz"; "/dirty/path";
     "."; ".."; "."; "."; "/"; "."].
Proof. reflexivity. Qed.

Example Join_examples :
  map Filepath.Join
      [["a"; "b"; "c"]; ["a"; "b/c"]; ["a/b"; "c"]; ["a/b"; "/c"];
       ["a/b"; "../../../xyz"]; [""; ""]; ["a"; ""]; [""; "a"]]
  = ["a/b/c"; "a/b/c"; "a/b/c"; "a/b/c"; "../xyz"; ""; "a"; "a"].
Proof. reflexivity. Qed.

Example Split_examples :
  map (λ s, GoStrings.Split s ".") ["filesystem.list"; "filesystem"; "a.b.c"; ""; "."]
  = [["filesystem"; "list"]; ["filesystem"]; ["a"; "b"; "c"]; [""]; [""; ""]].
Proof. reflexivity. Qed.

(** The test vectors of RFC 4648. *)
Example EncodeToString_examples :
  map (λ s, Base64.EncodeToString (list_ascii_of_string s))
      [""; "f"; "fo"; "foo"; "foob"; "fooba"; "foobar"]
  = [""; "Zg=="; "Zm8="; "Zm9v"; "Zm9vYg=="; "Zm9vYmE="; "Zm9vYmFy"].
Proof. reflexivity. Qed.

Example DecodeString_examples :
  map Base64.DecodeString ["Zm9vYmE="; "Zg=="; "Zg="; "Zg"; "!!!"; "Zg==x"]
  = [Ok (list_ascii_of_string "fooba"); Ok (list_ascii_of_string "f");
     Err (CorruptInputError 3); Err (CorruptInputError 0);
     Err (CorruptInputError 0); Err (CorruptInputError 4)].
Proof. reflexivity. Qed.

(** The scenario of the specification: [notes/a.txt] written under
    [/sandbox], then read. *)
Example write_notes_scenario :
  writeFile sandbox
    (toolRequest "filesystem.write" "req-1"
       {[ "path" := VString "notes/a.txt"; "content" := VString "hi";
          "encoding" := VString "text" ]}) sandboxState
  = ((Some {| CallToolResult.RequestID := "req-1";
              CallToolResult.Status := "success";
              CallToolResult.Result :=
                Some (PayloadText "File written successfully: notes/a.txt");
              CallToolResult.Error := None |}, None), notesState).
Proof. vm_compute. reflexivity. Qed.

(** ** The switches of the provider *)

(** The tool names reach the methods the claims are stated on. *)
Lemma CallTool_dispatch (p : FilesystemProvider.t) (request : CallToolRequest.t)
  (σ : OS.State) :
  FilesystemProvider_CallTool p "list" request σ = (listDirectory p request σ, σ)
  ∧ FilesystemProvider_CallTool p "read" request σ = (readFile p request σ, σ)
  ∧ FilesystemProvider_CallTool p "write" request σ = writeFile p request σ
  ∧ FilesystemProvider_CallTool p "delete" request σ = deleteFile p request σ.
Proof. repeat split. Qed.

Lemma LoadResource_dispatch (p : FilesystemProvider.t) (request : LoadResourceRequest.t)
  (σ : OS.State) :
  FilesystemProvider_LoadResource p "file" request σ = (loadFile p request σ, σ)
  ∧ FilesystemProvider_LoadResource p "directory" request σ
    = (loadDirectory p request σ, σ).
Proof. repeat split. Qed.

(** ** [resolvePath] on an absolute candidate *)

(** C2: an absolute candidate is returned unchanged, with no error and no
    containment check, for every root and every candidate. *)
Theorem resolvePath_absolute_unchanged
  (p : FilesystemProvider.t) (σ : OS.State) (path : string) :
  Filepath.IsAbs path = true → resolvePath p σ path = Ok path.
Proof.
  intros Habs. unfold resolvePath. by rewrite Habs.
Qed.

Lemma resolvePath_absolute_unchanged_witness :
  resolvePath NewFilesystemProvider
              {| OS.files := ∅; OS.cwd := []; OS.clock := 0 |} "/etc/passwd"
  = Ok "/etc/passwd".
Proof. apply resolvePath_absolute_unchanged. reflexivity. Defined.

Lemma eqb_neq_false (s t : string) : s ≠ t → String.eqb s t = false.
Proof. intros H. by apply String.eqb_neq. Qed.

(** ** The tool and the resource variants *)

(** C7: on the same arguments map (and request ID) [readFile] and
    [loadFile] have the same outcome, and so have [listDirectory] and
    [loadDirectory]: the same status, payload, error message and Go error.
    Only the envelope differs, and with it the code of an error:
    [execution_error] in a tool result, [resource_error] in a resource
    result. *)
Theorem tool_and_resource_variants_agree
  (p : FilesystemProvider.t) (σ : OS.State)
  (toolID resourceID requestID : string) (arguments : gmap string Value) :
  let treq := toolRequest toolID requestID arguments in
  let rreq := resourceRequest resourceID requestID arguments in
  toolOutcome (readFile p treq σ) = resourceOutcome (loadFile p rreq σ)
  ∧ toolOutcome (listDirectory p treq σ) = resourceOutcome (loadDirectory p rreq σ)
  ∧ toolErrorCode (readFile p treq σ)
    = (λ _, "execution_error") <$> resourceErrorCode (loadFile p rreq σ)
  ∧ resourceErrorCode (loadFile p rreq σ)
    = (λ _, "resource_error") <$> toolErrorCode (readFile p treq σ)
  ∧ toolErrorCode (listDirectory p treq σ)
    = (λ _, "execution_error") <$> resourceErrorCode (loadDirectory p rreq σ)
  ∧ resourceErrorCode (loadDirectory p rreq σ)
    = (λ _, "resource_error") <$> toolErrorCode (listDirectory p treq σ).
Proof.
  intros treq rreq.
  unfold readFile, loadFile, listDirectory, loadDirectory, toolArguments, treq, rreq,
    toolRequest, resourceRequest; cbn [CallToolRequest.Params CallToolParams.Arguments
    LoadResourceRequest.Params].
  destruct (assertString (arguments !! "path")) as [pathParam|]; [| by repeat split].
  destruct (resolvePath p σ pathParam) as [fullPath|err]; [| by repeat split].
  destruct (OS.Stat σ fullPath) as [info|err];
    [| destruct (OS.IsNotExist err); by repeat split].
  destruct (OS.IsDir info); cbn [negb].
  - destruct (OS.ReadDir σ fullPath); by repeat split.
  - destruct (OS.ReadFile σ fullPath) as [data|err]; [| by repeat split].
    destruct (String.eqb _ "base64"); by repeat split.
Qed.

(** ** The encoding argument *)



(** ** Dotted identifiers *)



Lemma parseToolID_two (toolID providerName toolName : string) :
  ParseID toolID = [providerName; toolName] →
  parseToolID toolID = Ok (providerName, toolName).
Proof. unfold parseToolID. by intros ->. Qed.

Lemma parseResourceID_two (resourceID providerName resourceName : string) :
  ParseID resourceID = [providerName; resourceName] →
  parseResourceID resourceID = Ok (providerName, resourceName).
Proof. unfold parseResourceID. by intros ->. Qed.

(** The number of components of an identifier is one more than the number
    of its dots. *)
Lemma ParseID_length (id : string) : List.length (ParseID id) = S (dots id).
Proof.
  unfold ParseID. induction id as [|c id IH]; [reflexivity |].
  cbn [GoStrings.Split dots]. destruct (Ascii.eqb c "."); cbn [List.length].
  - by rewrite IH.
  - destruct (GoStrings.Split id ".") as [|h t]; [discriminate IH |].
    cbn [List.length] in *. by rewrite IH.
Qed.




(** ** Unknown capabilities *)

(** C8: a capability name that is not a tool of the provider makes
    [CallTool] return the [unknown_tool] error envelope and a nil error,
    and one that is not a resource makes [LoadResource] return the
    [unknown_resource] envelope and a nil error; nothing is changed.  The
    handler of the endpoint then answers with that envelope and status
    200: no fault reaches the transport. *)
Theorem unknown_capability_error_envelope
  (p : FilesystemProvider.t) (name : string) (σ : OS.State) :
  (name ∉ ["list"; "read"; "write"; "delete"] →
   ∀ request : CallToolRequest.t,
     let envelope :=
       toolError (CallToolRequest.RequestID request) "unknown_tool"
                 ("Unknown tool: " +:+ name) in
     FilesystemProvider_CallTool p name request σ = ((Some envelope, None), σ)
     ∧ ∀ (s : MCPServer.t OS.State) (providerName : string),
         MCPServer.Providers s !! providerName = Some (FilesystemProvider_Provider p) →
         ParseID (CallToolRequest.ToolID request) = [providerName; name] →
         handleCallTool s (Ok request) σ = (JSON StatusOK (BodyToolResult envelope), σ))
  ∧
  (name ∉ ["file"; "directory"] →
   ∀ request : LoadResourceRequest.t,
     let envelope :=
       resourceError (LoadResourceRequest.RequestID request) "unknown_resource"
                     ("Unknown resource: " +:+ name) in
     FilesystemProvider_LoadResource p name request σ = ((Some envelope, None), σ)
     ∧ ∀ (s : MCPServer.t OS.State) (providerName : string),
         MCPServer.Providers s !! providerName = Some (FilesystemProvider_Provider p) →
         ParseID (LoadResourceRequest.ResourceID request) = [providerName; name] →
         handleLoadResource s (Ok request) σ
         = (JSON StatusOK (BodyResourceResult envelope), σ)).
Proof.
  split; intros Hname request envelope.
  - assert (Hcall : FilesystemProvider_CallTool p name request σ
                    = ((Some envelope, None), σ)).
    { unfold FilesystemProvider_CallTool.
      rewrite !eqb_neq_false; [reflexivity | | | |]; intros ->; apply Hname; set_solver. }
    split; [done |]. intros s providerName Hprovider Hparse.
    unfold handleCallTool. rewrite (parseToolID_two _ _ _ Hparse), Hprovider.
    cbn [CallTool FilesystemProvider_Provider]. rewrite Hcall.
    by destruct (String.eqb _ "").
  - assert (Hload : FilesystemProvider_LoadResource p name request σ
                    = ((Some envelope, None), σ)).
    { unfold FilesystemProvider_LoadResource.
      rewrite !eqb_neq_false; [reflexivity | |]; intros ->; apply Hname; set_solver. }
    split; [done |]. intros s providerName Hprovider Hparse.
    unfold handleLoadResource. rewrite (parseResourceID_two _ _ _ Hparse), Hprovider.
    cbn [LoadResource FilesystemProvider_Provider]. rewrite Hload.
    by destruct (String.eqb _ "").
Qed.

Lemma unknown_capability_error_envelope_witness :
  handleCallTool sandboxServer (Ok (toolRequest "filesystem.rename" "req-1" ∅))
                 sandboxState
  = (JSON StatusOK
          (BodyToolResult (toolError "req-1" "unknown_tool" "Unknown tool: rename")),
     sandboxState).
Proof.
  apply (proj1 (unknown_capability_error_envelope sandbox "rename" sandboxState)
           ltac:(by intros H; repeat (apply elem_of_cons in H as [H | H];
                                       [discriminate H |]); apply elem_of_nil in H)
           (toolRequest "filesystem.rename" "req-1" ∅))
    with (providerName := "filesystem"); reflexivity.
Defined.

(** ** Deleting a directory that is not empty *)

Lemma insertByName_not_nil (x : string * OS.Node) (l : list (string * OS.Node)) :
  OS.insertByName x l ≠ [].
Proof. destruct l as [|y l]; cbn; [done |]. by destruct (String.leb _ _). Qed.

Lemma sortByName_not_nil (l : list (string * OS.Node)) :
  l ≠ [] → OS.sortByName l ≠ [].
Proof. destruct l as [|x l]; [done |]. intros _. cbn. apply insertByName_not_nil. Qed.

Lemma Stat_lookupNode (σ : OS.State) (name : string) (k : list string) (n : OS.Node) :
  OS.lookupNode σ name = inl (k, n) → OS.Stat σ name = Ok (OS.infoOf k n).
Proof. unfold OS.Stat. by intros ->. Qed.

Lemma ReadDir_not_empty (σ : OS.State) (name : string) (k : list string) (t : Z) :
  OS.lookupNode σ name = inl (k, OS.Directory t) →
  OS.children (OS.files σ) k ≠ [] →
  ∃ entry entries, OS.ReadDir σ name = Ok (entry :: entries).
Proof.
  intros Hnode Hchildren. unfold OS.ReadDir. rewrite Hnode.
  apply sortByName_not_nil in Hchildren.
  destruct (OS.sortByName (OS.children (OS.files σ) k)) as [|[e n] l]; [done |].
  cbn [map]. eauto.
Qed.

(** C5: [delete] of a directory that exists and has entries, with
    [recursive] not [true], returns the error envelope that says the
    directory is not empty and to retry with [recursive=true]; the
    filesystem is left as it was. *)
Theorem delete_nonempty_directory_refused
  (p : FilesystemProvider.t) (σ : OS.State) (toolID requestID : string)
  (arguments : gmap string Value) (pathParam fullPath : string)
  (k : list string) (t : Z) :
  arguments !! "path" = Some (VString pathParam) →
  arguments !! "recursive" ≠ Some (VBool true) →
  resolvePath p σ pathParam = Ok fullPath →
  OS.lookupNode σ fullPath = inl (k, OS.Directory t) →
  OS.children (OS.files σ) k ≠ [] →
  deleteFile p (toolRequest toolID requestID arguments) σ
  = ((Some (toolError requestID "execution_error"
              ("Directory is not empty: " +:+ pathParam +:+
               ". Use recursive=true to delete non-empty directories")),
      None), σ).
Proof.
  intros Hpath Hrec Hresolve Hnode Hchildren.
  destruct (ReadDir_not_empty σ fullPath k t Hnode Hchildren) as (entry & entries & Hdir).
  unfold deleteFile, toolArguments, toolRequest;
    cbn [CallToolRequest.Params CallToolParams.Arguments].
  rewrite Hpath. cbn [assertString]. rewrite Hresolve.
  rewrite (Stat_lookupNode _ _ _ _ Hnode). cbn [OS.infoOf OS.IsDir].
  assert (Hfalse : match assertBool (arguments !! "recursive") with
                   | Some recursiveParam => recursiveParam
                   | None => false
                   end = false).
  { destruct (arguments !! "recursive") as [[|[|]| | | |]|]; try reflexivity.
    by destruct Hrec. }
  rewrite Hfalse, Hdir. reflexivity.
Qed.

Lemma delete_nonempty_directory_refused_witness :
  deleteFile sandbox
    (toolRequest "filesystem.delete" "req-1"
       {[ "path" := VString "notes"; "recursive" := VBool false ]}) notesState
  = ((Some (toolError "req-1" "execution_error"
              "Directory is not empty: notes. Use recursive=true to delete non-empty directories"),
      None), notesState).
Proof.
  apply (delete_nonempty_directory_refused sandbox notesState "filesystem.delete" "req-1"
           _ "notes" "/sandbox/notes" ["sandbox"; "notes"] 1).
  - reflexivity.
  - vm_compute. discriminate.
  - reflexivity.
  - vm_compute. reflexivity.
  - vm_compute. discriminate.
Defined.

(** ** Lexical cleaning of paths *)

Section Split.
Variable sep : ascii.

Lemma Split_not_nil (s : string) : GoStrings.Split s sep ≠ [].
Proof.
  destruct s as [|c s]; cbn; [done |].
  destruct (Ascii.eqb c sep); [done |]. by destruct (GoStrings.Split s sep).
Qed.

Lemma Split_app (a b : string) :
  GoStrings.Split (a +:+ String sep b) sep
  = GoStrings.Split a sep ++ GoStrings.Split b sep.
Proof.
  induction a as [|c a IH]; simpl.
  - by rewrite Ascii.eqb_refl.
  - rewrite IH. destruct (Ascii.eqb c sep); [reflexivity |].
    pose proof (Split_not_nil a).
    by destruct (GoStrings.Split a sep).
Qed.

(** Every element of a split has no separator: it splits into itself. *)
Lemma Split_elements (s : string) :
  Forall (λ e, GoStrings.Split e sep = [e]) (GoStrings.Split s sep).
Proof.
  induction s as [|c s IH]; cbn [GoStrings.Split].
  - by constructor.
  - destruct (Ascii.eqb c sep) eqn:Hc.
    + by constructor.
    + pose proof (Split_not_nil s) as Hnil.
      destruct (GoStrings.Split s sep) as [|h t]; [done |].
      inversion IH as [|? ? Hh Ht]; subst. constructor; [| done].
      cbn [GoStrings.Split]. by rewrite Hc, Hh.
Qed.

Lemma Join_cons (x y : string) (l : list string) (s : string) :
  GoStrings.Join (x :: y :: l) s = x +:+ s +:+ GoStrings.Join (y :: l) s.
Proof. reflexivity. Qed.

Lemma Split_Join (l : list string) :
  l ≠ [] → Forall (λ e, GoStrings.Split e sep = [e]) l →
  GoStrings.Split (GoStrings.Join l (String sep "")) sep = l.
Proof.
  induction l as [|x [|y l] IH]; intros Hnil Hall; [done | |].
  - cbn. by inversion Hall.
  - rewrite Join_cons. change (String sep "" +:+ ?s) with (String sep s).
    rewrite Split_app. inversion Hall as [|? ? Hx Hl]; subst.
    by rewrite Hx, IH.
Qed.
End Split.

Lemma cleanStep_skip (rooted : bool) (st : list string) (c : string) :
  c = "" ∨ c = "." → Filepath.cleanStep rooted st c = st.
Proof. by intros [-> | ->]. Qed.

Lemma cleanStep_name (rooted : bool) (st : list string) (c : string) :
  c ≠ "" → c ≠ "." → c ≠ ".." → Filepath.cleanStep rooted st c = c :: st.
Proof.
  intros H1 H2 H3. unfold Filepath.cleanStep.
  by rewrite (eqb_neq_false _ _ H1), (eqb_neq_false _ _ H2), (eqb_neq_false _ _ H3).
Qed.

(** The cases of an element read by [Clean]. *)
Lemma element_cases (c : string) :
  (c = "" ∨ c = ".") ∨ c = ".." ∨ (c ≠ "" ∧ c ≠ "." ∧ c ≠ "..").
Proof.
  destruct (String.eqb_spec c ""); [by left; left |].
  destruct (String.eqb_spec c "."); [by left; right |].
  destruct (String.eqb_spec c ".."); [by right; left |].
  by right; right.
Qed.

Lemma cleanStep_written (rooted : bool) (st : list string) (c : string) :
  GoStrings.Split c Filepath.Separator = [c] →
  Forall written st → Forall written (Filepath.cleanStep rooted st c).
Proof.
  intros Hc Hst.
  destruct (element_cases c) as [Hskip | [-> | (H1 & H2 & H3)]].
  - by rewrite cleanStep_skip.
  - cbn. destruct st as [|top rest]; [destruct rooted; repeat constructor; done |].
    destruct (String.eqb top "..").
    + constructor; [| done]. by repeat split.
    + by inversion Hst.
  - rewrite cleanStep_name by done. constructor; [| done]. by repeat split.
Qed.

Lemma fold_cleanStep_written (rooted : bool) (elems st : list string) :
  Forall (λ e, GoStrings.Split e Filepath.Separator = [e]) elems →
  Forall written st → Forall written (fold_left (Filepath.cleanStep rooted) elems st).
Proof.
  revert st. induction elems as [|c elems IH]; intros st Helems Hst; [done |].
  inversion Helems; subst. cbn [fold_left]. apply IH; [done |].
  by apply cleanStep_written.
Qed.

Lemma cleanElems_written (rooted : bool) (path : string) :
  Forall written
         (Filepath.cleanElems rooted (GoStrings.Split path Filepath.Separator)).
Proof.
  apply fold_cleanStep_written; [apply Split_elements | constructor].
Qed.

(** In a rooted path no [..] is ever written. *)
Lemma cleanStep_rooted_no_dotdot (st : list string) (c : string) :
  Forall (λ e, e ≠ "..") st → Forall (λ e, e ≠ "..") (Filepath.cleanStep true st c).
Proof.
  intros Hst.
  destruct (element_cases c) as [Hskip | [-> | (H1 & H2 & H3)]].
  - by rewrite cleanStep_skip.
  - cbn. destruct st as [|top rest]; [done |].
    inversion Hst as [|? ? Htop Hrest]; subst.
    by rewrite (eqb_neq_false _ _ Htop).
  - rewrite cleanStep_name by done. by constructor.
Qed.

Lemma fold_cleanStep_rooted_no_dotdot (elems st : list string) :
  Forall (λ e, e ≠ "..") st →
  Forall (λ e, e ≠ "..") (fold_left (Filepath.cleanStep true) elems st).
Proof.
  revert st. induction elems as [|c elems IH]; intros st Hst; [done |].
  cbn [fold_left]. apply IH. by apply cleanStep_rooted_no_dotdot.
Qed.

(** Reading names only writes them all. *)
Lemma fold_cleanStep_names (rooted : bool) (l st : list string) :
  Forall written l → Forall (λ e, e ≠ "..") l →
  fold_left (Filepath.cleanStep rooted) l st = rev l ++ st.
Proof.
  revert st. induction l as [|c l IH]; intros st Hw Hd; [done |].
  inversion Hw as [|? ? (H1 & H2 & _) Hw']; inversion Hd; subst.
  cbn [fold_left rev]. rewrite cleanStep_name by done.
  rewrite IH by done. by rewrite <- app_assoc.
Qed.

Lemma IsAbs_String (c : ascii) (s : string) :
  Filepath.IsAbs (String c s) = Ascii.eqb c "/".
Proof. unfold Filepath.IsAbs. cbn. apply andb_true_r. Qed.

Lemma IsAbs_app (x y : string) :
  x ≠ "" → Filepath.IsAbs (x +:+ y) = Filepath.IsAbs x.
Proof.
  destruct x as [|c x]; [done |]. reflexivity.
Qed.

Lemma written_head (e : string) :
  written e → ∃ c e', e = String c e' ∧ Ascii.eqb c "/" = false.
Proof.
  intros (Hne & _ & Hsplit). destruct e as [|c e']; [done |].
  exists c, e'. split; [done |].
  cbn in Hsplit. unfold Filepath.Separator in Hsplit.
  by destruct (Ascii.eqb c "/").
Qed.

Lemma written_no_separator (e : string) :
  written e → GoStrings.Split e "/" = [e].
Proof. by intros (_ & _ & H). Qed.

Lemma IsAbs_Join_written (e : string) (l : list string) :
  written e → Filepath.IsAbs (GoStrings.Join (e :: l) "/") = false.
Proof.
  intros (c & e' & -> & Hc)%written_head.
  destruct l as [|y l];
    [ change (GoStrings.Join [String c e'] "/") with (String c e')
    | rewrite Join_cons; change (String c e' +:+ ?x) with (String c (e' +:+ x))];
    by rewrite IsAbs_String.
Qed.

Lemma IsAbs_render (rooted : bool) (st : list string) :
  Forall written st → Filepath.IsAbs (Filepath.render rooted st) = rooted.
Proof.
  intros Hst. unfold Filepath.render. destruct rooted; [reflexivity |].
  destruct st as [|top rest] eqn:Est; [reflexivity |]. rewrite <- Est in *.
  assert (Hrev : Forall written (rev st)) by by apply Forall_rev.
  destruct (rev st) as [|e l] eqn:Erev.
  - apply (f_equal (@List.length _)) in Erev. rewrite length_rev, Est in Erev.
    discriminate Erev.
  - inversion Hrev; subst. by apply IsAbs_Join_written.
Qed.

(** [Clean] keeps a path rooted or relative. *)
Lemma IsAbs_Clean (path : string) :
  Filepath.IsAbs (Filepath.Clean path) = Filepath.IsAbs path.
Proof. unfold Filepath.Clean. apply IsAbs_render, cleanElems_written. Qed.

Lemma Split_render_rooted (st : list string) :
  Forall written st → st ≠ [] →
  GoStrings.Split (Filepath.render true st) "/" = "" :: rev st.
Proof.
  intros Hst Hnil. unfold Filepath.render.
  change ("/" +:+ ?s) with ("" +:+ String "/"%char s). rewrite Split_app.
  rewrite (Split_Join "/"%char).
  - reflexivity.
  - intros Hrev. apply Hnil. by rewrite <- (rev_involutive st), Hrev.
  - apply Forall_rev. eapply Forall_impl; [exact Hst |].
    intros e. apply written_no_separator.
Qed.

Lemma Split_render_relative (st : list string) :
  Forall written st → st ≠ [] →
  GoStrings.Split (Filepath.render false st) "/" = rev st.
Proof.
  intros Hst Hnil. unfold Filepath.render.
  destruct st as [|top rest] eqn:Est; [done |]. rewrite <- Est in *.
  rewrite (Split_Join "/"%char).
  - reflexivity.
  - intros Hrev. apply Hnil. by rewrite <- (rev_involutive st), Hrev.
  - apply Forall_rev. eapply Forall_impl; [exact Hst |].
    intros e. apply written_no_separator.
Qed.

(** [Clean] is idempotent on rooted paths. *)
Lemma Clean_rooted_idempotent (path : string) :
  Filepath.IsAbs path = true → Filepath.Clean (Filepath.Clean path) = Filepath.Clean path.
Proof.
  intros Habs. unfold Filepath.Clean at 1. rewrite IsAbs_Clean, Habs.
  unfold Filepath.Clean. rewrite Habs.
  set (st := Filepath.cleanElems true (GoStrings.Split path Filepath.Separator)).
  assert (Hw : Forall written st) by apply cleanElems_written.
  assert (Hd : Forall (λ e, e ≠ "..") st)
    by (apply fold_cleanStep_rooted_no_dotdot; constructor).
  destruct (decide (st = [])) as [-> | Hnil]; [reflexivity |].
  unfold Filepath.Separator. rewrite Split_render_rooted by done.
  unfold Filepath.cleanElems. cbn [fold_left]. rewrite cleanStep_skip by by left.
  rewrite fold_cleanStep_names.
  - by rewrite rev_involutive, app_nil_r.
  - by apply Forall_rev.
  - by apply Forall_rev.
Qed.


(** Cleaning the elements in two passes, the first as a relative path,
    gives what one pass gives. *)
Lemma cleanStep_twice (rooted : bool) (s t : list string) (c : string) :
  Forall written t →
  fold_left (Filepath.cleanStep rooted) (rev (Filepath.cleanStep false t c)) s
  = Filepath.cleanStep rooted (fold_left (Filepath.cleanStep rooted) (rev t) s) c.
Proof.
  intros Ht.
  destruct (element_cases c) as [Hskip | [-> | (H1 & H2 & H3)]].
  - by rewrite !cleanStep_skip.
  - destruct t as [|top rest]; [reflexivity |].
    cbn [Filepath.cleanStep String.eqb Ascii.eqb Bool.eqb orb].
    destruct (String.eqb_spec top "..") as [-> | Htop].
    + cbn [rev]. by rewrite fold_left_app.
    + inversion Ht as [|? ? (H1 & H2 & _) Hrest]; subst.
      cbn [rev]. rewrite fold_left_app. cbn [fold_left].
      rewrite (cleanStep_name rooted _ top) by done.
      cbn. by rewrite (eqb_neq_false _ _ Htop).
  - rewrite !cleanStep_name by done. cbn [rev]. rewrite fold_left_app.
    cbn [fold_left]. by rewrite cleanStep_name.
Qed.

Lemma fold_cleanStep_twice (rooted : bool) (elems s t : list string) :
  Forall (λ e, GoStrings.Split e Filepath.Separator = [e]) elems →
  Forall written t →
  fold_left (Filepath.cleanStep rooted)
            (rev (fold_left (Filepath.cleanStep false) elems t)) s
  = fold_left (Filepath.cleanStep rooted) (rev t ++ elems) s.
Proof.
  revert t. induction elems as [|c elems IH]; intros t Helems Ht.
  - by rewrite app_nil_r.
  - inversion Helems; subst. cbn [fold_left].
    rewrite IH by (try apply cleanStep_written; done).
    rewrite !fold_left_app. cbn [fold_left]. by rewrite cleanStep_twice.
Qed.

Lemma Clean_Join_Clean (wd path : string) :
  wd ≠ "" → Filepath.IsAbs path = false →
  Filepath.Clean (wd +:+ "/" +:+ Filepath.Clean path)
  = Filepath.Clean (wd +:+ "/" +:+ path).
Proof.
  intros Hwd Hrel. unfold Filepath.Clean at 1 3. rewrite !IsAbs_app by done.
  f_equal. change ("/" +:+ ?s) with (String "/"%char s). unfold Filepath.Separator.
  rewrite !Split_app. unfold Filepath.cleanElems. rewrite !fold_left_app.
  set (s := fold_left _ (GoStrings.Split wd "/") []).
  pose proof (fold_cleanStep_twice (Filepath.IsAbs wd) (GoStrings.Split path "/") s []
                (Split_elements _ _) (List.Forall_nil _)) as Htwice.
  cbn [rev app] in Htwice. rewrite <- Htwice.
  unfold Filepath.Clean. rewrite Hrel.
  pose proof (cleanElems_written false path) as Ht.
  unfold Filepath.cleanElems, Filepath.Separator in *.
  destruct (fold_left (Filepath.cleanStep false) (GoStrings.Split path "/") [])
    as [|top rest] eqn:Et; [reflexivity |].
  by rewrite Split_render_relative.
Qed.

Lemma Join_two (dir path : string) :
  dir ≠ "" → Filepath.Join [dir; path] = Filepath.Clean (dir +:+ "/" +:+ path).
Proof. intros Hne. cbn [Filepath.Join]. by rewrite (eqb_neq_false _ _ Hne). Qed.


Lemma Getwd_not_empty (σ : OS.State) (wd : string) : OS.Getwd σ = Ok wd → wd ≠ "".
Proof.
  unfold OS.Getwd. destruct (OS.nodeAt _ _) as [[|]|]; try discriminate.
  by intros [= <-].
Qed.

(** ** [resolvePath] on the empty candidate *)



Example resolvePath_empty_relative_root :
  resolvePath NewFilesystemProvider sandboxState "" = Ok "/sandbox".
Proof. reflexivity. Qed.

(** ** Candidates that climb out of the root *)

(** A leading [..] of a relative path is never removed. *)
Lemma cleanStep_keeps_leading_dotdot (st : list string) (c : string) :
  ∃ st', Filepath.cleanStep false (st ++ [".."]) c = st' ++ [".."].
Proof.
  destruct (element_cases c) as [Hskip | [-> | (H1 & H2 & H3)]].
  - rewrite cleanStep_skip by done. by exists st.
  - destruct st as [|top rest]; [by exists [".."] |].
    cbn. destruct (String.eqb top "..").
    + by exists (".." :: top :: rest).
    + by exists rest.
  - rewrite cleanStep_name by done. by exists (c :: st).
Qed.

Lemma fold_cleanStep_keeps_leading_dotdot (elems st : list string) :
  ∃ st', fold_left (Filepath.cleanStep false) elems (st ++ [".."]) = st' ++ [".."].
Proof.
  revert st. induction elems as [|c elems IH]; intros st; [by exists st |].
  cbn [fold_left].
  destruct (cleanStep_keeps_leading_dotdot st c) as [st' ->]. apply IH.
Qed.

(** A path that climbs is cleaned to one with a leading [..]. *)
Lemma climbs_leading_dotdot (elems st : list string) :
  Forall (λ e, e ≠ "..") st →
  climbs (List.length st) elems = true →
  ∃ st', fold_left (Filepath.cleanStep false) elems st = st' ++ [".."].
Proof.
  revert st. induction elems as [|c elems IH]; intros st Hst Hclimbs; [done |].
  cbn [fold_left climbs] in *.
  destruct (element_cases c) as [Hskip | [-> | (H1 & H2 & H3)]].
  - rewrite cleanStep_skip by done. apply IH; [done |].
    by destruct Hskip as [-> | ->].
  - destruct st as [|top rest].
    + apply (fold_cleanStep_keeps_leading_dotdot elems []).
    + inversion Hst as [|? ? Htop Hrest]; subst.
      cbn. rewrite (eqb_neq_false _ _ Htop). by apply IH.
  - rewrite cleanStep_name by done.
    rewrite (eqb_neq_false _ _ H1), (eqb_neq_false _ _ H2),
      (eqb_neq_false _ _ H3) in Hclimbs.
    apply (IH (c :: st)); [by constructor | done].
Qed.

Lemma render_leading_dotdot (st : list string) :
  GoStrings.HasPrefix (Filepath.render false (st ++ [".."])) ".." = true.
Proof.
  unfold Filepath.render.
  destruct (st ++ [".."]) as [|top rest] eqn:Est; [by destruct st |].
  rewrite <- Est, rev_app_distr. cbn [rev app].
  destruct (rev st) as [|y l]; [reflexivity |]. by rewrite Join_cons.
Qed.

Lemma Clean_climbs (path : string) :
  Filepath.IsAbs path = false →
  climbs 0 (GoStrings.Split path "/") = true →
  GoStrings.HasPrefix (Filepath.Clean path) ".." = true.
Proof.
  intros Hrel Hclimbs. unfold Filepath.Clean. rewrite Hrel.
  destruct (climbs_leading_dotdot (GoStrings.Split path "/") [] (List.Forall_nil _) Hclimbs)
    as [st' Hst'].
  unfold Filepath.cleanElems, Filepath.Separator. rewrite Hst'.
  apply render_leading_dotdot.
Qed.

(** C1, as the code has it: a candidate that is not absolute and whose
    [..] elements climb above the directory it starts from is refused with
    the error of an escape, whatever the root is; a tool or a resource
    called with it as its path answers with an error envelope and changes
    nothing. *)
Theorem resolvePath_refuses_climbing
  (p : FilesystemProvider.t) (σ : OS.State) (path : string) :
  Filepath.IsAbs path = false →
  climbs 0 (GoStrings.Split path "/") = true →
  resolvePath p σ path = Err PathEscape
  ∧ (∀ (toolName : string) (request : CallToolRequest.t),
       toolArguments request !! "path" = Some (VString path) →
       ∃ result,
         FilesystemProvider_CallTool p toolName request σ = ((Some result, None), σ)
         ∧ CallToolResult.Status result = "error")
  ∧ (∀ (resourceName : string) (request : LoadResourceRequest.t),
       LoadResourceRequest.Params request !! "path" = Some (VString path) →
       ∃ result,
         FilesystemProvider_LoadResource p resourceName request σ
         = ((Some result, None), σ)
         ∧ LoadResourceResult.Status result = "error").
Proof.
  intros Hrel Hclimbs.
  assert (Hresolve : resolvePath p σ path = Err PathEscape).
  { unfold resolvePath. by rewrite Hrel, Clean_climbs. }
  split; [done |]. split.
  - intros toolName request Hpath.
    unfold FilesystemProvider_CallTool, listDirectory, readFile, writeFile, deleteFile.
    rewrite Hpath. cbn [assertString]. rewrite Hresolve.
    unfold toolReturn.
    destruct (String.eqb toolName "list"); [eexists; split; reflexivity |].
    destruct (String.eqb toolName "read"); [eexists; split; reflexivity |].
    destruct (String.eqb toolName "write").
    { destruct (assertString (toolArguments request !! "content"));
        eexists; split; reflexivity. }
    destruct (String.eqb toolName "delete"); eexists; split; reflexivity.
  - intros resourceName request Hpath.
    unfold FilesystemProvider_LoadResource, loadFile, loadDirectory.
    rewrite Hpath. cbn [assertString]. rewrite Hresolve.
    unfold resourceReturn.
    destruct (String.eqb resourceName "file"); [eexists; split; reflexivity |].
    destruct (String.eqb resourceName "directory"); eexists; split; reflexivity.
Qed.

Lemma resolvePath_refuses_climbing_witness :
  resolvePath sandbox sandboxState "a/../../b" = Err PathEscape.
Proof. apply resolvePath_refuses_climbing; reflexivity. Defined.

(** C1 as stated fails, for an absolute root too: in [a/../b] the [..] is
    cancelled by [Clean] and the candidate resolves inside the root; the
    absolute candidate [/../etc/passwd] is returned as it is. *)
Lemma resolvePath_accepts_dotdot_segments :
  Filepath.IsAbs (FilesystemProvider.rootDir sandbox) = true
  ∧ GoStrings.Contains "a/../b" "../" = true
  ∧ resolvePath sandbox sandboxState "a/../b" = Ok "/sandbox/b"
  ∧ GoStrings.Contains "/../etc/passwd" "../" = true
  ∧ resolvePath sandbox sandboxState "/../etc/passwd" = Ok "/../etc/passwd".
Proof. repeat split; reflexivity. Qed.

(** ** Base64: decoding what was encoded *)

Ltac euclid := intros; zify; Z.to_euclidean_division_equations; lia.

Lemma decodeMap_encodeChar (v : N) :
  (v < 64)%N → Base64.decodeMap (Base64.encodeChar v) = Some v.
Proof.
  intros Hv.
  assert (Hall : forallb (λ n, match Base64.decodeMap (Base64.encodeChar (N.of_nat n)) with
                               | Some w => N.eqb w (N.of_nat n)
                               | None => false
                               end) (seq 0 64) = true) by (vm_compute; reflexivity).
  rewrite forallb_forall in Hall.
  specialize (Hall (N.to_nat v)). rewrite N2Nat.id in Hall.
  destruct (Base64.decodeMap (Base64.encodeChar v)) as [w|].
  - f_equal. apply N.eqb_eq, Hall, in_seq. lia.
  - discriminate Hall. apply in_seq. lia.
Qed.

Lemma decode_char (c : ascii) (v : N) (rest : list ascii) (si : nat)
  (dbuf : list N) (dst : list ascii) :
  Base64.decodeMap c = Some v →
  Base64.decode (c :: rest) si dbuf dst
  = if Nat.eqb (List.length (dbuf ++ [v])) 4
    then Base64.decode rest (S si) [] (dst ++ Base64.quantumBytes (dbuf ++ [v]))
    else Base64.decode rest (S si) (dbuf ++ [v]) dst.
Proof. intros Hc. cbn [Base64.decode]. by rewrite Hc. Qed.

Lemma decode_encodeChar (v : N) (rest : list ascii) (si : nat)
  (dbuf : list N) (dst : list ascii) :
  (v < 64)%N →
  Base64.decode (Base64.encodeChar v :: rest) si dbuf dst
  = if Nat.eqb (List.length (dbuf ++ [v])) 4
    then Base64.decode rest (S si) [] (dst ++ Base64.quantumBytes (dbuf ++ [v]))
    else Base64.decode rest (S si) (dbuf ++ [v]) dst.
Proof. intros Hv. by apply decode_char, decodeMap_encodeChar. Qed.

(** The bytes of a quantum are the bytes its 6-bit values were cut from. *)
Lemma quantum_byte_0 (a lo : N) :
  (a < 256 → lo < 16 → (a / 4 * 4 + (a mod 4 * 16 + lo) / 16) mod 256 = a)%N.
Proof. euclid. Qed.

Lemma quantum_byte_1 (b hi lo : N) :
  (b < 256 → hi < 4 → lo < 4 →
   ((hi * 16 + b / 16) mod 16 * 16 + (b mod 16 * 4 + lo) / 4) mod 256 = b)%N.
Proof. euclid. Qed.

Lemma quantum_byte_2 (c hi : N) :
  (c < 256 → hi < 16 → ((hi * 4 + c / 64) mod 4 * 64 + c mod 64) mod 256 = c)%N.
Proof. euclid. Qed.

Lemma quantumBytes_full (a b c : ascii) :
  let x := N_of_ascii a in
  let y := N_of_ascii b in
  let z := N_of_ascii c in
  Base64.quantumBytes
    [x / 4; x mod 4 * 16 + y / 16; y mod 16 * 4 + z / 64; z mod 64]%N
  = [a; b; c].
Proof.
  intros x y z.
  pose proof (N_ascii_bounded a). pose proof (N_ascii_bounded b).
  pose proof (N_ascii_bounded c).
  unfold Base64.quantumBytes. cbn [nth List.length Nat.sub firstn].
  rewrite quantum_byte_0, quantum_byte_1, quantum_byte_2 by (subst x y z; euclid).
  subst x y z. by rewrite !ascii_N_embedding.
Qed.

Lemma quantumBytes_two (a b : ascii) :
  let x := N_of_ascii a in
  let y := N_of_ascii b in
  Base64.quantumBytes [x / 4; x mod 4 * 16 + y / 16; y mod 16 * 4]%N = [a; b].
Proof.
  intros x y.
  pose proof (N_ascii_bounded a). pose proof (N_ascii_bounded b).
  unfold Base64.quantumBytes. cbn [nth List.length Nat.sub firstn].
  rewrite <- (N.add_0_r (y mod 16 * 4)).
  rewrite quantum_byte_0, quantum_byte_1 by (subst x y; euclid).
  subst x y. by rewrite !ascii_N_embedding.
Qed.

Lemma quantumBytes_one (a : ascii) :
  let x := N_of_ascii a in
  Base64.quantumBytes [x / 4; x mod 4 * 16]%N = [a].
Proof.
  intros x. pose proof (N_ascii_bounded a).
  unfold Base64.quantumBytes. cbn [nth List.length Nat.sub firstn].
  rewrite <- (N.add_0_r (x mod 4 * 16)).
  rewrite quantum_byte_0 by (subst x; euclid).
  subst x. by rewrite !ascii_N_embedding.
Qed.

Lemma decode_padding_2 (v1 v2 : N) (si : nat) (dst : list ascii) :
  Base64.decode [Base64.padChar; Base64.padChar] si [v1; v2] dst
  = Ok (dst ++ Base64.quantumBytes [v1; v2]).
Proof. reflexivity. Qed.

Lemma decode_padding_1 (v1 v2 v3 : N) (si : nat) (dst : list ascii) :
  Base64.decode [Base64.padChar] si [v1; v2; v3] dst
  = Ok (dst ++ Base64.quantumBytes [v1; v2; v3]).
Proof. reflexivity. Qed.

(** Induction on a list of bytes, three at a time. *)
Lemma list_ind_3 {A : Type} (P : list A → Prop) :
  P [] → (∀ a, P [a]) → (∀ a b, P [a; b]) →
  (∀ a b c l, P l → P (a :: b :: c :: l)) →
  ∀ l, P l.
Proof.
  intros H0 H1 H2 H3 l.
  assert (H : ∀ (n : nat) (l : list A), (List.length l ≤ n)%nat → P l).
  { clear l. induction n as [|n IH]; intros l Hlen.
    - destruct l; [done | cbn in Hlen; lia].
    - destruct l as [|a [|b [|c l]]]; auto.
      apply H3, IH. cbn in Hlen. lia. }
  by apply (H (List.length l)).
Qed.

Lemma decode_encode (src : list ascii) :
  ∀ (si : nat) (dst : list ascii),
    Base64.decode (Base64.encode src) si [] dst = Ok (dst ++ src).
Proof.
  induction src as [|a|a b|a b c src IH] using list_ind_3; intros si dst.
  - cbn. by rewrite app_nil_r.
  - pose proof (N_ascii_bounded a).
    cbn [Base64.encode].
    rewrite !decode_encodeChar by euclid. cbn [app List.length Nat.eqb].
    by rewrite decode_padding_2, (quantumBytes_one a).
  - pose proof (N_ascii_bounded a). pose proof (N_ascii_bounded b).
    cbn [Base64.encode].
    rewrite !decode_encodeChar by euclid. cbn [app List.length Nat.eqb].
    by rewrite decode_padding_1, (quantumBytes_two a b).
  - pose proof (N_ascii_bounded a). pose proof (N_ascii_bounded b).
    pose proof (N_ascii_bounded c).
    cbn [Base64.encode].
    rewrite !decode_encodeChar by euclid. cbn [app List.length Nat.eqb].
    rewrite (quantumBytes_full a b c), IH. by rewrite <- app_assoc.
Qed.

(** [DecodeString] gives back the bytes [EncodeToString] was given. *)
Lemma DecodeString_EncodeToString (src : list ascii) :
  Base64.DecodeString (Base64.EncodeToString src) = Ok src.
Proof.
  unfold Base64.DecodeString, Base64.EncodeToString.
  rewrite list_ascii_of_string_of_list_ascii. apply decode_encode.
Qed.

(** ** The filesystem after a write *)

Lemma nodeAt_insert_directory (fs : OS.Files) (k cur : list string) (n : OS.Node) (t : Z) :
  k ≠ [] → (∀ t', fs !! k ≠ Some (OS.Directory t')) →
  OS.nodeAt fs cur = Some (OS.Directory t) →
  OS.nodeAt (<[k := n]> fs) cur = Some (OS.Directory t).
Proof.
  intros Hk Hnot Hcur. destruct cur as [|c cur]; [done |].
  cbn [OS.nodeAt] in *. rewrite lookup_insert_ne; [done |].
  intros ->. by apply (Hnot t).
Qed.

(** Writing a node that was no directory does not change how a path
    resolves: every element is looked up in a directory. *)
Lemma namei_insert (fs : OS.Files) (k : list string) (n : OS.Node)
  (elems cur k' : list string) :
  k ≠ [] → (∀ t, fs !! k ≠ Some (OS.Directory t)) →
  OS.namei fs cur elems = inl k' →
  OS.namei (<[k := n]> fs) cur elems = inl k'.
Proof.
  intros Hk Hnot. revert cur.
  induction elems as [|e elems IH]; intros cur Hnamei; [exact Hnamei |].
  cbn [OS.namei] in *.
  destruct (OS.nodeAt fs cur) as [[data t|t]|] eqn:Hcur; try discriminate Hnamei.
  rewrite (nodeAt_insert_directory _ _ _ _ _ Hk Hnot Hcur).
  destruct (String.eqb e "" || String.eqb e "."); [by apply IH |].
  destruct (String.eqb e ".."); by apply IH.
Qed.

Lemma lookupNode_insert (σ : OS.State) (name : string) (k : list string) (n : OS.Node) :
  OS.resolve σ name = inl k → k ≠ [] →
  (∀ t, OS.files σ !! k ≠ Some (OS.Directory t)) →
  OS.lookupNode (OS.setFiles σ (<[k := n]> (OS.files σ))) name = inl (k, n).
Proof.
  unfold OS.lookupNode, OS.resolve. intros Hresolve Hk Hnot.
  destruct (String.eqb name ""); [discriminate Hresolve |].
  cbn [OS.setFiles OS.files OS.cwd].
  rewrite (namei_insert (OS.files σ) k n _ _ k Hk Hnot Hresolve).
  destruct k as [|c k]; [done |]. cbn [OS.nodeAt]. by rewrite lookup_insert_eq.
Qed.

Lemma WriteFile_lookupNode (σ σ' : OS.State) (name : string) (data : list ascii) :
  OS.WriteFile σ name data = (σ', None) →
  ∃ k, OS.lookupNode σ' name = inl (k, OS.File data (OS.clock σ)).
Proof.
  unfold OS.WriteFile.
  destruct (OS.resolve σ name) as [[|c k]|e] eqn:Hresolve; try discriminate.
  destruct (OS.files σ !! (c :: k)) as [[old t|t]|] eqn:Hk; try discriminate;
    intros [= <-]; exists (c :: k);
    (apply lookupNode_insert; [done | done | by intros t'; rewrite Hk]).
Qed.

Lemma keepsDirectories_refl (σ : OS.State) : keepsDirectories σ σ.
Proof. by split. Qed.

Lemma keepsDirectories_trans (σ1 σ2 σ3 : OS.State) :
  keepsDirectories σ1 σ2 → keepsDirectories σ2 σ3 → keepsDirectories σ1 σ3.
Proof.
  intros [Hc1 Hd1] [Hc2 Hd2]. split; [congruence |]. intros k t Hk. eauto.
Qed.

(** [mkdirAll] only adds directories, at names that were free. *)
Lemma mkdirAll_extends (now : Z) (elems : list string) (fs fs' : OS.Files)
  (cur : list string) (err : option error) :
  OS.mkdirAll now fs cur elems = (fs', err) →
  ∀ k, fs' !! k = fs !! k ∨ (fs !! k = None ∧ fs' !! k = Some (OS.Directory now)).
Proof.
  revert fs cur. induction elems as [|e elems IH]; intros fs cur Hmk k.
  - injection Hmk as <- _. by left.
  - cbn [OS.mkdirAll] in Hmk.
    destruct (String.eqb e "" || String.eqb e "."); [by eapply IH |].
    destruct (String.eqb e ".."); [by eapply IH |].
    destruct (fs !! (cur ++ [e])) as [[data t|t]|] eqn:Hcur.
    + injection Hmk as <- _. by left.
    + by eapply IH.
    + destruct (IH _ _ Hmk k) as [Heq | [Hnone Hdir]].
      * destruct (decide (cur ++ [e] = k)) as [<- | Hne].
        -- right. by rewrite Heq, lookup_insert_eq.
        -- left. by rewrite Heq, lookup_insert_ne.
      * right. split; [| done].
        destruct (decide (cur ++ [e] = k)) as [<- | Hne]; [done |].
        by rewrite lookup_insert_ne in Hnone.
Qed.

Lemma MkdirAll_extends (σ σ' : OS.State) (path : string) (err : option error) :
  OS.MkdirAll σ path = (σ', err) →
  OS.cwd σ' = OS.cwd σ ∧ OS.clock σ' = OS.clock σ
  ∧ ∀ k, OS.files σ' !! k = OS.files σ !! k
         ∨ (OS.files σ !! k = None ∧ OS.files σ' !! k = Some (OS.Directory (OS.clock σ))).
Proof.
  unfold OS.MkdirAll.
  destruct (String.eqb path ""); [intros [= <- _]; by auto |].
  destruct (OS.nodeAt _ _) as [[data t|t]|]; try (intros [= <- _]; by auto).
  destruct (OS.mkdirAll _ _ _ _) as [fs err'] eqn:Hmk. intros [= <- _].
  cbn [OS.setFiles OS.files OS.cwd OS.clock]. repeat split.
  by eapply mkdirAll_extends.
Qed.

Lemma MkdirAll_keepsDirectories (σ σ' : OS.State) (path : string) (err : option error) :
  OS.MkdirAll σ path = (σ', err) → keepsDirectories σ σ'.
Proof.
  intros (Hcwd & _ & Hfiles)%MkdirAll_extends. split; [done |].
  intros [|c k] t Hk; [done |]. cbn [OS.nodeAt] in *.
  destruct (Hfiles (c :: k)) as [-> | [Hnone _]]; congruence.
Qed.

Lemma WriteFile_keepsDirectories (σ σ' : OS.State) (name : string)
  (data : list ascii) (err : option error) :
  OS.WriteFile σ name data = (σ', err) → keepsDirectories σ σ'.
Proof.
  unfold OS.WriteFile.
  destruct (OS.resolve σ name) as [[|c k]|e];
    try (intros [= <- _]; apply keepsDirectories_refl).
  destruct (OS.files σ !! (c :: k)) as [[old t|t]|] eqn:Hk;
    intros [= <- _]; try apply keepsDirectories_refl.
  - split; [done |]. intros k' t' Hk'. cbn [OS.setFiles OS.files].
    apply nodeAt_insert_directory; [done | by intros t''; rewrite Hk | done].
  - split; [done |]. intros k' t' Hk'. cbn [OS.setFiles OS.files].
    apply nodeAt_insert_directory; [done | by intros t''; rewrite Hk | done].
Qed.

Lemma Getwd_keepsDirectories (σ σ' : OS.State) (wd : string) :
  keepsDirectories σ σ' → OS.Getwd σ = Ok wd → OS.Getwd σ' = Ok wd.
Proof.
  intros [Hcwd Hdirs]. unfold OS.Getwd. rewrite Hcwd.
  destruct (OS.nodeAt (OS.files σ) (OS.cwd σ)) as [[data t|t]|] eqn:Hnode;
    try discriminate.
  by rewrite (Hdirs _ _ Hnode).
Qed.

Lemma Abs_keeps (getwd getwd' : result string) (path abs : string) :
  (∀ wd, getwd = Ok wd → getwd' = Ok wd) →
  Filepath.Abs getwd path = Ok abs → Filepath.Abs getwd' path = Ok abs.
Proof.
  intros Hwd. unfold Filepath.Abs. destruct (Filepath.IsAbs path); [done |].
  destruct getwd as [wd|err]; [| discriminate]. by rewrite (Hwd wd).
Qed.

(** A path that resolved still resolves, and to the same full path, once
    files have been written. *)
Lemma resolvePath_keepsDirectories (p : FilesystemProvider.t) (σ σ' : OS.State)
  (path fullPath : string) :
  keepsDirectories σ σ' →
  resolvePath p σ path = Ok fullPath → resolvePath p σ' path = Ok fullPath.
Proof.
  intros Hkeeps. unfold resolvePath.
  destruct (Filepath.IsAbs path); [done |].
  destruct (_ || _); [done |].
  assert (Hwd : ∀ wd, OS.Getwd σ = Ok wd → OS.Getwd σ' = Ok wd)
    by (intros wd; by apply Getwd_keepsDirectories).
  destruct (Filepath.Abs (OS.Getwd σ) (Filepath.Join _)) as [absPath|err] eqn:Habs;
    [| discriminate].
  rewrite (Abs_keeps _ _ _ _ Hwd Habs).
  destruct (Filepath.IsAbs (FilesystemProvider.rootDir p)); [| done].
  destruct (Filepath.Abs (OS.Getwd σ) (FilesystemProvider.rootDir p))
    as [rootAbs|err] eqn:Hroot; [| discriminate].
  by rewrite (Abs_keeps _ _ _ _ Hwd Hroot).
Qed.

(** ** Writing a file and reading it back *)

(** What a successful [writeFile] has done. *)
Lemma writeFile_success (p : FilesystemProvider.t) (request : CallToolRequest.t)
  (σ σ' : OS.State) (result : CallToolResult.t) (pathParam contentParam : string) :
  toolArguments request !! "path" = Some (VString pathParam) →
  toolArguments request !! "content" = Some (VString contentParam) →
  toolArguments request !! "encoding" = Some (VString "text") →
  writeFile p request σ = ((Some result, None), σ') →
  CallToolResult.Status result = "success" →
  ∃ fullPath σ1,
    resolvePath p σ pathParam = Ok fullPath
    ∧ OS.MkdirAll σ (Filepath.Dir fullPath) = (σ1, None)
    ∧ OS.WriteFile σ1 fullPath (list_ascii_of_string contentParam) = (σ', None).
Proof.
  intros Hpath Hcontent Hencoding. unfold writeFile, toolReturn.
  rewrite Hpath, Hcontent, Hencoding. cbn [assertString].
  change (String.eqb "text" "base64") with false. cbv iota.
  destruct (resolvePath p σ pathParam) as [fullPath|err];
    [| intros [= <- _] Hs; discriminate Hs].
  destruct (OS.MkdirAll σ (Filepath.Dir fullPath)) as [σ1 [err|]] eqn:Hmkdir;
    [intros [= <- _] Hs; discriminate Hs |].
  destruct (OS.WriteFile σ1 fullPath _) as [σ2 [err|]] eqn:Hwrite;
    [intros [= <- _] Hs; discriminate Hs |].
  intros [= _ <-] _. by exists fullPath, σ1.
Qed.

(** What [readFile] returns for a path that resolves to a file. *)
Lemma readFile_file (p : FilesystemProvider.t) (request : CallToolRequest.t)
  (σ : OS.State) (pathParam fullPath : string) (k : list string)
  (data : list ascii) (t : Z) :
  toolArguments request !! "path" = Some (VString pathParam) →
  resolvePath p σ pathParam = Ok fullPath →
  OS.lookupNode σ fullPath = inl (k, OS.File data t) →
  readFile p request σ
  = toolReturn
      (NewToolResultJSON
         (FileContentData
            (if String.eqb
                  match assertString (toolArguments request !! "encoding") with
                  | Some encodingParam => encodingParam
                  | None => "text"
                  end "base64"
             then {| FileContent.Path := pathParam;
                     FileContent.Content := Base64.EncodeToString data;
                     FileContent.IsText := false |}
             else {| FileContent.Path := pathParam;
                     FileContent.Content := string_of_list_ascii data;
                     FileContent.IsText := true |})))
      request.
Proof.
  intros Hpath Hresolve Hnode. unfold readFile.
  rewrite Hpath. cbn [assertString]. rewrite Hresolve.
  rewrite (Stat_lookupNode _ _ _ _ Hnode). cbn [OS.infoOf OS.IsDir].
  unfold OS.ReadFile. rewrite Hnode.
  by destruct (String.eqb _ "base64").
Qed.

(** C4: after a successful [write] of the text [content] at [path], [read]
    of [path] with encoding [text] returns [content] with [is_text] true,
    and [read] with encoding [base64] returns, with [is_text] false, a
    string that [DecodeString] decodes to the bytes of [content]. *)
Theorem write_then_read_roundtrip
  (p : FilesystemProvider.t) (σ σ' : OS.State) (path content : string)
  (writeID readID writeRequest readRequest : string) (result : CallToolResult.t) :
  writeFile p
    (toolRequest writeID writeRequest
       {[ "path" := VString path; "content" := VString content;
          "encoding" := VString "text" ]}) σ
  = ((Some result, None), σ') →
  CallToolResult.Status result = "success" →
  readFile p
    (toolRequest readID readRequest
       {[ "path" := VString path; "encoding" := VString "text" ]}) σ'
  = (Some (toolJSON readRequest
             (FileContentData {| FileContent.Path := path;
                                 FileContent.Content := content;
                                 FileContent.IsText := true |})), None)
  ∧ ∃ encoded,
      readFile p
        (toolRequest readID readRequest
           {[ "path" := VString path; "encoding" := VString "base64" ]}) σ'
      = (Some (toolJSON readRequest
                 (FileContentData {| FileContent.Path := path;
                                     FileContent.Content := encoded;
                                     FileContent.IsText := false |})), None)
      ∧ Base64.DecodeString encoded = Ok (list_ascii_of_string content).
Proof.
  intros Hwrite Hsuccess.
  set (writeArgs := {[ "path" := VString path; "content" := VString content;
                       "encoding" := VString "text" ]} : gmap string Value) in *.
  set (textArgs := {[ "path" := VString path; "encoding" := VString "text" ]}
                   : gmap string Value).
  set (base64Args := {[ "path" := VString path; "encoding" := VString "base64" ]}
                     : gmap string Value).
  assert (Hw1 : writeArgs !! "path" = Some (VString path)) by done.
  assert (Hw2 : writeArgs !! "content" = Some (VString content)) by done.
  assert (Hw3 : writeArgs !! "encoding" = Some (VString "text")) by done.
  assert (Ht1 : textArgs !! "path" = Some (VString path)) by done.
  assert (Ht2 : textArgs !! "encoding" = Some (VString "text")) by done.
  assert (Hb1 : base64Args !! "path" = Some (VString path)) by done.
  assert (Hb2 : base64Args !! "encoding" = Some (VString "base64")) by done.
  clearbody writeArgs textArgs base64Args.
  destruct (writeFile_success p (toolRequest writeID writeRequest writeArgs)
              σ σ' result path content Hw1 Hw2 Hw3 Hwrite Hsuccess)
    as (fullPath & σ1 & Hresolve & Hmkdir & Hfile).
  assert (Hkeeps : keepsDirectories σ σ').
  { eapply keepsDirectories_trans.
    - by eapply MkdirAll_keepsDirectories.
    - by eapply WriteFile_keepsDirectories. }
  apply (resolvePath_keepsDirectories p σ σ' _ _ Hkeeps) in Hresolve.
  destruct (WriteFile_lookupNode _ _ _ _ Hfile) as [k Hnode].
  split.
  - rewrite (readFile_file p (toolRequest readID readRequest textArgs)
               σ' path fullPath k _ _ Ht1 Hresolve Hnode).
    unfold toolArguments, toolRequest; cbn [CallToolRequest.Params CallToolParams.Arguments].
    rewrite Ht2. cbn. by rewrite string_of_list_ascii_of_string.
  - exists (Base64.EncodeToString (list_ascii_of_string content)). split.
    + rewrite (readFile_file p (toolRequest readID readRequest base64Args)
                 σ' path fullPath k _ _ Hb1 Hresolve Hnode).
      unfold toolArguments, toolRequest;
        cbn [CallToolRequest.Params CallToolParams.Arguments].
      by rewrite Hb2.
    + apply DecodeString_EncodeToString.
Qed.

Lemma write_then_read_roundtrip_witness :
  readFile sandbox
    (toolRequest "filesystem.read" "req-2"
       {[ "path" := VString "notes/a.txt"; "encoding" := VString "text" ]}) notesState
  = (Some (toolJSON "req-2"
             (FileContentData {| FileContent.Path := "notes/a.txt";
                                 FileContent.Content := "hi";
                                 FileContent.IsText := true |})), None)
  ∧ ∃ encoded,
      readFile sandbox
        (toolRequest "filesystem.read" "req-2"
           {[ "path" := VString "notes/a.txt"; "encoding" := VString "base64" ]})
        notesState
      = (Some (toolJSON "req-2"
                 (FileContentData {| FileContent.Path := "notes/a.txt";
                                     FileContent.Content := encoded;
                                     FileContent.IsText := false |})), None)
      ∧ Base64.DecodeString encoded = Ok (list_ascii_of_string "hi").
Proof.
  apply (write_then_read_roundtrip sandbox sandboxState notesState "notes/a.txt" "hi"
           "filesystem.write" "filesystem.read" "req-1" "req-2"
           {| CallToolResult.RequestID := "req-1";
              CallToolResult.Status := "success";
              CallToolResult.Result :=
                Some (PayloadText "File written successfully: notes/a.txt");
              CallToolResult.Error := None |}).
  - vm_compute. reflexivity.
  - reflexivity.
Defined.

(** ** Side effects of a failed operation *)






(** * Further properties *)

(** ** Identifiers: parsing and the catalog *)

Lemma Join_Split (s : string) (sep : ascii) :
  GoStrings.Join (GoStrings.Split s sep) (String sep "") = s.
Proof.
  induction s as [|c s IH]; [reflexivity |].
  cbn [GoStrings.Split]. pose proof (Split_not_nil sep s) as Hnil.
  destruct (Ascii.eqb_spec c sep) as [-> | Hc].
  - destruct (GoStrings.Split s sep) as [|h t]; [done |].
    by rewrite Join_cons, IH.
  - destruct (GoStrings.Split s sep) as [|h [|h' t]]; [done | |].
    + cbn in *. by rewrite IH.
    + rewrite Join_cons in *. by rewrite <- IH.
Qed.

Lemma dots_Split (s : string) : dots s = 0 ↔ ParseID s = [s].
Proof.
  pose proof (ParseID_length s) as Hlen. split.
  - intros Hdots. rewrite Hdots in Hlen.
    pose proof (Join_Split s ".") as Hjoin. unfold ParseID in *.
    destruct (GoStrings.Split s ".") as [|y [|z l]]; try discriminate Hlen.
    cbn in Hjoin. by subst.
  - intros Hparse. rewrite Hparse in Hlen. cbn in Hlen. lia.
Qed.

Lemma ParseID_two (id providerName name : string) :
  ParseID id = [providerName; name]
  ↔ id = providerName +:+ "." +:+ name ∧ dots providerName = 0 ∧ dots name = 0.
Proof.
  split.
  - intros Hparse. split.
    + rewrite <- (Join_Split id "."). unfold ParseID in Hparse. by rewrite Hparse.
    + pose proof (Split_elements "." id) as Hall. unfold ParseID in Hparse.
      rewrite Hparse in Hall. inversion Hall as [|? ? H1 Hall']; subst.
      inversion Hall' as [|? ? H2 _]; subst.
      split; by apply dots_Split.
  - intros (-> & H1%dots_Split & H2%dots_Split). unfold ParseID in *.
    change ("." +:+ name) with (String "."%char name).
    by rewrite Split_app, H1, H2.
Qed.

Lemma parse_identifier_roundtrip_tool (id providerName name : string) :
  parseToolID id = Ok (providerName, name)
  ↔ id = providerName +:+ "." +:+ name ∧ dots providerName = 0 ∧ dots name = 0.
Proof.
  rewrite <- ParseID_two. unfold parseToolID.
  split; [| by intros ->].
  destruct (ParseID id) as [|a [|b [|c l]]]; try discriminate; by intros [= -> ->].
Qed.

Lemma parse_identifier_roundtrip_resource (id providerName name : string) :
  parseResourceID id = Ok (providerName, name)
  ↔ id = providerName +:+ "." +:+ name ∧ dots providerName = 0 ∧ dots name = 0.
Proof.
  rewrite <- ParseID_two. unfold parseResourceID.
  split; [| by intros ->].
  destruct (ParseID id) as [|a [|b [|c l]]]; try discriminate; by intros [= -> ->].
Qed.

(** X1: [parseToolID] and [parseResourceID] accept exactly the identifiers
    made of two components without a dot, joined by one dot, and return
    those components. *)
Theorem parse_identifier_roundtrip (id providerName name : string) :
  (parseToolID id = Ok (providerName, name)
   ↔ id = providerName +:+ "." +:+ name ∧ dots providerName = 0 ∧ dots name = 0)
  ∧ (parseResourceID id = Ok (providerName, name)
     ↔ id = providerName +:+ "." +:+ name ∧ dots providerName = 0 ∧ dots name = 0).
Proof.
  split; [apply parse_identifier_roundtrip_tool | apply parse_identifier_roundtrip_resource].
Qed.

(** X2: the identifiers the catalog of the provider advertises are the
    ones its switches know: [CallTool] answers [unknown_tool] exactly for
    the names whose identifier is not among the tools of [GetInfo], and
    [LoadResource] answers [unknown_resource] exactly for the names whose
    identifier is not among its resources. *)
Theorem catalog_matches_dispatch
  (p : FilesystemProvider.t) (name : string) (σ : OS.State) :
  (∀ request : CallToolRequest.t,
     toolErrorCode (fst (FilesystemProvider_CallTool p name request σ))
     = Some "unknown_tool"
     ↔ FilesystemProvider_GetName p +:+ "." +:+ name
       ∉ map ToolInfo.ID (ProviderInfo.Tools (FilesystemProvider_GetInfo p)))
  ∧
  (∀ request : LoadResourceRequest.t,
     resourceErrorCode (fst (FilesystemProvider_LoadResource p name request σ))
     = Some "unknown_resource"
     ↔ FilesystemProvider_GetName p +:+ "." +:+ name
       ∉ map ResourceInfo.ID (ProviderInfo.Resources (FilesystemProvider_GetInfo p))).
Proof.
  split; intros request.
  - unfold FilesystemProvider_CallTool, FilesystemProvider_GetName. cbn [map
      FilesystemProvider_GetInfo ProviderInfo.Tools ToolInfo.ID].
    destruct (String.eqb_spec name "list") as [-> | H1];
      [| destruct (String.eqb_spec name "read") as [-> | H2];
         [| destruct (String.eqb_spec name "write") as [-> | H3];
            [| destruct (String.eqb_spec name "delete") as [-> | H4]]]].
    5: { split; [intros _ | done]. cbn. intros H. cbv [String.append] in H.
         repeat (apply elem_of_cons in H as [[=] | H]; [congruence |]).
         by apply elem_of_nil in H. }
    all: split; [| intros H; exfalso; apply H; set_solver].
    all: unfold listDirectory, readFile, writeFile, deleteFile, toolReturn, toolErrorCode;
      intros Hcode; repeat case_match; by simplify_eq/=.
  - unfold FilesystemProvider_LoadResource, FilesystemProvider_GetName. cbn [map
      FilesystemProvider_GetInfo ProviderInfo.Resources ResourceInfo.ID].
    destruct (String.eqb_spec name "file") as [-> | H1];
      [| destruct (String.eqb_spec name "directory") as [-> | H2]].
    3: { split; [intros _ | done]. cbn. intros H. cbv [String.append] in H.
         repeat (apply elem_of_cons in H as [[=] | H]; [congruence |]).
         by apply elem_of_nil in H. }
    all: split; [| intros H; exfalso; apply H; set_solver].
    all: unfold loadFile, loadDirectory, resourceReturn, resourceErrorCode;
      intros Hcode; repeat case_match; by simplify_eq/=.
Qed.

(** ** The envelopes of the provider *)

Lemma CallTool_well_formed (p : FilesystemProvider.t) (σ : OS.State)
  (toolName : string) (request : CallToolRequest.t) :
  ∃ result σ',
    FilesystemProvider_CallTool p toolName request σ = ((Some result, None), σ')
    ∧ wellFormedToolResult (CallToolRequest.RequestID request) result = true.
Proof.
  unfold FilesystemProvider_CallTool, listDirectory, readFile, writeFile, deleteFile,
    toolReturn, wellFormedToolResult.
  repeat case_match; simplify_eq; eexists _, _; (split; [reflexivity |]);
    cbn; by rewrite String.eqb_refl.
Qed.

Lemma LoadResource_well_formed (p : FilesystemProvider.t) (σ : OS.State)
  (resourceName : string) (request : LoadResourceRequest.t) :
  ∃ result,
    FilesystemProvider_LoadResource p resourceName request σ = ((Some result, None), σ)
    ∧ wellFormedResourceResult (LoadResourceRequest.RequestID request) result = true.
Proof.
  unfold FilesystemProvider_LoadResource, loadFile, loadDirectory,
    resourceReturn, wellFormedResourceResult.
  repeat case_match; simplify_eq; eexists; (split; [reflexivity |]);
    cbn; by rewrite String.eqb_refl.
Qed.

(** X3: whatever the name, the arguments and the filesystem, [CallTool]
    and [LoadResource] return a result and a nil error, and the result is a
    well-formed envelope: it echoes the request ID, and it is either a
    success with a payload and no error, or an error with no payload and
    one of the two codes of its kind. *)
Theorem provider_results_well_formed (p : FilesystemProvider.t) (σ : OS.State) :
  (∀ (toolName : string) (request : CallToolRequest.t),
     ∃ result σ',
       FilesystemProvider_CallTool p toolName request σ = ((Some result, None), σ')
       ∧ wellFormedToolResult (CallToolRequest.RequestID request) result = true)
  ∧
  (∀ (resourceName : string) (request : LoadResourceRequest.t),
     ∃ result,
       FilesystemProvider_LoadResource p resourceName request σ
       = ((Some result, None), σ)
       ∧ wellFormedResourceResult (LoadResourceRequest.RequestID request) result = true).
Proof.
  split.
  - intros toolName request. apply CallTool_well_formed.
  - intros resourceName request. apply LoadResource_well_formed.
Qed.

Lemma wellFormedToolResult_backfill (request : CallToolRequest.t)
  (result : CallToolResult.t) :
  wellFormedToolResult (CallToolRequest.RequestID request) result = true →
  (if String.eqb (CallToolResult.RequestID result) ""
   then CallToolResult.setRequestID result (CallToolRequest.RequestID request)
   else result) = result.
Proof.
  unfold wellFormedToolResult. intros [Hid%String.eqb_eq _]%andb_true_iff.
  destruct result as [id status payload err]. cbn in *. subst.
  by destruct (String.eqb _ "").
Qed.

Lemma wellFormedResourceResult_backfill (request : LoadResourceRequest.t)
  (result : LoadResourceResult.t) :
  wellFormedResourceResult (LoadResourceRequest.RequestID request) result = true →
  (if String.eqb (LoadResourceResult.RequestID result) ""
   then LoadResourceResult.setRequestID result (LoadResourceRequest.RequestID request)
   else result) = result.
Proof.
  unfold wellFormedResourceResult. intros [Hid%String.eqb_eq _]%andb_true_iff.
  destruct result as [id status payload err]. cbn in *. subst.
  by destruct (String.eqb _ "").
Qed.

(** X4: on a server whose providers are all filesystem providers, the
    two endpoints never answer 500 and never panic: the answer is 400 (the
    request did not bind or its identifier is malformed), 404 (no such
    provider) or 200 with a well-formed envelope for the request, the one
    the provider returned. *)
Theorem endpoints_never_fail (s : MCPServer.t OS.State) :
  (∀ name provider,
     MCPServer.Providers s !! name = Some provider →
     ∃ p, provider = FilesystemProvider_Provider p) →
  (∀ (bound : result CallToolRequest.t) (σ : OS.State),
     ∃ code body σ',
       handleCallTool s bound σ = (JSON code body, σ')
       ∧ match body with
         | BodyError _ => code = StatusBadRequest ∨ code = StatusNotFound
         | BodyToolResult envelope =>
             code = StatusOK
             ∧ ∃ request, bound = Ok request
                 ∧ wellFormedToolResult (CallToolRequest.RequestID request) envelope
                   = true
         | BodyResourceResult _ => False
         end)
  ∧
  (∀ (bound : result LoadResourceRequest.t) (σ : OS.State),
     ∃ code body σ',
       handleLoadResource s bound σ = (JSON code body, σ')
       ∧ match body with
         | BodyError _ => code = StatusBadRequest ∨ code = StatusNotFound
         | BodyResourceResult envelope =>
             code = StatusOK
             ∧ ∃ request, bound = Ok request
                 ∧ wellFormedResourceResult (LoadResourceRequest.RequestID request)
                                            envelope = true
         | BodyToolResult _ => False
         end).
Proof.
  intros Hproviders. split.
  - intros [request|err] σ; [| by eexists _, _, _; split; [reflexivity | left]].
    unfold handleCallTool.
    destruct (parseToolID _) as [[providerName toolName]|err];
      [| by eexists _, _, _; split; [reflexivity | left]].
    destruct (MCPServer.Providers s !! providerName) as [provider|] eqn:Hprovider;
      [| by eexists _, _, _; split; [reflexivity | right]].
    destruct (Hproviders _ _ Hprovider) as [p ->].
    destruct (CallTool_well_formed p σ toolName request)
      as (envelope & σ' & Hcall & Hwf).
    cbn [CallTool FilesystemProvider_Provider]. rewrite Hcall.
    rewrite (wellFormedToolResult_backfill _ _ Hwf).
    eexists _, _, _. split; [reflexivity |]. split; [done |]. by exists request.
  - intros [request|err] σ; [| by eexists _, _, _; split; [reflexivity | left]].
    unfold handleLoadResource.
    destruct (parseResourceID _) as [[providerName resourceName]|err];
      [| by eexists _, _, _; split; [reflexivity | left]].
    destruct (MCPServer.Providers s !! providerName) as [provider|] eqn:Hprovider;
      [| by eexists _, _, _; split; [reflexivity | right]].
    destruct (Hproviders _ _ Hprovider) as [p ->].
    destruct (LoadResource_well_formed p σ resourceName request)
      as (envelope & Hload & Hwf).
    cbn [LoadResource FilesystemProvider_Provider]. rewrite Hload.
    rewrite (wellFormedResourceResult_backfill _ _ Hwf).
    eexists _, _, _. split; [reflexivity |]. split; [done |]. by exists request.
Qed.

Lemma mainServer_providers (name : string) (provider : Provider OS.State) :
  MCPServer.Providers mainServer !! name = Some provider →
  ∃ p, provider = FilesystemProvider_Provider p.
Proof.
  unfold mainServer, RegisterProvider, NewMCPServer. cbn [MCPServer.Providers].
  intros [[_ <-] | [_ Hempty]]%lookup_insert_Some; [by eexists |].
  by rewrite lookup_empty in Hempty.
Qed.

Lemma endpoints_never_fail_witness :
  ∃ code body σ',
    handleCallTool mainServer
      (Ok (toolRequest "filesystem.read" "req-1" {[ "path" := VString "notes/a.txt" ]}))
      notesState
    = (JSON code body, σ')
    ∧ match body with
      | BodyError _ => code = StatusBadRequest ∨ code = StatusNotFound
      | BodyToolResult envelope =>
          code = StatusOK
          ∧ ∃ request,
              Ok (toolRequest "filesystem.read" "req-1"
                    {[ "path" := VString "notes/a.txt" ]}) = Ok request
              ∧ wellFormedToolResult (CallToolRequest.RequestID request) envelope
                = true
      | BodyResourceResult _ => False
      end.
Proof.
  exact (proj1 (endpoints_never_fail mainServer mainServer_providers)
           (Ok (toolRequest "filesystem.read" "req-1"
                  {[ "path" := VString "notes/a.txt" ]}))
           notesState).
Defined.

(** ** Arguments that are missing or of the wrong type *)

(** X5: when the [path] argument is missing or is no string, each of the
    four tools and the two resources answers with the same message, under
    its own code, and the filesystem is not touched; [write] answers the
    same way for its [content] argument, also before anything is created. *)
Theorem missing_arguments_refused (p : FilesystemProvider.t) (σ : OS.State) :
  (∀ (toolName : string) (request : CallToolRequest.t),
     toolName ∈ ["list"; "read"; "write"; "delete"] →
     assertString (toolArguments request !! "path") = None →
     FilesystemProvider_CallTool p toolName request σ
     = ((Some (toolError (CallToolRequest.RequestID request) "execution_error"
                 "Path parameter is required and must be a string"), None), σ))
  ∧
  (∀ (resourceName : string) (request : LoadResourceRequest.t),
     resourceName ∈ ["file"; "directory"] →
     assertString (LoadResourceRequest.Params request !! "path") = None →
     FilesystemProvider_LoadResource p resourceName request σ
     = ((Some (resourceError (LoadResourceRequest.RequestID request) "resource_error"
                 "Path parameter is required and must be a string"), None), σ))
  ∧
  (∀ (request : CallToolRequest.t),
     assertString (toolArguments request !! "path") ≠ None →
     assertString (toolArguments request !! "content") = None →
     FilesystemProvider_CallTool p "write" request σ
     = ((Some (toolError (CallToolRequest.RequestID request) "execution_error"
                 "Content parameter is required and must be a string"), None), σ)).
Proof.
  repeat split.
  - intros toolName request Hname Hpath.
    repeat (apply elem_of_cons in Hname as [-> | Hname];
            [cbn; unfold listDirectory, readFile, writeFile, deleteFile;
             by rewrite Hpath |]).
    by apply elem_of_nil in Hname.
  - intros resourceName request Hname Hpath.
    repeat (apply elem_of_cons in Hname as [-> | Hname];
            [cbn; unfold loadFile, loadDirectory; by rewrite Hpath |]).
    by apply elem_of_nil in Hname.
  - intros request Hpath Hcontent. cbn. unfold writeFile.
    destruct (assertString (toolArguments request !! "path")); [| done].
    by rewrite Hcontent.
Qed.

Lemma missing_arguments_refused_witness :
  FilesystemProvider_CallTool sandbox "delete"
    (toolRequest "filesystem.delete" "req-1" {[ "path" := VFloat64 0 ]}) notesState
  = ((Some (toolError "req-1" "execution_error"
              "Path parameter is required and must be a string"), None), notesState).
Proof.
  apply (proj1 (missing_arguments_refused sandbox notesState)).
  - by repeat constructor.
  - reflexivity.
Defined.

(** ** Registration, discovery and routing *)

Lemma handleDiscover_providers {S : Type} (s : MCPServer.t S) :
  DiscoverResponse.Providers (snd (handleDiscover s))
  = map (λ kv, GetInfo (snd kv)) (map_to_list (MCPServer.Providers s)).
Proof.
  unfold handleDiscover. cbn [snd].
  generalize (map_to_list (MCPServer.Providers s)).
  set (info := {| ServerInfo.Name := _ |}).
  assert (Hfold : ∀ (l : list (string * Provider S)) (acc : list ProviderInfo.t),
    DiscoverResponse.Providers
      (foldl (λ response '(_, provider),
                {| DiscoverResponse.ServerInfo := DiscoverResponse.ServerInfo response;
                   DiscoverResponse.Providers :=
                     DiscoverResponse.Providers response ++ [GetInfo provider] |})
             {| DiscoverResponse.ServerInfo := info;
                DiscoverResponse.Providers := acc |} l)
    = acc ++ map (λ kv, GetInfo (snd kv)) l).
  { induction l as [|[name provider] l IH]; intros acc; cbn.
    - by rewrite app_nil_r.
    - rewrite IH. by rewrite <- app_assoc. }
  intros l. apply (Hfold l []).
Qed.

(** X6: the discover endpoint answers 200 with the identity of the server
    and the catalog of every registered provider: one entry per registered
    name, and an entry is there exactly when it is the catalog of a
    registered provider. *)
Theorem discover_lists_registered_providers {S : Type} (s : MCPServer.t S) :
  let response := snd (handleDiscover s) in
  fst (handleDiscover s) = StatusOK
  ∧ DiscoverResponse.ServerInfo response
    = {| ServerInfo.Name := MCPServer.Name s;
         ServerInfo.Version := MCPServer.Version s;
         ServerInfo.Description := MCPServer.Description s |}
  ∧ List.length (DiscoverResponse.Providers response) = size (MCPServer.Providers s)
  ∧ ∀ info, info ∈ DiscoverResponse.Providers response
            ↔ ∃ name provider, MCPServer.Providers s !! name = Some provider
                               ∧ GetInfo provider = info.
Proof.
  intros response. split; [reflexivity |]. split.
  { unfold response, handleDiscover. cbn [snd].
    generalize (map_to_list (MCPServer.Providers s)).
    intros l. set (r0 := {| DiscoverResponse.Providers := [] |}).
    change (MCPServer.Name s) with (ServerInfo.Name (DiscoverResponse.ServerInfo r0)).
    change (MCPServer.Version s)
      with (ServerInfo.Version (DiscoverResponse.ServerInfo r0)).
    change (MCPServer.Description s)
      with (ServerInfo.Description (DiscoverResponse.ServerInfo r0)).
    assert (Hinfo : DiscoverResponse.ServerInfo r0
                    = {| ServerInfo.Name := ServerInfo.Name (DiscoverResponse.ServerInfo r0);
                         ServerInfo.Version :=
                           ServerInfo.Version (DiscoverResponse.ServerInfo r0);
                         ServerInfo.Description :=
                           ServerInfo.Description (DiscoverResponse.ServerInfo r0) |})
      by reflexivity.
    rewrite <- Hinfo. clear Hinfo. generalize r0. clear r0.
    induction l as [|[name provider] l IH]; intros r0; [reflexivity |].
    cbn [foldl]. by rewrite IH. }
  unfold response. rewrite handleDiscover_providers. split.
  - by rewrite length_map, length_map_to_list.
  - intros info. rewrite list_elem_of_fmap. split.
    + intros ([name provider] & -> & Hin%elem_of_map_to_list). by exists name, provider.
    + intros (name & provider & Hlookup & <-). exists (name, provider).
      split; [done |]. by apply elem_of_map_to_list.
Qed.

(** X7: [RegisterProvider] files the provider under its name, replacing
    a provider already there.  A provider whose name has no dot is then the
    one a call with that name before the dot is passed to; a provider whose
    name has a dot can be registered but is never reached: calls are
    answered as before the registration. *)
Theorem registration_and_routing
  {S : Type} (s : MCPServer.t S) (provider : Provider S) (σ : S) :
  (∀ (toolName : string) (request : CallToolRequest.t),
     dots (GetName provider) = 0 → dots toolName = 0 →
     CallToolRequest.ToolID request = GetName provider +:+ "." +:+ toolName →
     snd (handleCallTool (RegisterProvider s provider) (Ok request) σ)
     = snd (CallTool provider toolName request σ)
     ∧ ∀ result, fst (CallTool provider toolName request σ) = (Some result, None) →
         ∃ envelope,
           fst (handleCallTool (RegisterProvider s provider) (Ok request) σ)
           = JSON StatusOK (BodyToolResult envelope)
           ∧ CallToolResult.Status envelope = CallToolResult.Status result
           ∧ CallToolResult.Result envelope = CallToolResult.Result result
           ∧ CallToolResult.Error envelope = CallToolResult.Error result)
  ∧
  (dots (GetName provider) ≠ 0 →
   ∀ request : CallToolRequest.t,
     handleCallTool (RegisterProvider s provider) (Ok request) σ
     = handleCallTool s (Ok request) σ).
Proof.
  split.
  - intros toolName request Hname Htool Hid.
    assert (Hparse : parseToolID (CallToolRequest.ToolID request)
                     = Ok (GetName provider, toolName))
      by by apply parse_identifier_roundtrip_tool.
    unfold handleCallTool. rewrite Hparse.
    unfold RegisterProvider. cbn [MCPServer.Providers]. rewrite lookup_insert_eq.
    destruct (CallTool provider toolName request σ) as [[[r|] [e|]] σ'];
      (split; [done |]); intros result [= <-].
    destruct (String.eqb _ ""); by eexists.
  - intros Hname request. unfold handleCallTool.
    destruct (parseToolID (CallToolRequest.ToolID request))
      as [[providerName toolName]|err] eqn:Hparse; [| done].
    apply parse_identifier_roundtrip_tool in Hparse as (_ & Hdots & _).
    unfold RegisterProvider. cbn [MCPServer.Providers].
    rewrite lookup_insert_ne; [done |]. by intros <-.
Qed.

Lemma registration_and_routing_witness :
  snd (handleCallTool mainServer
         (Ok (toolRequest "filesystem.read" "req-1" {[ "path" := VString "notes/a.txt" ]}))
         notesState)
  = snd (CallTool (FilesystemProvider_Provider NewFilesystemProvider) "read"
           (toolRequest "filesystem.read" "req-1" {[ "path" := VString "notes/a.txt" ]})
           notesState).
Proof.
  apply (proj1 (registration_and_routing _ _ notesState) "read"
           (toolRequest "filesystem.read" "req-1" {[ "path" := VString "notes/a.txt" ]}));
    reflexivity.
Defined.

(** ** More on [resolvePath] *)

Lemma Split_render_relative_nil :
  GoStrings.Split (Filepath.render false []) "/" = ["."].
Proof. reflexivity. Qed.

(** Reading a cleaned relative path is reading the path. *)
Lemma fold_cleanStep_Clean (rooted : bool) (path : string) (s : list string) :
  Filepath.IsAbs path = false →
  fold_left (Filepath.cleanStep rooted) (GoStrings.Split (Filepath.Clean path) "/") s
  = fold_left (Filepath.cleanStep rooted) (GoStrings.Split path "/") s.
Proof.
  intros Hrel.
  pose proof (fold_cleanStep_twice rooted (GoStrings.Split path "/") s []
                (Split_elements _ _) (List.Forall_nil _)) as Htwice.
  cbn [rev app] in Htwice. rewrite <- Htwice.
  unfold Filepath.Clean. rewrite Hrel.
  pose proof (cleanElems_written false path) as Ht.
  unfold Filepath.cleanElems, Filepath.Separator in *.
  destruct (fold_left (Filepath.cleanStep false) (GoStrings.Split path "/") [])
    as [|top rest] eqn:Et; [reflexivity |].
  by rewrite Split_render_relative.
Qed.

Lemma cleanElems_Clean_rooted (path : string) :
  Filepath.IsAbs path = true →
  Filepath.cleanElems true (GoStrings.Split (Filepath.Clean path) "/")
  = Filepath.cleanElems true (GoStrings.Split path "/").
Proof.
  intros Habs. unfold Filepath.Clean. rewrite Habs.
  set (st := Filepath.cleanElems true (GoStrings.Split path Filepath.Separator)).
  change (Filepath.cleanElems true (GoStrings.Split path "/")) with st.
  assert (Hw : Forall written st) by apply cleanElems_written.
  assert (Hd : Forall (λ e, e ≠ "..") st)
    by (apply fold_cleanStep_rooted_no_dotdot; constructor).
  destruct (decide (st = [])) as [-> | Hnil]; [reflexivity |].
  rewrite Split_render_rooted by done.
  unfold Filepath.cleanElems. cbn [fold_left]. rewrite cleanStep_skip by by left.
  rewrite fold_cleanStep_names by by apply Forall_rev.
  by rewrite rev_involutive, app_nil_r.
Qed.

(** [Clean] is idempotent. *)
Lemma Clean_idempotent (path : string) :
  Filepath.Clean (Filepath.Clean path) = Filepath.Clean path.
Proof.
  destruct (Filepath.IsAbs path) eqn:Habs; [by apply Clean_rooted_idempotent |].
  unfold Filepath.Clean at 1. rewrite IsAbs_Clean, Habs.
  unfold Filepath.cleanElems, Filepath.Separator.
  rewrite fold_cleanStep_Clean by done.
  unfold Filepath.Clean. by rewrite Habs.
Qed.

(** X8: a relative candidate is resolved through its cleaned form only:
    spellings that [Clean] identifies ([a//b/./c] and [a/b/c], a trailing
    separator, a cancelled [x/..]) resolve alike. *)
Theorem resolvePath_of_Clean (p : FilesystemProvider.t) (σ : OS.State) (path : string) :
  Filepath.IsAbs path = false →
  resolvePath p σ (Filepath.Clean path) = resolvePath p σ path.
Proof.
  intros Hrel. unfold resolvePath.
  by rewrite IsAbs_Clean, Hrel, Clean_idempotent.
Qed.

Lemma resolvePath_of_Clean_witness :
  resolvePath sandbox sandboxState (Filepath.Clean "notes//x/.././a.txt")
  = resolvePath sandbox sandboxState "notes//x/.././a.txt".
Proof. apply resolvePath_of_Clean. reflexivity. Defined.

Lemma Getwd_IsAbs (σ : OS.State) (wd : string) :
  OS.Getwd σ = Ok wd → Filepath.IsAbs wd = true.
Proof.
  unfold OS.Getwd. destruct (OS.nodeAt _ _) as [[|]|]; try discriminate.
  by intros [= <-].
Qed.

Lemma Abs_IsAbs (σ : OS.State) (path abs : string) :
  Filepath.Abs (OS.Getwd σ) path = Ok abs → Filepath.IsAbs abs = true.
Proof.
  unfold Filepath.Abs. destruct (Filepath.IsAbs path) eqn:Habs.
  - intros [= <-]. by rewrite IsAbs_Clean.
  - destruct (OS.Getwd σ) as [wd|err] eqn:Hwd; [| discriminate].
    pose proof (Getwd_not_empty _ _ Hwd). pose proof (Getwd_IsAbs _ _ Hwd).
    rewrite Join_two by done. intros [= <-].
    by rewrite IsAbs_Clean, IsAbs_app.
Qed.

(** X9: a path [resolvePath] returns is absolute, so resolving it again,
    in any state of the filesystem, returns it unchanged. *)
Theorem resolvePath_result_absolute
  (p : FilesystemProvider.t) (σ : OS.State) (path fullPath : string) :
  resolvePath p σ path = Ok fullPath →
  Filepath.IsAbs fullPath = true
  ∧ ∀ σ', resolvePath p σ' fullPath = Ok fullPath.
Proof.
  intros Hresolve.
  assert (Habs : Filepath.IsAbs fullPath = true).
  { revert Hresolve. unfold resolvePath.
    destruct (Filepath.IsAbs path) eqn:Hpath; [by intros [= <-] |].
    destruct (_ || _); [discriminate |].
    destruct (Filepath.Abs _ (Filepath.Join _)) as [absPath|err] eqn:Habs;
      [| discriminate].
    apply Abs_IsAbs in Habs.
    destruct (Filepath.IsAbs (FilesystemProvider.rootDir p)); [| by intros [= <-]].
    destruct (Filepath.Abs _ (FilesystemProvider.rootDir p)); [| discriminate].
    destruct (negb _); [discriminate |]. by intros [= <-]. }
  split; [done |]. intros σ'. unfold resolvePath. by rewrite Habs.
Qed.

Lemma resolvePath_result_absolute_witness :
  Filepath.IsAbs "/sandbox/notes/a.txt" = true
  ∧ ∀ σ', resolvePath NewFilesystemProvider σ' "/sandbox/notes/a.txt"
          = Ok "/sandbox/notes/a.txt".
Proof.
  apply (resolvePath_result_absolute NewFilesystemProvider sandboxState "notes/a.txt").
  reflexivity.
Defined.

(** ** Relative candidates stay inside the root *)

Lemma append_assoc (a b c : string) : (a +:+ b) +:+ c = a +:+ (b +:+ c).
Proof.
  induction a as [|x a IH]; [done |].
  change (String x ((a +:+ b) +:+ c) = String x (a +:+ (b +:+ c))). by rewrite IH.
Qed.

(** In a relative path being cleaned the [..] kept are the oldest
    elements written. *)
Lemma cleanStep_relative_shape (st : list string) (c : string) :
  (∃ names dotdots, st = names ++ dotdots
     ∧ Forall (λ e, e ≠ "..") names ∧ Forall (λ e, e = "..") dotdots) →
  ∃ names dotdots, Filepath.cleanStep false st c = names ++ dotdots
     ∧ Forall (λ e, e ≠ "..") names ∧ Forall (λ e, e = "..") dotdots.
Proof.
  intros (names & dotdots & -> & Hnames & Hdotdots).
  destruct (element_cases c) as [Hskip | [-> | (H1 & H2 & H3)]].
  - rewrite cleanStep_skip by done. by exists names, dotdots.
  - destruct names as [|name names].
    + exists [], (".." :: dotdots). cbn [app]. split; [| by repeat constructor].
      destruct dotdots as [|d dotdots]; [reflexivity |].
      inversion Hdotdots; subst. reflexivity.
    + inversion Hnames as [|? ? Hname Hnames']; subst.
      exists names, dotdots. split; [| done].
      cbn. by rewrite (eqb_neq_false _ _ Hname).
  - rewrite cleanStep_name by done. exists (c :: names), dotdots.
    split; [reflexivity |]. split; [by constructor | done].
Qed.

Lemma cleanElems_relative_shape (elems : list string) :
  ∃ names dotdots, Filepath.cleanElems false elems = names ++ dotdots
     ∧ Forall (λ e, e ≠ "..") names ∧ Forall (λ e, e = "..") dotdots.
Proof.
  unfold Filepath.cleanElems.
  assert (H : ∀ st,
    (∃ names dotdots, st = names ++ dotdots
       ∧ Forall (λ e, e ≠ "..") names ∧ Forall (λ e, e = "..") dotdots) →
    ∃ names dotdots, fold_left (Filepath.cleanStep false) elems st = names ++ dotdots
       ∧ Forall (λ e, e ≠ "..") names ∧ Forall (λ e, e = "..") dotdots).
  { induction elems as [|c elems IH]; intros st Hst; [done |].
    cbn [fold_left]. by apply IH, cleanStep_relative_shape. }
  apply H. by exists [], [].
Qed.

(** A relative candidate that passes the first test of [resolvePath] is
    cleaned to names only. *)
Lemma accepted_names (path : string) :
  Filepath.IsAbs path = false →
  GoStrings.HasPrefix (Filepath.Clean path) ".." = false →
  Forall (λ e, e ≠ "..") (Filepath.cleanElems false (GoStrings.Split path "/")).
Proof.
  intros Hrel Hprefix. unfold Filepath.Clean in Hprefix. rewrite Hrel in Hprefix.
  unfold Filepath.Separator in Hprefix.
  destruct (cleanElems_relative_shape (GoStrings.Split path "/"))
    as (names & dotdots & Hst & Hnames & Hdotdots).
  rewrite Hst in *.
  destruct dotdots as [|d dotdots _] using rev_ind; [by rewrite app_nil_r |].
  apply Forall_app in Hdotdots as [_ Hd]. inversion Hd; subst.
  rewrite app_assoc, render_leading_dotdot in Hprefix. discriminate Hprefix.
Qed.

Lemma fold_cleanStep_accepted (rooted : bool) (path : string) (s : list string) :
  Filepath.IsAbs path = false →
  GoStrings.HasPrefix (Filepath.Clean path) ".." = false →
  fold_left (Filepath.cleanStep rooted) (GoStrings.Split path "/") s
  = Filepath.cleanElems false (GoStrings.Split path "/") ++ s.
Proof.
  intros Hrel Hprefix.
  pose proof (fold_cleanStep_twice rooted (GoStrings.Split path "/") s []
                (Split_elements _ _) (List.Forall_nil _)) as Htwice.
  cbn [rev app] in Htwice. rewrite <- Htwice.
  fold (Filepath.cleanElems false (GoStrings.Split path "/")).
  rewrite fold_cleanStep_names.
  - by rewrite rev_involutive.
  - apply Forall_rev, (cleanElems_written false path).
  - by apply Forall_rev, accepted_names.
Qed.

Lemma elements_Clean (path : string) :
  Filepath.IsAbs path = true → elements (Filepath.Clean path) = elements path.
Proof. intros Habs. unfold elements, Filepath.Separator. by rewrite cleanElems_Clean_rooted. Qed.

Lemma elements_app_accepted (dir path : string) :
  Filepath.IsAbs path = false →
  GoStrings.HasPrefix (Filepath.Clean path) ".." = false →
  elements (dir +:+ "/" +:+ Filepath.Clean path)
  = elements dir ++ rev (Filepath.cleanElems false (GoStrings.Split path "/")).
Proof.
  intros Hrel Hprefix. unfold elements, Filepath.Separator.
  change ("/" +:+ ?s) with (String "/"%char s). rewrite Split_app.
  unfold Filepath.cleanElems at 1. rewrite fold_left_app.
  rewrite fold_cleanStep_Clean, fold_cleanStep_accepted by done.
  by rewrite rev_app_distr.
Qed.

Lemma elements_app_empty (dir : string) : elements (dir +:+ "/" +:+ "") = elements dir.
Proof.
  unfold elements, Filepath.Separator.
  change ("/" +:+ ?s) with (String "/"%char s). rewrite Split_app.
  unfold Filepath.cleanElems. rewrite fold_left_app. reflexivity.
Qed.

Lemma Clean_not_empty (path : string) : Filepath.Clean path ≠ "".
Proof.
  unfold Filepath.Clean. pose proof (cleanElems_written (Filepath.IsAbs path) path) as Hw.
  destruct (Filepath.IsAbs path); unfold Filepath.render; [done |].
  destruct (Filepath.cleanElems false _) as [|top rest] eqn:Est; [done |].
  rewrite <- Est in *. apply Forall_rev in Hw.
  destruct (rev (Filepath.cleanElems false _)) as [|e l] eqn:Erev.
  - apply (f_equal (@List.length _)) in Erev. rewrite length_rev, Est in Erev.
    discriminate Erev.
  - inversion Hw as [|? ? (c & e' & -> & _)%written_head _]; subst.
    destruct l; [done |]. by rewrite Join_cons.
Qed.

(** The key a path resolves to in the filesystem is made of its elements. *)
Lemma namei_elements (fs : OS.Files) (elems cur k : list string) :
  Forall (λ e, e ≠ "..") cur →
  OS.namei fs cur elems = inl k →
  k = rev (fold_left (Filepath.cleanStep true) elems (rev cur)).
Proof.
  revert cur. induction elems as [|e elems IH]; intros cur Hcur Hnamei.
  - injection Hnamei as <-. cbn. by rewrite rev_involutive.
  - cbn [OS.namei fold_left] in *.
    destruct (OS.nodeAt fs cur) as [[data t|t]|]; try discriminate Hnamei.
    destruct (element_cases e) as [Hskip | [-> | (H1 & H2 & H3)]].
    + rewrite cleanStep_skip by done.
      destruct Hskip as [-> | ->]; by apply IH.
    + cbn in Hnamei. apply IH in Hnamei.
      * rewrite Hnamei. f_equal. f_equal.
        destruct cur as [|c cur _] using rev_ind; [reflexivity |].
        apply Forall_app in Hcur as [_ Hc]. inversion Hc as [|? ? Hne _]; subst.
        rewrite removelast_last, rev_app_distr. cbn.
        by rewrite (eqb_neq_false _ _ Hne).
      * destruct cur as [|c cur _] using rev_ind; [done |].
        rewrite removelast_last. by apply Forall_app in Hcur as [? _].
    + rewrite (eqb_neq_false _ _ H1), (eqb_neq_false _ _ H2),
        (eqb_neq_false _ _ H3) in Hnamei. cbn in Hnamei.
      apply IH in Hnamei; [| apply Forall_app; by repeat constructor].
      rewrite Hnamei, cleanStep_name by done. by rewrite rev_app_distr.
Qed.

Lemma resolve_elements (σ : OS.State) (path : string) (k : list string) :
  Filepath.IsAbs path = true → OS.resolve σ path = inl k → k = elements path.
Proof.
  intros Habs. unfold OS.resolve. rewrite Habs.
  destruct (String.eqb path ""); [discriminate |].
  intros Hnamei. by apply namei_elements in Hnamei.
Qed.

(** What [resolvePath] returns for a relative candidate that passes its
    first test, with the absolute form of the root. *)
Lemma resolvePath_relative_inv (p : FilesystemProvider.t) (σ : OS.State)
  (path fullPath : string) :
  Filepath.IsAbs path = false →
  resolvePath p σ path = Ok fullPath →
  GoStrings.HasPrefix (Filepath.Clean path) ".." = false
  ∧ ∃ dir rootAbs,
      Filepath.IsAbs dir = true
      ∧ Filepath.Abs (OS.Getwd σ) (FilesystemProvider.rootDir p) = Ok rootAbs
      ∧ elements rootAbs = elements dir
      ∧ fullPath = Filepath.Clean (dir +:+ "/" +:+ Filepath.Clean path).
Proof.
  destruct p as [root]. cbn [FilesystemProvider.rootDir].
  intros Hrel. unfold resolvePath. cbn [FilesystemProvider.rootDir]. rewrite Hrel.
  destruct (GoStrings.HasPrefix (Filepath.Clean path) "..") eqn:Hprefix;
    [discriminate |].
  destruct (GoStrings.Contains _ _); [discriminate |]. cbn [orb].
  intros Hresolve. split; [done |]. revert Hresolve.
  pose proof (Clean_not_empty path) as Hclean.
  destruct (String.eqb_spec root "") as [-> | Hroot].
  - (* the root is the working directory *)
    assert (Hjoin : Filepath.Join [""; Filepath.Clean path] = Filepath.Clean path).
    { change (Filepath.Join [""; Filepath.Clean path])
        with (Filepath.Join [Filepath.Clean path]).
      cbn [Filepath.Join]. rewrite (eqb_neq_false _ _ Hclean).
      apply Clean_idempotent. }
    rewrite Hjoin. unfold Filepath.Abs.
    rewrite IsAbs_Clean, Hrel. change (Filepath.IsAbs "") with false. cbv iota.
    destruct (OS.Getwd σ) as [wd|err] eqn:Hwd; [| discriminate].
    pose proof (Getwd_not_empty _ _ Hwd) as Hwdne.
    pose proof (Getwd_IsAbs _ _ Hwd) as Hwdabs.
    rewrite !Join_two by done. intros [= <-].
    exists wd, (Filepath.Clean (wd +:+ "/" +:+ "")). repeat split; [done |].
    rewrite elements_Clean by by rewrite IsAbs_app.
    apply elements_app_empty.
  - rewrite Join_two by done. unfold Filepath.Abs. rewrite IsAbs_Clean, IsAbs_app by done.
    destruct (Filepath.IsAbs root) eqn:Habs.
    + rewrite Clean_idempotent. destruct (negb _); [discriminate |].
      intros [= <-]. exists root, (Filepath.Clean root). repeat split; [done |].
      by apply elements_Clean.
    + destruct (OS.Getwd σ) as [wd|err] eqn:Hwd; [| discriminate].
      pose proof (Getwd_not_empty _ _ Hwd) as Hwdne.
      pose proof (Getwd_IsAbs _ _ Hwd) as Hwdabs.
      rewrite !Join_two by done. intros [= <-].
      exists (wd +:+ "/" +:+ root), (Filepath.Clean (wd +:+ "/" +:+ root)).
      split; [by rewrite IsAbs_app |]. split; [done |].
      split; [apply elements_Clean; by rewrite IsAbs_app |].
      rewrite Clean_Join_Clean by (by rewrite ?IsAbs_app).
      by rewrite !append_assoc.
Qed.

(** X10: a relative candidate that [resolvePath] accepts resolves inside
    the root, whether the root is absolute or relative: the elements of the
    full path are those of the absolute form of the root followed by the
    names the candidate is cleaned to, none of them [..]; so every node the
    filesystem resolves the full path to lies below the root. *)
Theorem resolvePath_relative_inside_root
  (p : FilesystemProvider.t) (σ : OS.State) (path fullPath : string) :
  Filepath.IsAbs path = false →
  resolvePath p σ path = Ok fullPath →
  let names := rev (Filepath.cleanElems false (GoStrings.Split path "/")) in
  ∃ rootAbs,
    Filepath.Abs (OS.Getwd σ) (FilesystemProvider.rootDir p) = Ok rootAbs
    ∧ Forall (λ e, e ≠ "..") names
    ∧ elements fullPath = elements rootAbs ++ names
    ∧ ∀ σ' k, OS.resolve σ' fullPath = inl k → k = elements rootAbs ++ names.
Proof.
  intros Hrel Hresolve names.
  destruct (resolvePath_relative_inv p σ path fullPath Hrel Hresolve)
    as (Hprefix & dir & rootAbs & Hdir & Hroot & Helements & ->).
  exists rootAbs. split; [done |].
  split; [by apply Forall_rev, accepted_names |].
  assert (Hfull : elements (Filepath.Clean (dir +:+ "/" +:+ Filepath.Clean path))
                  = elements rootAbs ++ names).
  { rewrite elements_Clean by by rewrite IsAbs_app; [| by intros ->].
    by rewrite elements_app_accepted, Helements. }
  split; [done |]. intros σ' k Hk.
  apply resolve_elements in Hk; [by rewrite Hk |].
  rewrite IsAbs_Clean, IsAbs_app; [done | by intros ->].
Qed.

Lemma resolvePath_relative_inside_root_witness :
  ∃ rootAbs,
    Filepath.Abs (OS.Getwd sandboxState) (FilesystemProvider.rootDir NewFilesystemProvider)
    = Ok rootAbs
    ∧ Forall (λ e, e ≠ "..") (rev (Filepath.cleanElems false
                                     (GoStrings.Split "notes/./x/../a.txt" "/")))
    ∧ elements "/sandbox/notes/a.txt"
      = elements rootAbs
        ++ rev (Filepath.cleanElems false (GoStrings.Split "notes/./x/../a.txt" "/"))
    ∧ ∀ σ' k, OS.resolve σ' "/sandbox/notes/a.txt" = inl k →
              k = elements rootAbs
                  ++ rev (Filepath.cleanElems false
                            (GoStrings.Split "notes/./x/../a.txt" "/")).
Proof.
  apply (resolvePath_relative_inside_root NewFilesystemProvider sandboxState
           "notes/./x/../a.txt" "/sandbox/notes/a.txt"); reflexivity.
Defined.

(** ** The prefix check of [resolvePath] *)

Lemma HasPrefix_app (s t : string) : GoStrings.HasPrefix (s +:+ t) s = true.
Proof.
  induction s as [|c s IH]; [by destruct t |].
  change (String c s +:+ t) with (String c (s +:+ t)). cbn.
  by rewrite Ascii.eqb_refl, IH.
Qed.

Lemma Join_app (l1 l2 : list string) (sep : string) :
  ∃ rest, GoStrings.Join (l1 ++ l2) sep = GoStrings.Join l1 sep +:+ rest.
Proof.
  induction l1 as [|x [|y l1] IH].
  - by exists (GoStrings.Join l2 sep).
  - destruct l2 as [|z l2].
    + exists "". clear. change (GoStrings.Join [x] sep) with x.
      induction x as [|c x IH]; [done |].
      change (String c x = String c (x +:+ "")). by rewrite <- IH.
    + exists (sep +:+ GoStrings.Join (z :: l2) sep). reflexivity.
  - destruct IH as [rest IH]. exists rest.
    change ((x :: y :: l1) ++ l2) with (x :: y :: (l1 ++ l2)).
    rewrite !Join_cons. change (y :: l1 ++ l2) with ((y :: l1) ++ l2).
    by rewrite IH, !append_assoc.
Qed.

Lemma Clean_rooted_elements (path : string) :
  Filepath.IsAbs path = true →
  Filepath.Clean path = "/" +:+ GoStrings.Join (elements path) "/".
Proof. intros Habs. unfold Filepath.Clean. by rewrite Habs. Qed.

(** The cleaned join of a directory and an accepted candidate starts with
    the cleaned directory. *)
Lemma HasPrefix_Clean_accepted (dir path : string) :
  Filepath.IsAbs dir = true →
  Filepath.IsAbs path = false →
  GoStrings.HasPrefix (Filepath.Clean path) ".." = false →
  GoStrings.HasPrefix (Filepath.Clean (dir +:+ "/" +:+ Filepath.Clean path))
                      (Filepath.Clean dir) = true.
Proof.
  intros Hdir Hrel Hprefix.
  assert (Hne : dir ≠ "") by by intros ->.
  rewrite (Clean_rooted_elements dir) by done.
  rewrite (Clean_rooted_elements (dir +:+ _)) by by rewrite IsAbs_app.
  rewrite elements_app_accepted by done.
  destruct (Join_app (elements dir)
              (rev (Filepath.cleanElems false (GoStrings.Split path "/"))) "/")
    as [rest ->].
  rewrite <- append_assoc. apply HasPrefix_app.
Qed.

(** X11: the only errors of [resolvePath] are its refusal of a candidate
    that climbs and the error of [os.Getwd]; the last test, that the result
    starts with the absolute root, never refuses a path. *)
Theorem resolvePath_errors
  (p : FilesystemProvider.t) (σ : OS.State) (path : string) (err : error) :
  resolvePath p σ path = Err err →
  err ≠ OutsideRoot
  ∧ Filepath.IsAbs path = false
  ∧ (err = PathEscape ∨ OS.Getwd σ = Err err).
Proof.
  destruct p as [root]. unfold resolvePath. cbn [FilesystemProvider.rootDir].
  destruct (Filepath.IsAbs path) eqn:Hrel; [discriminate |].
  destruct (GoStrings.HasPrefix (Filepath.Clean path) "..") eqn:Hprefix;
    [intros [= <-]; by auto |].
  destruct (GoStrings.Contains _ _); [intros [= <-]; by auto |]. cbn [orb].
  assert (Hgetwd : ∀ e, OS.Getwd σ = Err e → e ≠ OutsideRoot).
  { unfold OS.Getwd. intros e. by destruct (OS.nodeAt _ _) as [[|]|]; intros [= <-]. }
  pose proof (Clean_not_empty path) as Hclean.
  destruct (Filepath.IsAbs root) eqn:Habs.
  - assert (Hroot : root ≠ "") by by intros ->.
    rewrite Join_two by done. unfold Filepath.Abs.
    rewrite IsAbs_Clean, IsAbs_app, Habs, Clean_idempotent by done.
    by rewrite HasPrefix_Clean_accepted.
  - unfold Filepath.Abs.
    assert (Hjoin : Filepath.IsAbs (Filepath.Join [root; Filepath.Clean path]) = false).
    { destruct (String.eqb_spec root "") as [-> | Hroot].
      - change (Filepath.Join [""; Filepath.Clean path])
          with (Filepath.Join [Filepath.Clean path]).
        cbn [Filepath.Join]. rewrite (eqb_neq_false _ _ Hclean).
        change (GoStrings.Join [Filepath.Clean path] "/") with (Filepath.Clean path).
        by rewrite !IsAbs_Clean.
      - rewrite Join_two by done. by rewrite IsAbs_Clean, IsAbs_app. }
    rewrite Hjoin.
    destruct (OS.Getwd σ) as [wd|e] eqn:Hwd; [discriminate |].
    intros [= <-]. split; [by apply Hgetwd |]. by auto.
Qed.

Lemma resolvePath_errors_witness :
  PathEscape ≠ OutsideRoot
  ∧ Filepath.IsAbs "a/../../b" = false
  ∧ (PathEscape = PathEscape ∨ OS.Getwd sandboxState = Err PathEscape).
Proof.
  apply (resolvePath_errors sandbox sandboxState "a/../../b" PathEscape). reflexivity.
Defined.

(** ** Writing: any encoding *)

(** The steps of a write that succeeded. *)
Lemma writeFile_success_steps (p : FilesystemProvider.t) (request : CallToolRequest.t)
  (σ σ' : OS.State) (result : CallToolResult.t) :
  writeFile p request σ = ((Some result, None), σ') →
  CallToolResult.Status result = "success" →
  ∃ pathParam contentParam fullPath σ1 data,
    toolArguments request !! "path" = Some (VString pathParam)
    ∧ toolArguments request !! "content" = Some (VString contentParam)
    ∧ resolvePath p σ pathParam = Ok fullPath
    ∧ OS.MkdirAll σ (Filepath.Dir fullPath) = (σ1, None)
    ∧ (if String.eqb
            match assertString (toolArguments request !! "encoding") with
            | Some encodingParam => encodingParam
            | None => "text"
            end "base64"
       then Base64.DecodeString contentParam
       else Ok (list_ascii_of_string contentParam)) = Ok data
    ∧ OS.WriteFile σ1 fullPath data = (σ', None).
Proof.
  unfold writeFile, toolReturn.
  destruct (toolArguments request !! "path") as [[| | |pathParam| |]|] eqn:Hpath;
    cbn [assertString]; try (intros [= <- _] Hs; discriminate Hs).
  destruct (toolArguments request !! "content") as [[| | |contentParam| |]|] eqn:Hcontent;
    cbn [assertString]; try (intros [= <- _] Hs; discriminate Hs).
  destruct (resolvePath p σ pathParam) as [fullPath|err] eqn:Hresolve;
    [| intros [= <- _] Hs; discriminate Hs].
  destruct (OS.MkdirAll σ (Filepath.Dir fullPath)) as [σ1 [err|]] eqn:Hmkdir;
    [intros [= <- _] Hs; discriminate Hs |].
  destruct (if String.eqb _ "base64" then _ else _) as [data|err] eqn:Hdecoded;
    [| intros [= <- _] Hs; discriminate Hs].
  destruct (OS.WriteFile σ1 fullPath data) as [σ2 [err|]] eqn:Hwrite;
    [intros [= <- _] Hs; discriminate Hs |].
  intros [= _ <-] _. exists pathParam, contentParam, fullPath, σ1, data.
  repeat split; done.
Qed.

Lemma WriteFile_success (σ σ' : OS.State) (name : string) (data : list ascii) :
  OS.WriteFile σ name data = (σ', None) →
  ∃ k, OS.resolve σ name = inl k ∧ k ≠ []
       ∧ (∀ t, OS.files σ !! k ≠ Some (OS.Directory t))
       ∧ σ' = OS.setFiles σ (<[k := OS.File data (OS.clock σ)]> (OS.files σ)).
Proof.
  unfold OS.WriteFile. destruct (OS.resolve σ name) as [[|e k]|]; try discriminate.
  destruct (OS.files σ !! (e :: k)) as [[|]|] eqn:Hk; try discriminate;
    intros [= <-]; exists (e :: k); repeat split; try done; by rewrite Hk.
Qed.

(** X12: a write with encoding [base64] that succeeds has decoded its
    content, and stores the decoded bytes: a later read of the same path
    with encoding [base64] returns their encoding, and a read as text
    returns the bytes themselves. *)
Theorem write_base64_then_read
  (p : FilesystemProvider.t) (σ σ' : OS.State) (path content : string)
  (writeID readID writeRequest readRequest : string) (result : CallToolResult.t) :
  writeFile p
    (toolRequest writeID writeRequest
       {[ "path" := VString path; "content" := VString content;
          "encoding" := VString "base64" ]}) σ
  = ((Some result, None), σ') →
  CallToolResult.Status result = "success" →
  ∃ data,
    Base64.DecodeString content = Ok data
    ∧ readFile p
        (toolRequest readID readRequest
           {[ "path" := VString path; "encoding" := VString "base64" ]}) σ'
      = (Some (toolJSON readRequest
                 (FileContentData {| FileContent.Path := path;
                                     FileContent.Content := Base64.EncodeToString data;
                                     FileContent.IsText := false |})), None)
    ∧ readFile p (toolRequest readID readRequest {[ "path" := VString path ]}) σ'
      = (Some (toolJSON readRequest
                 (FileContentData {| FileContent.Path := path;
                                     FileContent.Content := string_of_list_ascii data;
                                     FileContent.IsText := true |})), None).
Proof.
  intros Hwrite Hsuccess.
  destruct (writeFile_success_steps _ _ _ _ _ Hwrite Hsuccess)
    as (pathParam & contentParam & fullPath & σ1 & data
        & Hpath & Hcontent & Hresolve & Hmkdir & Hdecoded & Hfile).
  set (base64Args := {[ "path" := VString path; "encoding" := VString "base64" ]}
                     : gmap string Value).
  set (textArgs := {[ "path" := VString path ]} : gmap string Value).
  assert (path = pathParam ∧ content = contentParam
          ∧ Base64.DecodeString contentParam = Ok data) as (<- & <- & Hdata).
  { revert Hpath Hcontent Hdecoded.
    unfold toolArguments, toolRequest;
      cbn [CallToolRequest.Params CallToolParams.Arguments].
    by intros [= <-] [= <-]. }
  assert (Hb1 : base64Args !! "path" = Some (VString path)) by done.
  assert (Hb2 : base64Args !! "encoding" = Some (VString "base64")) by done.
  assert (Ht1 : textArgs !! "path" = Some (VString path)) by done.
  assert (Ht2 : textArgs !! "encoding" = None) by done.
  clearbody base64Args textArgs.
  assert (Hkeeps : keepsDirectories σ σ').
  { eapply keepsDirectories_trans.
    - by eapply MkdirAll_keepsDirectories.
    - by eapply WriteFile_keepsDirectories. }
  apply (resolvePath_keepsDirectories p σ σ' _ _ Hkeeps) in Hresolve.
  destruct (WriteFile_lookupNode _ _ _ _ Hfile) as [k Hnode].
  exists data. split; [done |]. split.
  - rewrite (readFile_file p (toolRequest readID readRequest base64Args)
               σ' path fullPath k _ _ Hb1 Hresolve Hnode).
    unfold toolArguments, toolRequest;
      cbn [CallToolRequest.Params CallToolParams.Arguments].
    by rewrite Hb2.
  - rewrite (readFile_file p (toolRequest readID readRequest textArgs)
               σ' path fullPath k _ _ Ht1 Hresolve Hnode).
    unfold toolArguments, toolRequest;
      cbn [CallToolRequest.Params CallToolParams.Arguments].
    by rewrite Ht2.
Qed.

Lemma write_base64_then_read_witness :
  ∃ data,
    Base64.DecodeString "aGk=" = Ok data
    ∧ readFile sandbox
        (toolRequest "filesystem.read" "req-2"
           {[ "path" := VString "notes/a.txt"; "encoding" := VString "base64" ]})
        notesState
      = (Some (toolJSON "req-2"
                 (FileContentData {| FileContent.Path := "notes/a.txt";
                                     FileContent.Content := Base64.EncodeToString data;
                                     FileContent.IsText := false |})), None)
    ∧ readFile sandbox
        (toolRequest "filesystem.read" "req-2" {[ "path" := VString "notes/a.txt" ]})
        notesState
      = (Some (toolJSON "req-2"
                 (FileContentData {| FileContent.Path := "notes/a.txt";
                                     FileContent.Content := string_of_list_ascii data;
                                     FileContent.IsText := true |})), None).
Proof.
  apply (write_base64_then_read sandbox sandboxState notesState "notes/a.txt" "aGk="
           "filesystem.write" "filesystem.read" "req-1" "req-2"
           {| CallToolResult.RequestID := "req-1";
              CallToolResult.Status := "success";
              CallToolResult.Result :=
                Some (PayloadText "File written successfully: notes/a.txt");
              CallToolResult.Error := None |}).
  - vm_compute. reflexivity.
  - reflexivity.
Defined.



(** ** Listing a directory *)

Lemma childName_Some (k k' : list string) (e : string) :
  OS.childName k k' = Some e ↔ k' = k ++ [e].
Proof.
  revert k'. induction k as [|c k IH]; intros k'.
  - destruct k' as [|a [|b k']]; cbn; split; intros; by simplify_eq.
  - destruct k' as [|c' k']; cbn; [split; intros; by simplify_eq |].
    destruct (String.eqb_spec c c') as [<- | Hne].
    + rewrite IH. split; intros; by simplify_eq.
    + split; intros; by simplify_eq.
Qed.

Lemma elem_of_children (fs : OS.Files) (k : list string) (e : string) (n : OS.Node) :
  (e, n) ∈ OS.children fs k ↔ fs !! (k ++ [e]) = Some n.
Proof.
  unfold OS.children. rewrite list_elem_of_omap. split.
  - intros ([k' n'] & Hin & Hchild).
    destruct (OS.childName k k') as [e'|] eqn:Hname; [| done].
    injection Hchild as -> ->. apply childName_Some in Hname as ->.
    by apply elem_of_map_to_list.
  - intros Hlookup. exists (k ++ [e], n). split; [by apply elem_of_map_to_list |].
    by rewrite (proj2 (childName_Some k (k ++ [e]) e) eq_refl).
Qed.

Lemma NoDup_children (fs : OS.Files) (k : list string) : NoDup (OS.children fs k).*1.
Proof.
  apply NoDup_fmap_fst.
  - intros e n1 n2. rewrite !elem_of_children. congruence.
  - unfold OS.children. pose proof (NoDup_map_to_list fs) as Hnodup.
    induction Hnodup as [|[k' n'] l Hnotin Hnodup IH]; [constructor |].
    cbn. destruct (OS.childName k k') as [e|] eqn:Hname; [| done].
    constructor; [| done]. rewrite list_elem_of_omap.
    intros ([k'' n''] & Hin & Hchild).
    destruct (OS.childName k k'') as [e''|] eqn:Hname''; [| done].
    injection Hchild as -> ->.
    apply childName_Some in Hname as ->. apply childName_Some in Hname'' as ->.
    done.
Qed.

Lemma insertByName_Permutation (x : string * OS.Node) (l : list (string * OS.Node)) :
  OS.insertByName x l ≡ₚ x :: l.
Proof.
  induction l as [|y l IH]; [done |]. cbn.
  destruct (String.leb _ _); [done |]. by rewrite IH, Permutation_swap.
Qed.

Lemma sortByName_Permutation (l : list (string * OS.Node)) : OS.sortByName l ≡ₚ l.
Proof.
  induction l as [|x l IH]; [done |]. cbn.
  by rewrite insertByName_Permutation, IH.
Qed.

Lemma insertByName_ascending (x : string * OS.Node) (l : list (string * OS.Node)) :
  ascending l.*1 = true → ascending (OS.insertByName x l).*1 = true.
Proof.
  induction l as [|y l IH]; [done |]. intros Hl.
  cbn [OS.insertByName]. destruct (String.leb (x.1) (y.1)) eqn:Hxy.
  - change (String.leb x.1 y.1 && ascending (y :: l).*1 = true). by rewrite Hxy.
  - assert (Hyx : String.leb y.1 x.1 = true)
      by (destruct (String.leb_total x.1 y.1); congruence).
    destruct l as [|z l]; [cbn; by rewrite Hyx |].
    change (String.leb y.1 z.1 && ascending (z :: l).*1 = true) in Hl.
    apply andb_true_iff in Hl as [Hyz Hl]. specialize (IH Hl).
    cbn [OS.insertByName] in *. destruct (String.leb x.1 z.1).
    + change (String.leb y.1 x.1 && ascending (x :: z :: l).*1 = true).
      by rewrite Hyx.
    + change (String.leb y.1 z.1 && ascending (z :: OS.insertByName x l).*1 = true).
      by rewrite Hyz.
Qed.

Lemma sortByName_ascending (l : list (string * OS.Node)) :
  ascending (OS.sortByName l).*1 = true.
Proof. induction l as [|x l IH]; [done |]. by apply insertByName_ascending. Qed.

(** The files the two directory handlers collect from the entries of the
    directory [k]. *)
Lemma listing_foldl (pathParam : string) (k : list string)
  (l : list (string * OS.Node)) (files : list FileInfo.t) :
  foldl (λ files entry,
           match OS.entryInfo entry with
           | Err _ => files
           | Ok entryInfo =>
               files ++
               [ {| FileInfo.Name := OS.entryName entry;
                    FileInfo.Path := Filepath.Join [pathParam; OS.entryName entry];
                    FileInfo.Size := OS.Size entryInfo;
                    FileInfo.IsDir := OS.entryIsDir entry;
                    FileInfo.ModTime := OS.ModTime entryInfo |} ]
           end) files
        (map (λ '(e, n), {| OS.entryName := e;
                            OS.entryIsDir := OS.IsDir (OS.infoOf (k ++ [e]) n);
                            OS.entryInfo := Ok (OS.infoOf (k ++ [e]) n) |}) l)
  = files ++ map (λ '(e, n), listedFile pathParam k e n) l.
Proof.
  revert files. induction l as [|[e n] l IH]; intros files; [by rewrite app_nil_r |].
  cbn [map foldl OS.entryInfo OS.entryName OS.entryIsDir]. rewrite IH.
  by rewrite <- app_assoc.
Qed.

Lemma listDirectory_directory (p : FilesystemProvider.t) (request : CallToolRequest.t)
  (σ : OS.State) (pathParam fullPath : string) (k : list string) (t : Z) :
  toolArguments request !! "path" = Some (VString pathParam) →
  resolvePath p σ pathParam = Ok fullPath →
  OS.lookupNode σ fullPath = inl (k, OS.Directory t) →
  listDirectory p request σ
  = toolReturn
      (NewToolResultJSON
         (DirectoryContentData
            {| DirectoryContent.Path := pathParam;
               DirectoryContent.Files :=
                 map (λ '(e, n), listedFile pathParam k e n)
                     (OS.sortByName (OS.children (OS.files σ) k)) |}))
      request.
Proof.
  intros Hpath Hresolve Hnode. unfold listDirectory.
  rewrite Hpath. cbn [assertString]. rewrite Hresolve.
  rewrite (Stat_lookupNode _ _ _ _ Hnode). cbn [OS.infoOf OS.IsDir negb].
  unfold OS.ReadDir. rewrite Hnode. by rewrite listing_foldl.
Qed.

Lemma loadDirectory_directory (p : FilesystemProvider.t) (request : LoadResourceRequest.t)
  (σ : OS.State) (pathParam fullPath : string) (k : list string) (t : Z) :
  LoadResourceRequest.Params request !! "path" = Some (VString pathParam) →
  resolvePath p σ pathParam = Ok fullPath →
  OS.lookupNode σ fullPath = inl (k, OS.Directory t) →
  loadDirectory p request σ
  = resourceReturn
      (NewResourceResultJSON
         (DirectoryContentData
            {| DirectoryContent.Path := pathParam;
               DirectoryContent.Files :=
                 map (λ '(e, n), listedFile pathParam k e n)
                     (OS.sortByName (OS.children (OS.files σ) k)) |}))
      request.
Proof.
  intros Hpath Hresolve Hnode. unfold loadDirectory.
  rewrite Hpath. cbn [assertString]. rewrite Hresolve.
  rewrite (Stat_lookupNode _ _ _ _ Hnode). cbn [OS.infoOf OS.IsDir negb].
  unfold OS.ReadDir. rewrite Hnode. by rewrite listing_foldl.
Qed.

Lemma listing_names (pathParam : string) (k : list string) (l : list (string * OS.Node)) :
  FileInfo.Name <$> map (λ '(e, n), listedFile pathParam k e n) l = l.*1.
Proof. induction l as [|[e n] l IH]; [done |]. cbn. by rewrite <- IH. Qed.

(** X14: the listing of a directory, by the tool and by the resource, has
    one entry for each immediate child of the directory and no other: the
    entry has the name of the child, as path the requested path joined with
    that name, and the size, kind and modification time of the child; the
    entries are in ascending order of name, and no name occurs twice. *)
Theorem listing_is_the_children
  (p : FilesystemProvider.t) (σ : OS.State) (toolID resourceID requestID : string)
  (arguments : gmap string Value) (pathParam fullPath : string)
  (k : list string) (t : Z) :
  arguments !! "path" = Some (VString pathParam) →
  resolvePath p σ pathParam = Ok fullPath →
  OS.lookupNode σ fullPath = inl (k, OS.Directory t) →
  ∃ files,
    listDirectory p (toolRequest toolID requestID arguments) σ
    = toolReturn
        (NewToolResultJSON
           (DirectoryContentData
              {| DirectoryContent.Path := pathParam; DirectoryContent.Files := files |}))
        (toolRequest toolID requestID arguments)
    ∧ loadDirectory p (resourceRequest resourceID requestID arguments) σ
      = resourceReturn
          (NewResourceResultJSON
             (DirectoryContentData
                {| DirectoryContent.Path := pathParam; DirectoryContent.Files := files |}))
          (resourceRequest resourceID requestID arguments)
    ∧ (∀ info, info ∈ files
               ↔ ∃ e n, OS.files σ !! (k ++ [e]) = Some n
                        ∧ info = listedFile pathParam k e n)
    ∧ NoDup (FileInfo.Name <$> files)
    ∧ ascending (FileInfo.Name <$> files) = true.
Proof.
  intros Hpath Hresolve Hnode.
  exists (map (λ '(e, n), listedFile pathParam k e n)
              (OS.sortByName (OS.children (OS.files σ) k))).
  split; [by eapply listDirectory_directory |].
  split; [by eapply loadDirectory_directory |].
  split; [| split].
  - intros info. rewrite list_elem_of_fmap. split.
    + intros ([e n] & -> & Hin). exists e, n. split; [| done].
      apply elem_of_children. by rewrite <- (sortByName_Permutation _).
    + intros (e & n & Hlookup & ->). exists (e, n). split; [done |].
      rewrite (sortByName_Permutation _). by apply elem_of_children.
  - rewrite listing_names, (sortByName_Permutation _). apply NoDup_children.
  - rewrite listing_names. apply sortByName_ascending.
Qed.

Lemma listing_is_the_children_witness :
  ∃ files,
    listDirectory sandbox
      (toolRequest "filesystem.list" "req-1" {[ "path" := VString "notes" ]}) notesState
    = toolReturn
        (NewToolResultJSON
           (DirectoryContentData
              {| DirectoryContent.Path := "notes"; DirectoryContent.Files := files |}))
        (toolRequest "filesystem.list" "req-1" {[ "path" := VString "notes" ]})
    ∧ loadDirectory sandbox
        (resourceRequest "filesystem.directory" "req-1" {[ "path" := VString "notes" ]})
        notesState
      = resourceReturn
          (NewResourceResultJSON
             (DirectoryContentData
                {| DirectoryContent.Path := "notes"; DirectoryContent.Files := files |}))
          (resourceRequest "filesystem.directory" "req-1"
             {[ "path" := VString "notes" ]})
    ∧ (∀ info, info ∈ files
               ↔ ∃ e n, OS.files notesState !! (["sandbox"; "notes"] ++ [e]) = Some n
                        ∧ info = listedFile "notes" ["sandbox"; "notes"] e n)
    ∧ NoDup (FileInfo.Name <$> files)
    ∧ ascending (FileInfo.Name <$> files) = true.
Proof.
  apply (listing_is_the_children sandbox notesState "filesystem.list"
           "filesystem.directory" "req-1" {[ "path" := VString "notes" ]}
           "notes" "/sandbox/notes" ["sandbox"; "notes"] 1); reflexivity.
Defined.

(** ** When reading and listing succeed *)

Lemma readFile_status (p : FilesystemProvider.t) (request : CallToolRequest.t)
  (σ : OS.State) :
  toolStatus (readFile p request σ)
  = Some (if isFile (target p σ (toolArguments request !! "path"))
          then "success" else "error").
Proof.
  unfold readFile, target.
  destruct (assertString (toolArguments request !! "path")) as [pathParam|]; [| done].
  destruct (resolvePath p σ pathParam) as [fullPath|err]; [| done].
  unfold OS.Stat, OS.ReadFile.
  destruct (OS.lookupNode σ fullPath) as [[k [data t|t]]|e]; cbn [OS.infoOf OS.IsDir isFile].
  - by destruct (String.eqb _ "base64").
  - done.
  - by destruct (OS.IsNotExist _).
Qed.

Lemma loadFile_status (p : FilesystemProvider.t) (request : LoadResourceRequest.t)
  (σ : OS.State) :
  resourceStatus (loadFile p request σ)
  = Some (if isFile (target p σ (LoadResourceRequest.Params request !! "path"))
          then "success" else "error").
Proof.
  unfold loadFile, target.
  destruct (assertString (LoadResourceRequest.Params request !! "path"))
    as [pathParam|]; [| done].
  destruct (resolvePath p σ pathParam) as [fullPath|err]; [| done].
  unfold OS.Stat, OS.ReadFile.
  destruct (OS.lookupNode σ fullPath) as [[k [data t|t]]|e]; cbn [OS.infoOf OS.IsDir isFile].
  - by destruct (String.eqb _ "base64").
  - done.
  - by destruct (OS.IsNotExist _).
Qed.

Lemma listDirectory_status (p : FilesystemProvider.t) (request : CallToolRequest.t)
  (σ : OS.State) :
  toolStatus (listDirectory p request σ)
  = Some (if isDirectory (target p σ (toolArguments request !! "path"))
          then "success" else "error").
Proof.
  unfold listDirectory, target.
  destruct (assertString (toolArguments request !! "path")) as [pathParam|]; [| done].
  destruct (resolvePath p σ pathParam) as [fullPath|err]; [| done].
  unfold OS.Stat, OS.ReadDir.
  destruct (OS.lookupNode σ fullPath) as [[k [data t|t]]|e];
    cbn [OS.infoOf OS.IsDir isDirectory negb]; [done | done |].
  by destruct (OS.IsNotExist _).
Qed.

Lemma loadDirectory_status (p : FilesystemProvider.t) (request : LoadResourceRequest.t)
  (σ : OS.State) :
  resourceStatus (loadDirectory p request σ)
  = Some (if isDirectory (target p σ (LoadResourceRequest.Params request !! "path"))
          then "success" else "error").
Proof.
  unfold loadDirectory, target.
  destruct (assertString (LoadResourceRequest.Params request !! "path"))
    as [pathParam|]; [| done].
  destruct (resolvePath p σ pathParam) as [fullPath|err]; [| done].
  unfold OS.Stat, OS.ReadDir.
  destruct (OS.lookupNode σ fullPath) as [[k [data t|t]]|e];
    cbn [OS.infoOf OS.IsDir isDirectory negb]; [done | done |].
  by destruct (OS.IsNotExist _).
Qed.

(** X15: reading succeeds exactly when the path of the request is a string
    that [resolvePath] accepts and that names a file, and listing exactly
    when it names a directory; every other request has the status [error].
    So once [os.Stat] has told the kind of the node, [os.ReadFile] and
    [os.ReadDir] do not fail: the filesystem modelled has no permissions
    and no errors of the device.  The resources behave as the tools. *)
Theorem read_and_list_status
  (p : FilesystemProvider.t) (σ : OS.State) (toolID resourceID requestID : string)
  (arguments : gmap string Value) :
  toolStatus (readFile p (toolRequest toolID requestID arguments) σ)
  = Some (if isFile (target p σ (arguments !! "path")) then "success" else "error")
  ∧ resourceStatus (loadFile p (resourceRequest resourceID requestID arguments) σ)
    = Some (if isFile (target p σ (arguments !! "path")) then "success" else "error")
  ∧ toolStatus (listDirectory p (toolRequest toolID requestID arguments) σ)
    = Some (if isDirectory (target p σ (arguments !! "path"))
            then "success" else "error")
  ∧ resourceStatus (loadDirectory p (resourceRequest resourceID requestID arguments) σ)
    = Some (if isDirectory (target p σ (arguments !! "path"))
            then "success" else "error").
Proof.
  split; [apply readFile_status |]. split; [apply loadFile_status |].
  split; [apply listDirectory_status | apply loadDirectory_status].
Qed.

(** ** Deleting *)

Lemma isPrefixOf_refl (k : list string) : OS.isPrefixOf k k = true.
Proof. induction k as [|c k IH]; [done |]. cbn. by rewrite String.eqb_refl. Qed.

(** The steps of a delete that succeeded. *)
Lemma deleteFile_success_steps (p : FilesystemProvider.t) (request : CallToolRequest.t)
  (σ σ' : OS.State) (result : CallToolResult.t) :
  deleteFile p request σ = ((Some result, None), σ') →
  CallToolResult.Status result = "success" →
  ∃ pathParam fullPath k n,
    toolArguments request !! "path" = Some (VString pathParam)
    ∧ resolvePath p σ pathParam = Ok fullPath
    ∧ OS.lookupNode σ fullPath = inl (k, n)
    ∧ k ≠ []
    ∧ ((σ' = OS.setFiles σ (delete k (OS.files σ))
        ∧ (isDirectory (Some (k, n)) = true →
           OS.children (OS.files σ) k = []
           ∧ toolArguments request !! "recursive" ≠ Some (VBool true)))
       ∨ (σ' = OS.setFiles σ (filter (λ kn, OS.isPrefixOf k (fst kn) = false)
                                     (OS.files σ))
          ∧ isDirectory (Some (k, n)) = true
          ∧ toolArguments request !! "recursive" = Some (VBool true))).
Proof.
  unfold deleteFile, toolReturn.
  destruct (toolArguments request !! "path") as [[| | |pathParam| |]|] eqn:Hpath;
    cbn [assertString]; try (intros [= <- _] Hs; discriminate Hs).
  destruct (resolvePath p σ pathParam) as [fullPath|err] eqn:Hresolve;
    [| intros [= <- _] Hs; discriminate Hs].
  unfold OS.Stat.
  destruct (OS.lookupNode σ fullPath) as [[k [data t|t]]|e] eqn:Hnode;
    cbn [OS.infoOf OS.IsDir].
  - (* a file *)
    unfold OS.Remove. rewrite Hnode.
    destruct k as [|c k]; [intros [= <- _] Hs; discriminate Hs |].
    intros [= _ <-] _. exists pathParam, fullPath, (c :: k), (OS.File data t).
    repeat split; try done. by left.
  - (* a directory *)
    destruct (toolArguments request !! "recursive") as [[|[|]| | | |]|] eqn:Hrecursive;
      cbn [assertBool].
    2: { unfold OS.RemoveAll. rewrite Hnode.
         destruct k as [|c k]; [intros [= <- _] Hs; discriminate Hs |].
         intros [= _ <-] _. exists pathParam, fullPath, (c :: k), (OS.Directory t).
         repeat split; try done. by right. }
    all: unfold OS.ReadDir; rewrite Hnode;
      destruct (OS.children (OS.files σ) k) as [|child rest] eqn:Hchildren;
      [| pose proof (sortByName_not_nil (child :: rest) ltac:(done)) as Hsorted;
         destruct (OS.sortByName (child :: rest)); [done |];
         intros [= <- _] Hs; discriminate Hs];
      cbn [OS.sortByName foldr map List.length Nat.ltb Nat.leb];
      unfold OS.Remove; rewrite Hnode, Hchildren;
      (destruct k as [|c k]; [intros [= <- _] Hs; discriminate Hs |]);
      intros [= _ <-] _; exists pathParam, fullPath, (c :: k), (OS.Directory t);
      repeat split; try done; by left.
  - destruct (OS.IsNotExist _); intros [= <- _] Hs; discriminate Hs.
Qed.

Lemma removes_delete (fs : OS.Files) (k : list string) :
  k ≠ [] → removes fs (delete k fs).
Proof.
  intros Hnil [|c0 c]; [by left |]. cbn [OS.nodeAt].
  destruct (decide (k = c0 :: c)) as [-> | Hne].
  - right. apply lookup_delete_eq.
  - left. by apply lookup_delete_ne.
Qed.

Lemma removes_filter (fs : OS.Files) (P : list string * OS.Node → Prop)
  `{!∀ kn, Decision (P kn)} :
  removes fs (filter P fs).
Proof.
  intros [|c0 c]; [by left |]. cbn [OS.nodeAt].
  destruct (filter P fs !! (c0 :: c)) as [n|] eqn:Hfilter; [| by right].
  left. apply map_lookup_filter_Some in Hfilter as [Hlookup _]. by rewrite Hlookup.
Qed.

Lemma namei_removes (fs fs' : OS.Files) (elems cur k : list string) :
  removes fs fs' →
  OS.namei fs cur elems = inl k →
  OS.namei fs' cur elems = inl k ∨ OS.namei fs' cur elems = inr ENOENT.
Proof.
  intros Hremoves. revert cur. induction elems as [|e rest IH]; intros cur; [by left |].
  cbn [OS.namei].
  destruct (Hremoves cur) as [-> | ->]; [| by right].
  destruct (OS.nodeAt fs cur) as [[|]|]; try done.
  destruct (_ || _); [apply IH |]. destruct (String.eqb e ".."); apply IH.
Qed.

Lemma lookupNode_removes (σ σ' : OS.State) (name : string) (k : list string)
  (n : OS.Node) :
  OS.cwd σ' = OS.cwd σ →
  removes (OS.files σ) (OS.files σ') →
  OS.nodeAt (OS.files σ') k = None →
  OS.lookupNode σ name = inl (k, n) →
  OS.lookupNode σ' name = inr ENOENT.
Proof.
  intros Hcwd Hremoves Hgone. unfold OS.lookupNode, OS.resolve. rewrite Hcwd.
  destruct (String.eqb name ""); [done |].
  destruct (OS.namei (OS.files σ) _ _) as [k'|] eqn:Hnamei; [| done].
  destruct (OS.nodeAt (OS.files σ) k') as [n'|]; [| done]. intros [= -> ->].
  destruct (namei_removes _ _ _ _ _ Hremoves Hnamei) as [-> | ->]; [| done].
  by rewrite Hgone.
Qed.



(** ** After a delete *)

Lemma Abs_agree (getwd getwd' : result string) (path abs abs' : string) :
  (∀ wd wd', getwd = Ok wd → getwd' = Ok wd' → wd = wd') →
  Filepath.Abs getwd path = Ok abs → Filepath.Abs getwd' path = Ok abs' → abs = abs'.
Proof.
  intros Hwd. unfold Filepath.Abs. destruct (Filepath.IsAbs path); [congruence |].
  destruct getwd as [wd|]; [| done]. destruct getwd' as [wd'|]; [| done].
  rewrite (Hwd wd wd' eq_refl eq_refl). congruence.
Qed.

(** What [resolvePath] returns depends on the filesystem through the
    working directory only. *)
Lemma resolvePath_agree (p : FilesystemProvider.t) (σ σ' : OS.State)
  (path fullPath fullPath' : string) :
  OS.cwd σ' = OS.cwd σ →
  resolvePath p σ path = Ok fullPath → resolvePath p σ' path = Ok fullPath' →
  fullPath = fullPath'.
Proof.
  intros Hcwd. unfold resolvePath.
  destruct (Filepath.IsAbs path); [congruence |].
  destruct (_ || _); [done |].
  assert (Hwd : ∀ wd wd', OS.Getwd σ = Ok wd → OS.Getwd σ' = Ok wd' → wd = wd').
  { unfold OS.Getwd. rewrite Hcwd. intros wd wd'.
    destruct (OS.nodeAt (OS.files σ) _) as [[|]|]; try done.
    destruct (OS.nodeAt (OS.files σ') _) as [[|]|]; try done. congruence. }
  destruct (Filepath.Abs (OS.Getwd σ) (Filepath.Join _)) as [absPath|] eqn:Habs; [| done].
  destruct (Filepath.Abs (OS.Getwd σ') (Filepath.Join _)) as [absPath'|] eqn:Habs';
    [| done].
  rewrite (Abs_agree _ _ _ _ _ Hwd Habs Habs').
  destruct (Filepath.IsAbs (FilesystemProvider.rootDir p)); [| congruence].
  destruct (Filepath.Abs (OS.Getwd σ) (FilesystemProvider.rootDir p)) as [rootAbs|];
    [| done].
  destruct (Filepath.Abs (OS.Getwd σ') (FilesystemProvider.rootDir p)) as [rootAbs'|];
    [| done].
  do 2 (destruct (negb _); [done |]). congruence.
Qed.

(** A delete of what is no node changes nothing. *)
Lemma deleteFile_no_target (p : FilesystemProvider.t) (request : CallToolRequest.t)
  (σ : OS.State) :
  target p σ (toolArguments request !! "path") = None →
  ∃ result, deleteFile p request σ = ((Some result, None), σ)
            ∧ CallToolResult.Status result = "error".
Proof.
  unfold target, deleteFile, toolReturn.
  destruct (assertString (toolArguments request !! "path")) as [pathParam|];
    [| by eexists].
  destruct (resolvePath p σ pathParam) as [fullPath|err]; [| by eexists].
  unfold OS.Stat. destruct (OS.lookupNode σ fullPath) as [kn|e]; [done |].
  destruct (OS.IsNotExist _); by eexists.
Qed.

(** X17: once a delete has succeeded, the path it was given names nothing
    for the provider: reading it and listing it have the status [error],
    and deleting it again has the status [error] and changes nothing. *)
Theorem deleted_path_is_gone
  (p : FilesystemProvider.t) (request again : CallToolRequest.t)
  (σ σ' : OS.State) (result : CallToolResult.t) :
  deleteFile p request σ = ((Some result, None), σ') →
  CallToolResult.Status result = "success" →
  toolArguments again !! "path" = toolArguments request !! "path" →
  toolStatus (readFile p again σ') = Some "error"
  ∧ toolStatus (listDirectory p again σ') = Some "error"
  ∧ ∃ result', deleteFile p again σ' = ((Some result', None), σ')
               ∧ CallToolResult.Status result' = "error".
Proof.
  intros Hdelete Hsuccess Hagain.
  destruct (deleteFile_success_steps _ _ _ _ _ Hdelete Hsuccess)
    as (pathParam & fullPath & k & n & Hpath & Hresolve & Hnode & Hnil & Hcases).
  assert (Hk : ∀ fs : OS.Files, fs !! k = OS.nodeAt fs k)
    by (intros fs; by destruct k).
  assert (Hgone : OS.cwd σ' = OS.cwd σ ∧ OS.lookupNode σ' fullPath = inr ENOENT).
  { destruct Hcases as [[-> _] | (-> & _ & _)]; (split; [done |]);
      apply (lookupNode_removes σ _ fullPath k n); try done;
      cbn [OS.setFiles OS.files].
    - by apply removes_delete.
    - rewrite <- Hk. apply lookup_delete_eq.
    - by apply removes_filter.
    - rewrite <- Hk. apply map_lookup_filter_None.
      right. intros x _. cbn. by rewrite isPrefixOf_refl. }
  destruct Hgone as [Hcwd Hgone].
  assert (Htarget : target p σ' (toolArguments again !! "path") = None).
  { rewrite Hagain, Hpath. unfold target. cbn [assertString].
    destruct (resolvePath p σ' pathParam) as [fullPath'|err] eqn:Hresolve'; [| done].
    rewrite <- (resolvePath_agree _ _ _ _ _ _ Hcwd Hresolve Hresolve').
    by rewrite Hgone. }
  split; [by rewrite readFile_status, Htarget |].
  split; [by rewrite listDirectory_status, Htarget |].
  by apply deleteFile_no_target.
Qed.

Lemma deleted_path_is_gone_witness :
  toolStatus (readFile sandbox
                (toolRequest "filesystem.read" "req-2" {[ "path" := VString "new" ]})
                sandboxState) = Some "error"
  ∧ toolStatus (listDirectory sandbox
                  (toolRequest "filesystem.read" "req-2" {[ "path" := VString "new" ]})
                  sandboxState) = Some "error"
  ∧ ∃ result',
      deleteFile sandbox
        (toolRequest "filesystem.read" "req-2" {[ "path" := VString "new" ]})
        sandboxState
      = ((Some result', None), sandboxState)
      ∧ CallToolResult.Status result' = "error".
Proof.
  apply (deleted_path_is_gone sandbox
           (toolRequest "filesystem.delete" "req-1"
              {[ "path" := VString "new"; "recursive" := VBool true ]})
           (toolRequest "filesystem.read" "req-2" {[ "path" := VString "new" ]})
           newDirState sandboxState
           {| CallToolResult.RequestID := "req-1";
              CallToolResult.Status := "success";
              CallToolResult.Result := Some (PayloadText "Successfully deleted: new");
              CallToolResult.Error := None |}).
  - vm_compute. reflexivity.
  - reflexivity.
  - reflexivity.
Defined.

(** ** When deleting succeeds *)


(** ** Writing below directories that do not exist yet *)
















(** ** Writing again *)

(** [mkdirAll] where the directories it made are there makes nothing. *)
Lemma mkdirAll_again (now now' : Z) (elems : list string) (fs fs1 fs2 : OS.Files)
  (cur : list string) :
  OS.mkdirAll now fs cur elems = (fs1, None) →
  (∀ k t, k ≠ [] → fs1 !! k = Some (OS.Directory t) → fs2 !! k = Some (OS.Directory t)) →
  OS.mkdirAll now' fs2 cur elems = (fs2, None).
Proof.
  revert fs cur. induction elems as [|e elems IH]; intros fs cur Hmk Hkeep; [done |].
  cbn [OS.mkdirAll] in *.
  destruct (String.eqb e "" || String.eqb e "."); [by eapply IH |].
  destruct (String.eqb e ".."); [by eapply IH |].
  assert (Hk : cur ++ [e] ≠ []) by by destruct cur.
  assert (Hdir : ∃ t, fs1 !! (cur ++ [e]) = Some (OS.Directory t)
                      ∧ ∃ fs0, OS.mkdirAll now fs0 (cur ++ [e]) elems = (fs1, None)).
  { destruct (fs !! (cur ++ [e])) as [[data t|t]|] eqn:Hcur; [done | |].
    - exists t. split; [| by exists fs].
      destruct (mkdirAll_extends _ _ _ _ _ _ Hmk (cur ++ [e])) as [-> | [? _]];
        congruence.
    - exists now. split; [| by eexists].
      destruct (mkdirAll_extends _ _ _ _ _ _ Hmk (cur ++ [e])) as [-> | [Hnone _]].
      + apply lookup_insert_eq.
      + by rewrite lookup_insert_eq in Hnone. }
  destruct Hdir as (t & Hdir & fs0 & Hrest).
  rewrite (Hkeep _ _ Hk Hdir). by eapply IH.
Qed.

Lemma keepsDirectories_lookup (σ σ' : OS.State) (k : list string) (t : Z) :
  keepsDirectories σ σ' → k ≠ [] →
  OS.files σ !! k = Some (OS.Directory t) → OS.files σ' !! k = Some (OS.Directory t).
Proof. intros [_ Hkeeps] Hk. destruct k as [|c k]; [done |]. apply (Hkeeps (c :: k)). Qed.

(** X20: a write that has succeeded can be repeated: the same request, at
    any later time, succeeds with the same answer, creates nothing, and
    changes nothing but the modification time of the file. *)
Theorem write_again
  (p : FilesystemProvider.t) (request : CallToolRequest.t)
  (σ σ' : OS.State) (result : CallToolResult.t) :
  writeFile p request σ = ((Some result, None), σ') →
  CallToolResult.Status result = "success" →
  ∃ k data,
    OS.files σ' !! k = Some (OS.File data (OS.clock σ))
    ∧ ∀ later,
        writeFile p request (atTime σ' later)
        = ((Some result, None),
           atTime (OS.setFiles σ' (<[k := OS.File data later]> (OS.files σ'))) later).
Proof.
  intros Hwrite Hsuccess.
  destruct (writeFile_success_steps _ _ _ _ _ Hwrite Hsuccess)
    as (pathParam & contentParam & fullPath & σ1 & data
        & Hpath & Hcontent & Hresolve & Hmkdir & Hdecoded & Hfile).
  assert (Hresult : toolReturn
                      (NewToolResultText ("File written successfully: " +:+ pathParam))
                      request = (Some result, None)).
  { revert Hwrite. unfold writeFile. rewrite Hpath, Hcontent. cbn [assertString].
    rewrite Hresolve, Hmkdir, Hdecoded, Hfile. congruence. }
  destruct (MkdirAll_extends _ _ _ _ Hmkdir) as (Hcwd & Hclock & _).
  pose proof (MkdirAll_keepsDirectories _ _ _ _ Hmkdir) as Hkeeps1.
  pose proof (WriteFile_keepsDirectories _ _ _ _ _ Hfile) as Hkeeps2.
  destruct (WriteFile_success _ _ _ _ Hfile) as (k & Hk & Hnil & Hnodir & Hσ').
  exists k, data. split.
  { rewrite Hσ'. cbn [OS.setFiles OS.files]. by rewrite lookup_insert_eq, Hclock. }
  intros later.
  assert (Hkeeps3 : keepsDirectories σ' (atTime σ' later)) by done.
  assert (Hresolve' : resolvePath p (atTime σ' later) pathParam = Ok fullPath).
  { apply (resolvePath_keepsDirectories p σ); [| done].
    eauto using keepsDirectories_trans. }
  assert (Hmkdir' : OS.MkdirAll (atTime σ' later) (Filepath.Dir fullPath)
                    = (atTime σ' later, None)).
  { revert Hmkdir. unfold OS.MkdirAll.
    destruct (String.eqb (Filepath.Dir fullPath) ""); [done |].
    cbn [atTime OS.cwd OS.files OS.clock].
    pose proof (proj1 Hkeeps2) as Hcwd2. pose proof (proj2 Hkeeps1) as Hdirs1.
    pose proof (proj2 Hkeeps2) as Hdirs2.
    replace (OS.cwd σ') with (OS.cwd σ) by congruence.
    set (start := if Filepath.IsAbs (Filepath.Dir fullPath) then [] else OS.cwd σ).
    destruct (OS.nodeAt (OS.files σ) start) as [[|t]|] eqn:Hstart; try done.
    rewrite (Hdirs2 _ _ (Hdirs1 _ _ Hstart)).
    destruct (OS.mkdirAll (OS.clock σ) (OS.files σ) start _) as [fs1 [err|]] eqn:Hmk;
      [done |].
    intros [= <-].
    erewrite mkdirAll_again; [| exact Hmk |].
    - unfold OS.setFiles, atTime. cbn. by rewrite Hcwd2, Hcwd.
    - intros k' t' Hk' Hdir.
      exact (keepsDirectories_lookup (OS.setFiles σ fs1) σ' k' t' Hkeeps2 Hk' Hdir). }
  assert (Hfile' : OS.WriteFile (atTime σ' later) fullPath data
                   = (atTime (OS.setFiles σ' (<[k := OS.File data later]> (OS.files σ')))
                             later, None)).
  { unfold OS.WriteFile.
    assert (Hk' : OS.resolve (atTime σ' later) fullPath = inl k).
    { destruct (WriteFile_lookupNode _ _ _ _ Hfile) as [k' Hnode].
      assert (Hinsert := lookupNode_insert σ1 fullPath k
                           (OS.File data (OS.clock σ1)) Hk Hnil Hnodir).
      rewrite <- Hσ' in Hinsert. revert Hinsert. unfold OS.lookupNode.
      change (OS.resolve (atTime σ' later) fullPath) with (OS.resolve σ' fullPath).
      destruct (OS.resolve σ' fullPath) as [k0|]; [| done].
      destruct (OS.nodeAt (OS.files σ') k0); [| done]. by intros [= ->]. }
    rewrite Hk'. cbn [atTime OS.files OS.clock].
    destruct k as [|c k]; [done |].
    rewrite Hσ' at 1. cbn [OS.setFiles OS.files]. by rewrite lookup_insert_eq. }
  unfold writeFile. rewrite Hpath, Hcontent. cbn [assertString].
  by rewrite Hresolve', Hmkdir', Hdecoded, Hfile', Hresult.
Qed.

Lemma write_again_witness :
  ∃ k data,
    OS.files notesState !! k = Some (OS.File data (OS.clock sandboxState))
    ∧ ∀ later,
        writeFile sandbox
          (toolRequest "filesystem.write" "req-1"
             {[ "path" := VString "notes/a.txt"; "content" := VString "hi" ]})
          (atTime notesState later)
        = ((Some {| CallToolResult.RequestID := "req-1";
                    CallToolResult.Status := "success";
                    CallToolResult.Result :=
                      Some (PayloadText "File written successfully: notes/a.txt");
                    CallToolResult.Error := None |}, None),
           atTime (OS.setFiles notesState
                     (<[k := OS.File data later]> (OS.files notesState))) later).
Proof.
  apply (write_again sandbox
           (toolRequest "filesystem.write" "req-1"
              {[ "path" := VString "notes/a.txt"; "content" := VString "hi" ]})
           sandboxState notesState).
  - vm_compute. reflexivity.
  - reflexivity.
Defined.

(** ** The identity of the server *)

Lemma RegisterProvider_identity {S : Type} (providers : list (Provider S))
  (s : MCPServer.t S) :
  MCPServer.Name (foldl RegisterProvider s providers) = MCPServer.Name s
  ∧ MCPServer.Version (foldl RegisterProvider s providers) = MCPServer.Version s
  ∧ MCPServer.Description (foldl RegisterProvider s providers) = MCPServer.Description s.
Proof.
  revert s. induction providers as [|provider providers IH]; intros s; [done |].
  cbn [foldl]. by destruct (IH (RegisterProvider s provider)) as (-> & -> & ->).
Qed.

Lemma handleDiscover_ServerInfo {S : Type} (s : MCPServer.t S) :
  DiscoverResponse.ServerInfo (snd (handleDiscover s))
  = {| ServerInfo.Name := MCPServer.Name s;
       ServerInfo.Version := MCPServer.Version s;
       ServerInfo.Description := MCPServer.Description s |}.
Proof.
  unfold handleDiscover. cbn [snd].
  generalize (map_to_list (MCPServer.Providers s)). intros l.
  set (info := {| ServerInfo.Name := _ |}).
  set (r0 := {| DiscoverResponse.Providers := [] |}).
  change info with (DiscoverResponse.ServerInfo r0). generalize r0. clear r0.
  induction l as [|[name provider] l IH]; intros r0; [reflexivity |].
  cbn [foldl]. by rewrite IH.
Qed.

(** X21: the name, the version and the description given to
    [NewMCPServer] are what the server reports, whatever providers are
    registered afterwards and in whatever order: the information endpoint
    answers 200 with them and the protocol [mcp], and the discover endpoint
    reports the same three. *)
Theorem server_identity {S : Type} (name version description : string)
  (providers : list (Provider S)) :
  let s := foldl RegisterProvider (NewMCPServer name version description) providers in
  handleServerInfo s
  = (StatusOK, {[ "name" := VString name; "version" := VString version;
                  "description" := VString description;
                  "protocol" := VString "mcp" ]})
  ∧ DiscoverResponse.ServerInfo (snd (handleDiscover s))
    = {| ServerInfo.Name := name; ServerInfo.Version := version;
         ServerInfo.Description := description |}.
Proof.
  intros s.
  destruct (RegisterProvider_identity providers
              (NewMCPServer name version description)) as (Hname & Hversion & Hdescription).
  fold s in Hname, Hversion, Hdescription. cbn in Hname, Hversion, Hdescription.
  split.
  - unfold handleServerInfo. by rewrite Hname, Hversion, Hdescription.
  - rewrite handleDiscover_ServerInfo. by rewrite Hname, Hversion, Hdescription.
Qed.

(** ** The calls of the tests, on any filesystem *)

Lemma handleCallTool_filesystem (toolName : string) (requestID : string)
  (arguments : gmap string Value) (σ σ' : OS.State) (data : Data) :
  toolName = "read" ∨ toolName = "list" →
  FilesystemProvider_CallTool NewFilesystemProvider toolName
    (toolRequest ("filesystem." +:+ toolName) requestID arguments) σ
  = (toolReturn (NewToolResultJSON data)
       (toolRequest ("filesystem." +:+ toolName) requestID arguments), σ') →
  handleCallTool setupTestServer
    (Ok (toolRequest ("filesystem." +:+ toolName) requestID arguments)) σ
  = (JSON StatusOK (BodyToolResult (toolJSON requestID data)), σ').
Proof.
  intros Hname Hcall. unfold handleCallTool.
  assert (Hparse : parseToolID
                     (CallToolRequest.ToolID
                        (toolRequest ("filesystem." +:+ toolName) requestID arguments))
                   = Ok ("filesystem", toolName))
    by (by destruct Hname as [-> | ->]).
  rewrite Hparse.
  change (MCPServer.Providers setupTestServer !! "filesystem")
    with (Some (FilesystemProvider_Provider NewFilesystemProvider)).
  cbn [CallTool FilesystemProvider_Provider]. rewrite Hcall.
  unfold toolReturn, NewToolResultJSON, toolJSON. cbn.
  by destruct (String.eqb requestID "").
Qed.

(** X22: what the tests of the repository call holds on every filesystem.
    On the server they set up, a [filesystem.read] of an absolute path that
    names a file is answered 200 with the request ID, the status [success]
    and, as JSON, the path as given, the bytes of the file as text and
    [is_text] true; a [filesystem.list] of an absolute path that names a
    directory whose one child is a file is answered 200 with the path as
    given and one entry, which has the name of the file. *)
Theorem test_calls_succeed (σ : OS.State) (requestID : string) :
  (∀ (name : string) (k : list string) (data : list ascii) (t : Z),
     Filepath.IsAbs name = true →
     OS.lookupNode σ name = inl (k, OS.File data t) →
     handleCallTool setupTestServer
       (Ok (toolRequest "filesystem.read" requestID {[ "path" := VString name ]})) σ
     = (JSON StatusOK
          (BodyToolResult
             (toolJSON requestID
                (FileContentData {| FileContent.Path := name;
                                    FileContent.Content := string_of_list_ascii data;
                                    FileContent.IsText := true |}))), σ))
  ∧
  (∀ (tempDir : string) (k : list string) (t : Z) (file : string)
     (data : list ascii) (modTime : Z),
     Filepath.IsAbs tempDir = true →
     OS.lookupNode σ tempDir = inl (k, OS.Directory t) →
     OS.children (OS.files σ) k = [(file, OS.File data modTime)] →
     handleCallTool setupTestServer
       (Ok (toolRequest "filesystem.list" requestID {[ "path" := VString tempDir ]})) σ
     = (JSON StatusOK
          (BodyToolResult
             (toolJSON requestID
                (DirectoryContentData
                   {| DirectoryContent.Path := tempDir;
                      DirectoryContent.Files :=
                        [ {| FileInfo.Name := file;
                             FileInfo.Path := Filepath.Join [tempDir; file];
                             FileInfo.Size := Z.of_nat (List.length data);
                             FileInfo.IsDir := false;
                             FileInfo.ModTime := modTime |} ] |}))), σ)).
Proof.
  split.
  - intros name k data t Habs Hnode.
    apply (handleCallTool_filesystem "read"); [by left |].
    rewrite (proj1 (proj2 (CallTool_dispatch _ _ _))).
    erewrite readFile_file; [reflexivity | done | | exact Hnode].
    unfold resolvePath. by rewrite Habs.
  - intros tempDir k t file data modTime Habs Hnode Hchildren.
    apply (handleCallTool_filesystem "list"); [by right |].
    rewrite (proj1 (CallTool_dispatch _ _ _)).
    erewrite listDirectory_directory; [| done | | exact Hnode].
    + by rewrite Hchildren.
    + unfold resolvePath. by rewrite Habs.
Qed.

(** ** What is missing, and what is of the other kind *)




